(** * Kalkulacka: the computational core of [calculator.py]

    A shallow embedding of the three classes the calculator's window
    delegates to: [NumberBaseConverter], [ExpressionEvaluator] and
    [HistoryManager], together with the [calculate] handler of
    [CalculatorUI] that ties the evaluator to the history.

    Conventions of the embedding.
    - A Python [str] is a [string], one [ascii] per character.  The
      character classes below follow CPython on the code points below 128.
    - A Python [int] is a [Z].
    - A Python [float] is a [spec_float] at precision 53 and maximal
      exponent 1024 (IEEE 754 binary64).
    - A function that may raise returns a [result]: [Ok v] or
      [Raise (Exn cls msg)], the exception class and its message. *)

From Stdlib Require Import ZArith List String Ascii Bool Lia.
From Stdlib Require Import Floats.SpecFloat.
Import ListNotations.

Local Open Scope string_scope.
Local Open Scope Z_scope.

(** ** Exceptions and results *)

(** The exception classes the program tells apart in its [except]
    clauses.  [OtherException] stands for every other subclass of
    [Exception]. *)
Inductive exn_class : Type :=
  | ZeroDivisionError
  | SyntaxError
  | ValueError
  | TypeError
  | NameError
  | OverflowError
  | OtherException.

Record exn : Type := Exn { exn_cls : exn_class; exn_msg : string }.

Inductive result (A : Type) : Type :=
  | Ok (a : A)
  | Raise (e : exn).

Arguments Ok {A} a.
Arguments Raise {A} e.

Definition bind {A B : Type} (r : result A) (k : A -> result B) : result B :=
  match r with
  | Ok a => k a
  | Raise e => Raise e
  end.

Notation "x <- r ;; k" := (bind r (fun x => k))
  (at level 61, r at next level, right associativity).

Definition exn_class_eqb (a b : exn_class) : bool :=
  match a, b with
  | ZeroDivisionError, ZeroDivisionError
  | SyntaxError, SyntaxError
  | ValueError, ValueError
  | TypeError, TypeError
  | NameError, NameError
  | OverflowError, OverflowError
  | OtherException, OtherException => true
  | _, _ => false
  end.

(** [try: body except (caught...) as e: handler e] *)
Definition try_except {A : Type} (body : result A) (caught : list exn_class)
    (handler : exn -> result A) : result A :=
  match body with
  | Ok a => Ok a
  | Raise e =>
      if existsb (exn_class_eqb (exn_cls e)) caught then handler e
      else Raise e
  end.

(** ** Characters and strings *)

Definition code (c : ascii) : Z := Z.of_N (N_of_ascii c).

Definition in_range (lo hi : Z) (c : ascii) : bool :=
  (lo <=? code c) && (code c <=? hi).

Definition is_digit (c : ascii) : bool := in_range 48 57 c.
Definition is_lower (c : ascii) : bool := in_range 97 122 c.
Definition is_upper (c : ascii) : bool := in_range 65 90 c.

Definition chr (n : Z) : ascii := ascii_of_N (Z.to_N n).

Definition upper_char (c : ascii) : ascii :=
  if is_lower c then chr (code c - 32) else c.

Definition lower_char (c : ascii) : ascii :=
  if is_upper c then chr (code c + 32) else c.

Fixpoint str_map (f : ascii -> ascii) (s : string) : string :=
  match s with
  | EmptyString => EmptyString
  | String c r => String (f c) (str_map f r)
  end.

(** [s.upper()] *)
Definition upper (s : string) : string := str_map upper_char s.

(** [s * n] *)
Fixpoint str_repeat (s : string) (n : nat) : string :=
  match n with
  | O => EmptyString
  | S k => s ++ str_repeat s k
  end.

(** [''.join(l)] *)
Definition join (l : list string) : string := String.concat "" l.

(** [reversed(s)], as the list of its characters *)
Definition reversed (s : string) : list ascii := rev (list_ascii_of_string s).

(** [s[i]] *)
Definition str_index (s : string) (i : Z) : result ascii :=
  match (if i <? 0 then None else String.get (Z.to_nat i) s) with
  | Some c => Ok c
  | None => Raise (Exn OtherException "string index out of range")
  end.

(** [s[n:]] *)
Fixpoint drop (n : nat) (s : string) : string :=
  match n, s with
  | O, _ => s
  | S k, EmptyString => EmptyString
  | S k, String _ r => drop k r
  end.

Fixpoint str_forallb (p : ascii -> bool) (s : string) : bool :=
  match s with
  | EmptyString => true
  | String c r => p c && str_forallb p r
  end.

(** The longest prefix of [s] whose characters satisfy [p], and the rest. *)
Fixpoint span (p : ascii -> bool) (s : string) : string * string :=
  match s with
  | EmptyString => (EmptyString, EmptyString)
  | String c r =>
      if p c then let '(a, b) := span p r in (String c a, b)
      else (EmptyString, s)
  end.

Definition str_rev (s : string) : string :=
  string_of_list_ascii (rev (list_ascii_of_string s)).

(** ** The builtins of the host language that the program calls

    [calculator.py] leaves the reading and writing of numbers to the
    builtins [int], [float], [str], [bin], [oct] and [hex].  They are
    modelled here after CPython 3 ([PyLong_FromString],
    [PyFloat_FromString], [float_repr]), on ASCII text.  The cap that
    recent versions put on the number of digits [int] reads in a base
    that is no power of two is left out. *)

Module Py.

(** White space of the C locale ([Py_ISSPACE]): what [int()] and
    [float()] skip around a literal. *)
Definition is_c_space (c : ascii) : bool :=
  in_range 9 13 c || (code c =? 32).

(** White space of [str.isspace], [str.strip] and the pattern [\s]:
    the C white space and the four separators 28..31. *)
Definition is_space (c : ascii) : bool :=
  is_c_space c || in_range 28 31 c.

Fixpoint lstrip (p : ascii -> bool) (s : string) : string :=
  match s with
  | EmptyString => EmptyString
  | String c r => if p c then lstrip p r else s
  end.

Definition rstrip (p : ascii -> bool) (s : string) : string :=
  str_rev (lstrip p (str_rev s)).

(** [s.strip()] *)
Definition strip (s : string) : string := rstrip is_space (lstrip is_space s).

(** *** [int(text, base)] *)

(** The value of a character as a digit; 37 for a character that is no
    digit in any base. *)
Definition digit_value (c : ascii) : Z :=
  if is_digit c then code c - 48
  else if is_lower c then code c - 87
  else if is_upper c then code c - 55
  else 37.

Definition is_underscore (c : ascii) : bool := Ascii.eqb c "_".

(** [stops p s]: [s] does not start with a character of the class [p]. *)
Definition stops (p : ascii -> bool) (s : string) : bool :=
  match s with
  | EmptyString => true
  | String c _ => negb (p c)
  end.

Definition sign_of (s : string) : bool * string :=
  match s with
  | String c r =>
      if Ascii.eqb c "+" then (false, r)
      else if Ascii.eqb c "-" then (true, r)
      else (false, s)
  | EmptyString => (false, s)
  end.

(** With base 0 the literal's own prefix chooses the base; a leading
    zero with no prefix letter is accepted only for the value zero (the
    flag). *)
Definition literal_base (base : Z) (s : string) : Z * bool :=
  if base =? 0 then
    match s with
    | String z (String c _) =>
        if negb (Ascii.eqb z "0") then (10, false)
        else if Ascii.eqb (lower_char c) "x" then (16, false)
        else if Ascii.eqb (lower_char c) "o" then (8, false)
        else if Ascii.eqb (lower_char c) "b" then (2, false)
        else (10, true)
    | String z EmptyString => (10, Ascii.eqb z "0")
    | EmptyString => (10, false)
    end
  else (base, false).

Definition prefix_letter (base : Z) : option ascii :=
  if base =? 16 then Some "x"%char
  else if base =? 8 then Some "o"%char
  else if base =? 2 then Some "b"%char
  else None.

(** Skips [0x], [0o] or [0b] (either case) when it is the prefix of the
    base, and one underscore after it. *)
Definition skip_prefix (base : Z) (s : string) : string :=
  match s, prefix_letter base with
  | String z (String c r), Some l =>
      if Ascii.eqb z "0" && Ascii.eqb (lower_char c) l then
        match r with
        | String u r' => if is_underscore u then r' else r
        | EmptyString => r
        end
      else s
  | _, _ => s
  end.

(** No two underscores in a row and none at the end. *)
Fixpoint underscores_ok (s : string) : bool :=
  match s with
  | EmptyString => true
  | String c r =>
      (if is_underscore c then
         match r with
         | EmptyString => false
         | String c' _ => negb (is_underscore c')
         end
       else true) && underscores_ok r
  end.

Fixpoint digits_value (base : Z) (s : string) (acc : Z) : Z :=
  match s with
  | EmptyString => acc
  | String c r =>
      if is_underscore c then digits_value base r acc
      else digits_value base r (acc * base + digit_value c)
  end.

(** The message of the host goes on with the base and the text; only
    its start is kept here, and what is proved of the callers depends on
    the class of the exception alone. *)
Definition invalid_literal : exn :=
  Exn ValueError "invalid literal for int()".

Definition int_of_str (text : string) (base : Z) : result Z :=
  if (negb (base =? 0) && (base <? 2)) || (base >? 36) then
    Raise (Exn ValueError "int() base must be >= 2 and <= 36, or 0")
  else
    let '(negative, s) := sign_of (lstrip is_c_space text) in
    let '(base, zero_only) := literal_base base s in
    let s := skip_prefix base s in
    if negb (stops is_underscore s) then Raise invalid_literal
    else
      let '(body, rest) :=
        span (fun c => (digit_value c <? base) || is_underscore c) s in
      let z := digits_value base body 0 in
      if negb (underscores_ok body) then Raise invalid_literal
      else if zero_only && negb (z =? 0) then Raise invalid_literal
      else if (String.length body =? 0)%nat then Raise invalid_literal
      else if negb (str_forallb is_c_space rest) then Raise invalid_literal
      else Ok (if negative then - z else z).

(** *** [bin], [oct], [hex] *)

Definition digit_char (d : Z) : ascii :=
  if d <? 10 then chr (48 + d) else chr (87 + d).

(** The digits of [n] in [base], least significant first; [fuel] bounds
    the number of digits. *)
Fixpoint digits_lsb (fuel : nat) (base n : Z) : list ascii :=
  match fuel with
  | O => []
  | S k =>
      if n <=? 0 then []
      else digit_char (n mod base) :: digits_lsb k base (n / base)
  end.

Definition digits_fuel (n : Z) : nat := S (Z.to_nat (Z.log2 n)).

(** [format(abs(n), 'b' | 'o' | 'x')] *)
Definition magnitude (base n : Z) : string :=
  if n =? 0 then "0"
  else string_of_list_ascii
         (rev (digits_lsb (digits_fuel (Z.abs n)) base (Z.abs n))).

Definition with_prefix (pre : string) (base n : Z) : string :=
  (if n <? 0 then "-" else "") ++ pre ++ magnitude base n.

Definition bin (n : Z) : string := with_prefix "0b" 2 n.
Definition oct (n : Z) : string := with_prefix "0o" 8 n.
Definition hex (n : Z) : string := with_prefix "0x" 16 n.

(** *** Floats: [float(n)], [int(x)], [float(text)], [str(x)] *)

Definition float : Type := spec_float.

Definition prec : Z := 53.
Definition emax : Z := 1024.

Definition isnan (x : float) : bool :=
  match x with S754_nan => true | _ => false end.

Definition isinf (x : float) : bool :=
  match x with S754_infinity _ => true | _ => false end.

Definition float_eqb (x y : float) : bool :=
  match x, y with
  | S754_zero a, S754_zero b => Bool.eqb a b
  | S754_infinity a, S754_infinity b => Bool.eqb a b
  | S754_nan, S754_nan => true
  | S754_finite a m e, S754_finite b n f =>
      Bool.eqb a b && (m =? n)%positive && (e =? f)
  | _, _ => false
  end.

(** [float(n)]: the nearest double, ties to even; an [int] beyond the
    largest double overflows. *)
Definition float_of_int (n : Z) : result float :=
  match binary_normalize prec emax n 0 false with
  | S754_infinity _ =>
      Raise (Exn OverflowError "int too large to convert to float")
  | x => Ok x
  end.

(** [int(x)]: truncation toward zero. *)
Definition int_of_float (x : float) : result Z :=
  match x with
  | S754_nan => Raise (Exn ValueError "cannot convert float NaN to integer")
  | S754_infinity _ =>
      Raise (Exn OverflowError "cannot convert float infinity to integer")
  | S754_zero _ => Ok 0
  | S754_finite s m e =>
      let a := if 0 <=? e then Zpos m * 2 ^ e else Zpos m / 2 ^ (- e) in
      Ok (if s then - a else a)
  end.

(** The double nearest to [p / q] (ties to even), for [0 <= p], [0 < q]. *)
Definition round_ratio (s : bool) (p q : Z) : float :=
  if p =? 0 then S754_zero s
  else
    let '(mz, ez, lz) := SFdiv_core_binary prec emax p 0 q 0 in
    binary_round_aux prec emax s mz ez lz.

(** The double nearest to [m * 10 ^ e10]. *)
Definition round_decimal (s : bool) (m e10 : Z) : float :=
  if 0 <=? e10 then round_ratio s (m * 10 ^ e10) 1
  else round_ratio s m (10 ^ (- e10)).

(** Underscores of a numeric literal are dropped; each must stand
    between two digits. *)
Fixpoint drop_underscores (prev : ascii) (s : string) : option string :=
  match s with
  | EmptyString => if is_underscore prev then None else Some EmptyString
  | String c r =>
      if is_underscore c then
        if is_digit prev then drop_underscores c r else None
      else if is_underscore prev && negb (is_digit c) then None
      else option_map (String c) (drop_underscores c r)
  end.

(** [kw] is lower case; the rest of [s] after [kw] in either case. *)
Fixpoint skip_keyword (kw s : string) : option string :=
  match kw, s with
  | EmptyString, _ => Some s
  | String k kw', String c s' =>
      if Ascii.eqb (lower_char c) k then skip_keyword kw' s' else None
  | String _ _, EmptyString => None
  end.

Definition parse_inf_or_nan (s : string) : option (float * string) :=
  let '(negative, s) := sign_of s in
  match skip_keyword "inf" s with
  | Some r =>
      match skip_keyword "inity" r with
      | Some r' => Some (S754_infinity negative, r')
      | None => Some (S754_infinity negative, r)
      end
  | None =>
      match skip_keyword "nan" s with
      | Some r => Some (S754_nan, r)
      | None => None
      end
  end.

(** The exponent part [e[+-]digits]; without digits nothing is taken. *)
Definition parse_exponent (s : string) : Z * string :=
  match s with
  | String c r =>
      if Ascii.eqb (lower_char c) "e" then
        let '(negative, r') := sign_of r in
        let '(ds, rest) := span is_digit r' in
        if (String.length ds =? 0)%nat then (0, s)
        else let x := digits_value 10 ds 0 in
             ((if negative then - x else x), rest)
      else (0, s)
  | EmptyString => (0, s)
  end.

Definition parse_decimal (s : string) : option (float * string) :=
  let '(negative, s) := sign_of s in
  let '(ip, r1) := span is_digit s in
  let '(fp, r2) :=
    match r1 with
    | String "." r => span is_digit r
    | _ => (EmptyString, r1)
    end in
  if (String.length ip + String.length fp =? 0)%nat then None
  else
    let '(x, rest) := parse_exponent r2 in
    Some (round_decimal negative (digits_value 10 (ip ++ fp) 0)
            (x - Z.of_nat (String.length fp)), rest).

Definition could_not_convert : exn :=
  Exn ValueError "could not convert string to float".

Definition float_of_str (text : string) : result float :=
  let s := rstrip is_c_space (lstrip is_c_space text) in
  match drop_underscores "000" s with
  | None => Raise could_not_convert
  | Some s =>
      match parse_inf_or_nan s with
      | Some (x, EmptyString) => Ok x
      | Some (_, String _ _) => Raise could_not_convert
      | None =>
          match parse_decimal s with
          | Some (x, EmptyString) => Ok x
          | _ => Raise could_not_convert
          end
      end
  end.

(** [str(x)]: the shortest decimal string that [float] reads back as
    [x], and the nearest to [x] among those. *)

Fixpoint count_digits10 (fuel : nat) (n : Z) : Z :=
  match fuel with
  | O => 1
  | S k => if n <? 10 then 1 else 1 + count_digits10 k (n / 10)
  end.

(** The least [j >= 1] with [den <= num * 10 ^ j]. *)
Fixpoint shift_to_one (fuel : nat) (num den j : Z) : Z :=
  match fuel with
  | O => j
  | S k => if den <=? num * 10 ^ j then j else shift_to_one k num den (j + 1)
  end.

(** [floor (log10 (num / den))] *)
Definition floor_log10 (num den : Z) : Z :=
  if den <=? num then count_digits10 (digits_fuel num) (num / den) - 1
  else - shift_to_one (digits_fuel den) num den 1.

Definition decimal_digits (n : Z) : string :=
  string_of_list_ascii (rev (digits_lsb (digits_fuel n) 10 n)).

(** The digits of the shortest decimal for [x = num / den] and the
    position of its decimal point, trying 1 to 17 digits. *)
Fixpoint shortest (fuel : nat) (x : float) (num den lg k : Z) : Z * Z :=
  let j := lg - k + 1 in
  let tnum := if 0 <=? j then num else num * 10 ^ (- j) in
  let tden := if 0 <=? j then den * 10 ^ j else den in
  let lo := tnum / tden in
  let r := tnum mod tden in
  let hi := lo + 1 in
  let lo_first := (2 * r <? tden) || ((2 * r =? tden) && Z.even lo) in
  let c1 := if lo_first then lo else hi in
  let c2 := if lo_first then hi else lo in
  match fuel with
  | O => (c1, j)
  | S f =>
      if float_eqb (round_decimal false c1 j) x then (c1, j)
      else if float_eqb (round_decimal false c2 j) x then (c2, j)
      else shortest f x num den lg (k + 1)
  end.

Fixpoint strip_zeros (l : list ascii) : list ascii :=
  match l with
  | "0"%char :: r => strip_zeros r
  | _ => l
  end.

Definition zeros (n : Z) : string := str_repeat "0" (Z.to_nat n).

Definition two_digits (n : Z) : string :=
  if n <? 10 then "0" ++ decimal_digits n else decimal_digits n.

(** The layout of [repr]: exponent notation when the decimal point
    falls more than 16 places right or 4 or more places left. *)
Definition layout (ds : string) (decpt : Z) : string :=
  let nd := Z.of_nat (String.length ds) in
  if (decpt <=? -4) || (decpt >? 16) then
    let x := decpt - 1 in
    (match ds with
     | String d EmptyString => ds
     | String d r => String d ("." ++ r)
     | EmptyString => ds
     end)
    ++ "e" ++ (if x <? 0 then "-" else "+") ++ two_digits (Z.abs x)
  else if decpt <=? 0 then "0." ++ zeros (- decpt) ++ ds
  else if nd <=? decpt then ds ++ zeros (decpt - nd) ++ ".0"
  else substring 0 (Z.to_nat decpt) ds ++ "."
       ++ drop (Z.to_nat decpt) ds.

Definition str_of_float (x : float) : string :=
  match x with
  | S754_nan => "nan"
  | S754_infinity s => if s then "-inf" else "inf"
  | S754_zero s => if s then "-0.0" else "0.0"
  | S754_finite s m e =>
      let num := if 0 <=? e then Zpos m * 2 ^ e else Zpos m in
      let den := if 0 <=? e then 1 else 2 ^ (- e) in
      let '(c, j) :=
        shortest 17 (S754_finite false m e) num den (floor_log10 num den) 1 in
      let all := decimal_digits c in
      let ds := str_rev (string_of_list_ascii
                           (strip_zeros (rev (list_ascii_of_string all)))) in
      (if s then "-" else "")
      ++ layout ds (j + Z.of_nat (String.length all))
  end.

(** [str(n)] for an [int] *)
Definition str_of_int (n : Z) : string :=
  if n =? 0 then "0"
  else (if n <? 0 then "-" else "") ++ decimal_digits (Z.abs n).

End Py.

(** ** NumberBaseConverter *)

Module NumberBaseConverter.

Definition ROMAN_MAP : list (Z * string) :=
  [ (1000, "M"); (900, "CM"); (500, "D"); (400, "CD");
    (100, "C"); (90, "XC"); (50, "L"); (40, "XL");
    (10, "X"); (9, "IX"); (5, "V"); (4, "IV"); (1, "I") ].

(** One turn of the [for value, numeral in ROMAN_MAP] loop, on the pair
    of the remaining [num] and the [result] list. *)
Definition roman_step (st : Z * list string) (entry : Z * string)
  : Z * list string :=
  let '(num, result) := st in
  let '(value, numeral) := entry in
  let count := num / value in
  if count =? 0 then (num, result)
  else (num - value * count,
        (result ++ [str_repeat numeral (Z.to_nat count)])%list).

Definition int_to_roman (num : Z) : result string :=
  if (num <=? 0) || (num >=? 4000) then
    Raise (Exn ValueError "Římské číslice podporují pouze rozsah 1-3999")
  else
    Ok (join (snd (fold_left roman_step ROMAN_MAP (num, [])))).

Definition roman_values (c : ascii) : option Z :=
  match c with
  | "I"%char => Some 1
  | "V"%char => Some 5
  | "X"%char => Some 10
  | "L"%char => Some 50
  | "C"%char => Some 100
  | "D"%char => Some 500
  | "M"%char => Some 1000
  | _ => None
  end.

(** The [for char in reversed(roman)] loop on [(total, prev_value)]; the
    first character that is no Roman symbol raises. *)
Fixpoint roman_loop (chars : list ascii) (total prev_value : Z) : result Z :=
  match chars with
  | [] => Ok total
  | char :: rest =>
      match roman_values char with
      | None =>
          Raise (Exn ValueError
                   ("Neplatná římská číslice: " ++ String char EmptyString))
      | Some value =>
          if value <? prev_value
          then roman_loop rest (total - value) value
          else roman_loop rest (total + value) value
      end
  end.

Definition roman_to_int (roman : string) : result Z :=
  let roman := upper roman in
  roman_loop (reversed roman) 0 0.

Definition digits : string := "0123456789ABCDEFGHIJKLMNOPQRSTUVWXYZ".

(** The [while num > 0] loop of [to_custom_base]; every turn divides
    [num] by [base], so [fuel] turns are enough once [num < 2 ^ fuel]. *)
Fixpoint custom_loop (fuel : nat) (num base : Z) (out : list ascii)
  : result (list ascii) :=
  match fuel with
  | O => Ok out
  | S k =>
      if num >? 0 then
        d <- str_index digits (num mod base) ;;
        custom_loop k (num / base) base (out ++ [d])%list
      else Ok out
  end.

Definition to_custom_base (num base : Z) : result string :=
  if (base <? 2) || (base >? 36) then
    Raise (Exn ValueError "Soustava musí být mezi 2 a 36")
  else if num =? 0 then Ok "0"
  else
    let negative := num <? 0 in
    let num := Z.abs num in
    result <- custom_loop (Py.digits_fuel num) num base [] ;;
    let result := if negative then (result ++ ["-"%char])%list else result in
    Ok (string_of_list_ascii (rev result)).

Definition validate_input (text : string) (base : Z) : result bool :=
  if (String.length text =? 0)%nat then Ok false
  else if base =? 10 then
    try_except (_ <- Py.float_of_str text ;; Ok true)
      [ValueError] (fun _ => Ok false)
  else if (base =? 2) || (base =? 8) || (base =? 16) then
    try_except (_ <- Py.int_of_str text base ;; Ok true)
      [ValueError] (fun _ => Ok false)
  else Ok false.

(** [from_base = -1] is the code of the Roman numerals. *)
Definition to_decimal (value : string) (from_base : Z)
  : result (option Py.float) :=
  try_except
    (if from_base =? 10 then
       x <- Py.float_of_str value ;; Ok (Some x)
     else if (from_base =? 2) || (from_base =? 8) || (from_base =? 16) then
       n <- Py.int_of_str value from_base ;;
       x <- Py.float_of_int n ;; Ok (Some x)
     else if from_base =? -1 then
       n <- roman_to_int value ;;
       x <- Py.float_of_int n ;; Ok (Some x)
     else
       n <- Py.int_of_str value from_base ;;
       x <- Py.float_of_int n ;; Ok (Some x))
    [ValueError; TypeError] (fun _ => Ok None).

Definition from_decimal (value : Py.float) (to_base : Z)
  : result (option string) :=
  try_except
    (int_value <- Py.int_of_float value ;;
     if to_base =? 10 then Ok (Some (Py.str_of_float value))
     else if to_base =? 2 then Ok (Some (drop 2 (Py.bin int_value)))
     else if to_base =? 8 then Ok (Some (drop 2 (Py.oct int_value)))
     else if to_base =? 16 then Ok (Some (upper (drop 2 (Py.hex int_value))))
     else if to_base =? -1 then
       s <- int_to_roman int_value ;; Ok (Some s)
     else
       s <- to_custom_base int_value to_base ;; Ok (Some s))
    [ValueError; TypeError; OverflowError] (fun _ => Ok None).

End NumberBaseConverter.




(** ** Regular expressions: what [re.search] needs *)

Module Re.

Inductive regex : Type :=
  | Fail                              (* matches nothing *)
  | Eps                               (* the empty string *)
  | Chr (p : ascii -> bool)           (* one character of a class *)
  | Cat (r1 r2 : regex)
  | Alt (r1 r2 : regex)
  | Star (r : regex)
  | Eol.                              (* [$] *)

Definition Opt (r : regex) : regex := Alt r Eps.
Definition Lit (c : ascii) : regex := Chr (Ascii.eqb c).

(** [$] holds at the end of the subject and just before a newline that
    ends it. *)
Definition at_end (s : string) : bool :=
  match s with
  | EmptyString => true
  | String c EmptyString => Ascii.eqb c "010"
  | _ => false
  end.

Fixpoint nullable (e : bool) (r : regex) : bool :=
  match r with
  | Fail => false
  | Eps => true
  | Chr _ => false
  | Cat r1 r2 => nullable e r1 && nullable e r2
  | Alt r1 r2 => nullable e r1 || nullable e r2
  | Star _ => true
  | Eol => e
  end.

(** The derivative of [r] by the character [c], read at a position
    where [$] holds iff [e]. *)
Fixpoint deriv (e : bool) (c : ascii) (r : regex) : regex :=
  match r with
  | Fail | Eps | Eol => Fail
  | Chr p => if p c then Eps else Fail
  | Cat r1 r2 =>
      Alt (Cat (deriv e c r1) r2)
          (if nullable e r1 then deriv e c r2 else Fail)
  | Alt r1 r2 => Alt (deriv e c r1) (deriv e c r2)
  | Star r1 => Cat (deriv e c r1) (Star r1)
  end.

(** [re.match(r, s)] is not [None]: [r] matches a prefix of [s]. *)
Fixpoint match_ (r : regex) (s : string) : bool :=
  nullable (at_end s) r ||
  match s with
  | EmptyString => false
  | String c rest => match_ (deriv (at_end s) c r) rest
  end.

(** [re.search(r, s)] is not [None]: [r] matches somewhere in [s]. *)
Fixpoint search (r : regex) (s : string) : bool :=
  match_ r s ||
  match s with
  | EmptyString => false
  | String _ rest => search r rest
  end.

End Re.

(** ** ExpressionEvaluator *)

Module ExpressionEvaluator.

(** What [eval] can return, as far as [evaluate] looks at it: a
    [float], an [int] (a [bool] is an [int]), or an object of another
    type, which [math.isnan] refuses. *)
Inductive value : Type :=
  | VFloat (x : Py.float)
  | VInt (n : Z)
  | VOther (type_name : string).

(** [math.isnan(v)], [math.isinf(v)] and [float(v)] convert an [int]
    first. *)
Definition as_double (v : value) : result Py.float :=
  match v with
  | VFloat x => Ok x
  | VInt n => Py.float_of_int n
  | VOther t => Raise (Exn TypeError ("must be real number, not " ++ t))
  end.

Definition math_isnan (v : value) : result bool :=
  x <- as_double v ;; Ok (Py.isnan x).

Definition math_isinf (v : value) : result bool :=
  x <- as_double v ;; Ok (Py.isinf x).

(** [re.split(r'[...]', s)] for a class of single characters *)
Fixpoint split_on (p : ascii -> bool) (s : string) : list string :=
  match s with
  | EmptyString => [EmptyString]
  | String c r =>
      if p c then EmptyString :: split_on p r
      else match split_on p r with
           | h :: t => String c h :: t
           | [] => [String c EmptyString]
           end
  end.

(** [s.count(c)] *)
Fixpoint count (c : ascii) (s : string) : nat :=
  match s with
  | EmptyString => O
  | String d r => (if Ascii.eqb d c then 1 else 0) + count c r
  end.

(** The class [[\+\-\*/\(\)]] *)
Definition is_separator (c : ascii) : bool :=
  existsb (Ascii.eqb c) ["+"; "-"; "*"; "/"; "("; ")"]%char.

Definition sanitize_expression (expr : string) : result string :=
  let expr := Py.strip expr in
  let parts := split_on is_separator expr in
  if existsb (fun part => (1 <? count "." part)%nat) parts then
    Raise (Exn ValueError "Více desetinných teček v čísle")
  else Ok expr.

(** The pattern of the search before evaluation: a slash, [\s] any
    number of times, the digit 0, optionally a dot with [\0] any number
    of times after it, then a character outside [\d] or [$].  In a
    pattern [\0] is the character of code 0. *)
Definition zero_divisor : Re.regex :=
  Re.Cat (Re.Lit "/")
    (Re.Cat (Re.Star (Re.Chr Py.is_space))
       (Re.Cat (Re.Lit "0")
          (Re.Cat (Re.Opt (Re.Cat (Re.Lit ".") (Re.Star (Re.Lit "000"))))
             (Re.Alt (Re.Chr (fun c => negb (is_digit c))) Re.Eol)))).

(** [s.replace('^', '**')] *)
Fixpoint replace_caret (s : string) : string :=
  match s with
  | EmptyString => EmptyString
  | String c r =>
      if Ascii.eqb c "^" then "**" ++ replace_caret r
      else String c (replace_caret r)
  end.

Fixpoint strip_prefix (pre s : string) : option string :=
  match pre, s with
  | EmptyString, _ => Some s
  | String a pre', String b s' =>
      if Ascii.eqb a b then strip_prefix pre' s' else None
  | String _ _, EmptyString => None
  end.

(** The lazy group of the pattern, from the start of [s]: the text up to the first closing
    parenthesis, which [.] must reach without crossing a newline. *)
Fixpoint find_close (s : string) : option string :=
  match s with
  | EmptyString => None
  | String c r =>
      if Ascii.eqb c ")" then Some EmptyString
      else if Ascii.eqb c "010" then None
      else option_map (String c) (find_close r)
  end.

(** [re.sub] of the pattern [name], an opening parenthesis, a lazy group
    of any characters and a closing parenthesis, by [name(radians(\1))]:
    the matches are taken
    left to right and do not overlap; [skip] counts the characters of
    the current match still to pass over. *)
Fixpoint sub_call (name : string) (skip : nat) (s : string) : string :=
  match s with
  | EmptyString => EmptyString
  | String c r =>
      match skip with
      | S k => sub_call name k r
      | O =>
          match option_map find_close (strip_prefix (name ++ "(") s) with
          | Some (Some arg) =>
              name ++ "(radians(" ++ arg ++ "))"
              ++ sub_call name (String.length name + String.length arg + 1) r
          | _ => String c (sub_call name 0 r)
          end
      end
  end.

(** Lines 157 to 162: the text handed to [eval]. *)
Definition transformed (expr angle_mode : string) : string :=
  let expr := replace_caret expr in
  if String.eqb angle_mode "deg" then
    let expr := sub_call "sin" 0 expr in
    let expr := sub_call "cos" 0 expr in
    let expr := sub_call "tan" 0 expr in
    expr
  else expr.

(** The four [except] clauses of [evaluate], in their order. *)
Definition reraise (e : exn) : exn :=
  match exn_cls e with
  | ZeroDivisionError => Exn ZeroDivisionError "Nelze dělit nulou"
  | SyntaxError => Exn SyntaxError "Neplatná syntaxe výrazu"
  | ValueError | TypeError | NameError =>
      Exn ValueError ("Neplatný výraz: " ++ exn_msg e)
  | OverflowError | OtherException =>
      Exn OtherException ("Chyba vyhodnocení: " ++ exn_msg e)
  end.

Section Evaluate.

(** [eval(expr, safe_dict, {})] of the host language, on the fixed
    [safe_dict] of [evaluate]. *)
Variable eval : string -> result value.

Definition evaluate (expr angle_mode : string) : result Py.float :=
  match
    expr <- sanitize_expression expr ;;
    _ <- (if Re.search zero_divisor expr
          then Raise (Exn ZeroDivisionError "Dělení nulou")
          else Ok tt) ;;
    let expr := transformed expr angle_mode in
    result <- eval expr ;;
    nan <- math_isnan result ;;
    bad <- (if nan then Ok true else math_isinf result) ;;
    _ <- (if bad then Raise (Exn ValueError "Neplatný výsledek")
          else Ok tt) ;;
    as_double result
  with
  | Ok x => Ok x
  | Raise e => Raise (reraise e)
  end.

End Evaluate.

End ExpressionEvaluator.

(** ** HistoryManager *)

Module HistoryManager.

Record t : Type := { history : list (string * string) }.

Definition init : t := {| history := [] |}.

Definition add_entry (self : t) (expression result : string) : t :=
  {| history := history self ++ [(expression, result)] |}.

Definition get_history (self : t) : list string :=
  map (fun '(expr, result) => expr ++ " = " ++ result) (history self).

Definition clear (self : t) : t := {| history := [] |}.

End HistoryManager.

(** ** CalculatorUI: the state the handlers read and write *)

Module CalculatorUI.

Import ExpressionEvaluator.

Record t : Type := {
  display : string;                       (* the text of the input line *)
  angle_mode : string;
  history_manager : HistoryManager.t;
  history_list : list string;             (* the rows of the history tab *)
  errors : list string                    (* the error boxes shown so far *)
}.

Definition init : t :=
  {| display := ""; angle_mode := "deg";
     history_manager := HistoryManager.init;
     history_list := []; errors := [] |}.

Definition show_error (self : t) (message : string) : t :=
  {| display := display self; angle_mode := angle_mode self;
     history_manager := history_manager self;
     history_list := history_list self;
     errors := errors self ++ [message] |}.

Definition set_display (self : t) (text : string) : t :=
  {| display := text; angle_mode := angle_mode self;
     history_manager := history_manager self;
     history_list := history_list self;
     errors := errors self |}.

Definition set_angle_mode (self : t) (mode : string) : t :=
  {| display := display self; angle_mode := mode;
     history_manager := history_manager self;
     history_list := history_list self;
     errors := errors self |}.

Definition add_to_display (self : t) (text : string) : t :=
  set_display self (display self ++ text).

Definition add_function (self : t) (func : string) : t :=
  if String.eqb func "**2" then set_display self ("(" ++ display self ++ ")**2")
  else set_display self (display self ++ func ++ "(").

Definition clear_display (self : t) : t := set_display self "".

Definition update_history_display (self : t) : t :=
  {| display := display self; angle_mode := angle_mode self;
     history_manager := history_manager self;
     history_list := HistoryManager.get_history (history_manager self);
     errors := errors self |}.

Definition clear_history (self : t) : t :=
  update_history_display
    {| display := display self; angle_mode := angle_mode self;
       history_manager := HistoryManager.clear (history_manager self);
       history_list := history_list self;
       errors := errors self |}.

(** The entries of the two lists of numeral systems in the converter
    tab, and the code [convert_base] passes for each; for the entry of a
    custom base it is the integer typed into the field next to it. *)
Inductive numeral_system : Type :=
  | Decimal
  | Binary
  | Octal
  | Hexadecimal
  | Roman
  | Custom (radix : Z).

Definition base_code (system : numeral_system) : Z :=
  match system with
  | Decimal => 10
  | Binary => 2
  | Octal => 8
  | Hexadecimal => 16
  | Roman => -1
  | Custom radix => radix
  end.

Section Calculate.

Variable eval : string -> result value.

Definition calculate (self : t) : t :=
  let expression := display self in
  if (String.length expression =? 0)%nat then self
  else
    match evaluate eval expression (angle_mode self) with
    | Ok result =>
        let result_str := Py.str_of_float result in
        let self :=
          {| display := display self; angle_mode := angle_mode self;
             history_manager :=
               HistoryManager.add_entry (history_manager self)
                 expression result_str;
             history_list := history_list self;
             errors := errors self |} in
        let self := update_history_display self in
        set_display self result_str
    | Raise e =>
        match exn_cls e with
        | ZeroDivisionError =>
            clear_display (show_error self "Nelze dělit nulou!")
        | _ => clear_display (show_error self ("Chyba: " ++ exn_msg e))
        end
    end.

(** What the user can do to the window, as far as the history and the
    input line are concerned. *)
Inductive event : Type :=
  | Type_ (text : string)                (* edits the input line *)
  | AddToDisplay (text : string)
  | AddFunction (func : string)
  | ClearDisplay
  | SetAngleMode (mode : string)
  | Calculate
  | ClearHistory.

Definition step (self : t) (ev : event) : t :=
  match ev with
  | Type_ text => set_display self text
  | AddToDisplay text => add_to_display self text
  | AddFunction func => add_function self func
  | ClearDisplay => clear_display self
  | SetAngleMode mode => set_angle_mode self mode
  | Calculate => calculate self
  | ClearHistory => clear_history self
  end.

Definition run (evs : list event) : t := fold_left step evs init.

End Calculate.

(** *** Loading a row of the history *)

(** The button pressed in the box that [load_from_history] opens; the
    third button and closing the box choose nothing. *)
Inductive clicked : Type :=
  | ExprBtn
  | ResultBtn
  | NoBtn.

(** [c in s] *)
Fixpoint contains (c : ascii) (s : string) : bool :=
  match s with
  | EmptyString => false
  | String d r => Ascii.eqb d c || contains c r
  end.

(** [load_from_history(item)] on the text of the row, with the index of
    the tab shown before and after. *)
Definition load_from_history (self : t) (current_tab : nat) (text : string)
    (button : clicked) : t * nat :=
  if contains "=" text then
    let parts := split_on (fun c => Ascii.eqb c "=") text in
    let expression := Py.strip (nth 0 parts "") in
    let result := Py.strip (nth 1 parts "") in
    let self :=
      match button with
      | ExprBtn => set_display self expression
      | ResultBtn => set_display self result
      | NoBtn => self
      end in
    (self, 0%nat)
  else (self, current_tab).

(** *** The converter tab *)

(** The texts of the widgets [convert_base] reads and writes. *)
Record converter : Type := {
  base_input : string;
  from_base_combo : string;
  custom_from_base : string;
  to_base_combo : string;
  custom_to_base : string;
  base_output : string
}.

Definition set_base_output (tab : converter) (text : string) : converter :=
  {| base_input := base_input tab;
     from_base_combo := from_base_combo tab;
     custom_from_base := custom_from_base tab;
     to_base_combo := to_base_combo tab;
     custom_to_base := custom_to_base tab;
     base_output := text |}.

(** The chain of comparisons on the text of a list of numeral systems;
    for any other entry the field of the custom base is read with
    [int]. *)
Definition selected_base (combo custom : string) : result Z :=
  if String.eqb combo "Desítková (10)" then Ok 10
  else if String.eqb combo "Dvojková (2)" then Ok 2
  else if String.eqb combo "Osmičková (8)" then Ok 8
  else if String.eqb combo "Šestnáctková (16)" then Ok 16
  else if String.eqb combo "Římská" then Ok (-1)
  else Py.int_of_str custom 10.

(** The body of the [try] of [convert_base], after the test of the
    empty input. *)
Definition conversion (tab : converter) : result string :=
  from_base <- selected_base (from_base_combo tab) (custom_from_base tab) ;;
  to_base <- selected_base (to_base_combo tab) (custom_to_base tab) ;;
  decimal_value <- NumberBaseConverter.to_decimal (base_input tab) from_base ;;
  match decimal_value with
  | None => Raise (Exn ValueError "Neplatný vstup pro vybranou soustavu")
  | Some decimal_value =>
      result <- NumberBaseConverter.from_decimal decimal_value to_base ;;
      match result with
      | None => Raise (Exn ValueError "Převod selhal")
      | Some result => Ok result
      end
  end.

Definition convert_base (self : t) (tab : converter) : t * converter :=
  if (String.length (base_input tab) =? 0)%nat then (self, tab)
  else
    match conversion tab with
    | Ok result => (self, set_base_output tab result)
    | Raise e =>
        match exn_cls e with
        | ValueError =>
            (show_error self ("Chyba převodu: " ++ exn_msg e),
             set_base_output tab "")
        | _ =>
            (show_error self ("Chyba: " ++ exn_msg e),
             set_base_output tab "")
        end
    end.

End CalculatorUI.

(** * Properties *)

Import NumberBaseConverter ExpressionEvaluator.

(** ** Definitions used to state the properties *)

(** The double of a small integer literal. *)
Definition float_lit (n : Z) : Py.float := binary_normalize Py.prec Py.emax n 0 false.

(** For one [n]: [int_to_roman] succeeds and [roman_to_int] reads the
    numeral back as [n]. *)
Definition roman_round_trips (n : Z) : bool :=
  match int_to_roman n with
  | Ok s => match roman_to_int s with
            | Ok m => m =? n
            | Raise _ => false
            end
  | Raise _ => false
  end.

(** The failures of [evaluate], as the caller sees them. *)
Definition DivisionByZero : exn := Exn ZeroDivisionError "Nelze dělit nulou".
Definition MalformedNumber : exn :=
  Exn ValueError "Neplatný výraz: Více desetinných teček v čísle".
Definition InvalidResult : exn :=
  Exn ValueError "Neplatný výraz: Neplatný výsledek".

(** A numeral in normal form for [base]: one or more digits of the
    base, written with the ten digits and the upper-case letters, with
    no leading zero except in the numeral of zero. *)
Definition digit_ok (base : Z) (c : ascii) : bool :=
  (is_digit c || is_upper c) && (Py.digit_value c <? base).

Definition normalized (base : Z) (s : string) : bool :=
  match s with
  | EmptyString => false
  | String c r =>
      str_forallb (digit_ok base) s
      && (negb (Ascii.eqb c "0") || String.eqb r "")
  end.

(** The integer a string of digits denotes in [base]. *)
Definition numeral_value (base : Z) (s : string) : Z :=
  Py.digits_value base s 0.

(** The spec's integer literal: an optional leading sign followed by
    digits valid for the radix. *)
Definition sign_and_digits (base : Z) (text : string) : bool :=
  let '(_, s) := Py.sign_of text in
  negb (String.eqb s "") && str_forallb (fun c => Py.digit_value c <? base) s.

(** The integer literals of the host, for the bases 2, 8 and 16: white
    space, a sign, a prefix and groups of digits, all but the digits
    optional. *)
Definition group_char (base : Z) (c : ascii) : bool :=
  (Py.digit_value c <? base) || Py.is_underscore c.

(** Digits of the base with single underscores between them. *)
Definition digit_groups (base : Z) (body : string) : bool :=
  match body with
  | EmptyString => false
  | String c _ =>
      negb (Py.is_underscore c) && str_forallb (group_char base) body
      && Py.underscores_ok body
  end.

(** Nothing, or a zero and the letter of the base in either case, or
    these and one underscore. *)
Definition radix_prefix (base : Z) (pre : string) : Prop :=
  pre = "" \/
  exists c, Py.prefix_letter base = Some (lower_char c) /\
            (pre = String "0" (String c "") \/
             pre = String "0" (String c "_")).

Definition int_literal (base : Z) (text : string) : Prop :=
  exists ws1 sg pre body ws2,
    text = ws1 ++ sg ++ pre ++ body ++ ws2 /\
    str_forallb Py.is_c_space ws1 = true /\
    str_forallb Py.is_c_space ws2 = true /\
    (sg = "" \/ sg = "+" \/ sg = "-") /\
    radix_prefix base pre /\
    digit_groups base body = true.

(** What [int_of_str] asks of the text after the sign and the prefix. *)
Definition accepts_tail (base : Z) (s : string) : bool :=
  Py.stops Py.is_underscore s &&
  let '(body, rest) := span (group_char base) s in
  Py.underscores_ok body && negb (String.length body =? 0)%nat
  && str_forallb Py.is_c_space rest.

(** [Matches r w rest]: the pattern [r] matches the word [w] when the
    subject goes on with [rest] after it. *)
Inductive Matches : Re.regex -> string -> string -> Prop :=
  | M_eps rest : Matches Re.Eps "" rest
  | M_chr p c rest : p c = true -> Matches (Re.Chr p) (String c "") rest
  | M_cat r1 r2 w1 w2 rest :
      Matches r1 w1 (w2 ++ rest) -> Matches r2 w2 rest ->
      Matches (Re.Cat r1 r2) (w1 ++ w2) rest
  | M_alt_l r1 r2 w rest : Matches r1 w rest -> Matches (Re.Alt r1 r2) w rest
  | M_alt_r r1 r2 w rest : Matches r2 w rest -> Matches (Re.Alt r1 r2) w rest
  | M_star_nil r rest : Matches (Re.Star r) "" rest
  | M_star_cons r w1 w2 rest :
      Matches r w1 (w2 ++ rest) -> Matches (Re.Star r) w2 rest ->
      Matches (Re.Star r) (w1 ++ w2) rest
  | M_eol rest : Re.at_end rest = true -> Matches Re.Eol "" rest.

(** The text of a decimal number: digits, dots and minus signs. *)
Definition numeric_text (x : string) : bool :=
  str_forallb (fun c => is_digit c || Ascii.eqb c "." || Ascii.eqb c "-") x.

(** The sign a rendering puts before the digits. *)
Definition sign_text (n : Z) : string := if n <? 0 then "-" else "".

(** The entries of the history of a window. *)
Definition ledger (self : CalculatorUI.t) : list (string * string) :=
  HistoryManager.history (CalculatorUI.history_manager self).

(** A ledger entry that records a successful evaluation. *)
Definition successful (eval : string -> result value)
    (entry : string * string) : Prop :=
  exists mode x,
    evaluate eval (fst entry) mode = Ok x /\ snd entry = Py.str_of_float x.

(** A host that knows the value of [2+2] and the names it has. *)
Definition sample_eval (expr : string) : result value :=
  if String.eqb expr "2+2" then Ok (VInt 4)
  else if String.eqb expr "1e308*10" then Ok (VFloat (S754_infinity false))
  else Raise (Exn NameError "name 'foo' is not defined").

(** One of the seven symbols of the Roman numerals, in upper case. *)
Definition is_roman_symbol (c : ascii) : bool :=
  match roman_values c with
  | Some _ => true
  | None => false
  end.

(** [s.lower()] *)
Definition lower (s : string) : string := str_map lower_char s.

(** A piece of text with none of the characters the check of the
    decimal points splits on. *)
Definition separator_free (seg : string) : bool :=
  str_forallb (fun c => negb (is_separator c)) seg.

(** The row of the history for an entry. *)
Definition history_row (entry : string * string) : string :=
  fst entry ++ " = " ++ snd entry.

(** The four forms of the errors [evaluate] raises. *)
Definition evaluation_error (e : exn) : Prop :=
  e = DivisionByZero \/
  e = Exn SyntaxError "Neplatná syntaxe výrazu" \/
  (exists m, e = Exn ValueError ("Neplatný výraz: " ++ m)) \/
  (exists m, e = Exn OtherException ("Chyba vyhodnocení: " ++ m)).

(** A text the lazy group of the rewriting for degrees can hold: no
    closing parenthesis and no newline. *)
Definition call_argument (arg : string) : bool :=
  str_forallb (fun c => negb (Ascii.eqb c ")") && negb (Ascii.eqb c "010")) arg.

(** The manager after the entries of a list, added in their order. *)
Definition add_entries (h : HistoryManager.t)
    (entries : list (string * string)) : HistoryManager.t :=
  fold_left (fun h entry => HistoryManager.add_entry h (fst entry) (snd entry))
    entries h.

(** The texts of the error boxes [calculate] can open. *)
Definition calculate_message (msg : string) : Prop :=
  msg = "Nelze dělit nulou!" \/
  msg = "Chyba: Neplatná syntaxe výrazu" \/
  (exists m, msg = "Chyba: Neplatný výraz: " ++ m) \/
  (exists m, msg = "Chyba: Chyba vyhodnocení: " ++ m).

(** The text of the entry of a numeral system in the two lists of the
    converter tab. *)
Definition combo_text (system : CalculatorUI.numeral_system) : string :=
  match system with
  | CalculatorUI.Decimal => "Desítková (10)"
  | CalculatorUI.Binary => "Dvojková (2)"
  | CalculatorUI.Octal => "Osmičková (8)"
  | CalculatorUI.Hexadecimal => "Šestnáctková (16)"
  | CalculatorUI.Roman => "Římská"
  | CalculatorUI.Custom _ => "Vlastní"
  end.

(** The state after a failed conversion: one more error box, and the
    output field cleared. *)
Definition conversion_failed (self : CalculatorUI.t)
    (tab : CalculatorUI.converter) (msg : string)
  : CalculatorUI.t * CalculatorUI.converter :=
  (CalculatorUI.show_error self msg, CalculatorUI.set_base_output tab "").

(** ** Roman numerals *)

Lemma roman_round_trips_all :
  forallb roman_round_trips (map Z.of_nat (seq 1 3999)) = true.
Proof. vm_compute. reflexivity. Qed.

Lemma roman_round_trips_range (n : Z) :
  1 <= n <= 3999 -> roman_round_trips n = true.
Proof.
  intros Hn.
  pose proof roman_round_trips_all as Hall.
  rewrite forallb_forall in Hall.
  apply Hall, in_map_iff.
  exists (Z.to_nat n). split; [lia|].
  apply in_seq. lia.
Qed.

(** C8: for every n in [1,3999], int_to_roman succeeds and roman_to_int
    reads its numeral back as n; int_to_roman raises for every n <= 0
    and every n >= 4000. *)
Theorem roman_round_trip (n : Z) :
  (1 <= n <= 3999 ->
   exists s, int_to_roman n = Ok s /\ roman_to_int s = Ok n) /\
  (n <= 0 \/ 4000 <= n ->
   exists e, int_to_roman n = Raise e /\ exn_cls e = ValueError).
Proof.
  split.
  - intros Hn. apply roman_round_trips_range in Hn.
    unfold roman_round_trips in Hn.
    destruct (int_to_roman n) as [s|e]; [|discriminate].
    exists s. split; [reflexivity|].
    destruct (roman_to_int s) as [m|e]; [|discriminate].
    apply Z.eqb_eq in Hn. now subst.
  - intros Hn. unfold int_to_roman.
    replace ((n <=? 0) || (n >=? 4000)) with true.
    + eexists. split; reflexivity.
    + symmetry. apply orb_true_iff.
      destruct Hn; [left; apply Z.leb_le | right; apply Z.geb_le]; lia.
Qed.

Lemma roman_round_trip_witness :
  (exists s, int_to_roman 1994 = Ok s /\ roman_to_int s = Ok 1994) /\
  (exists e, int_to_roman 4000 = Raise e /\ exn_cls e = ValueError).
Proof.
  split.
  - apply (proj1 (roman_round_trip 1994)). lia.
  - apply (proj2 (roman_round_trip 4000)). lia.
Defined.

(** ** The checks of [evaluate] before the evaluation *)

(** C10: the call pow(1.5,2.5) has only a whitelisted function and
    well-formed numbers, yet the split of the check leaves the segment
    1.5,2.5 with two decimal points, and evaluate fails with the
    malformed-number error in either angle mode, whatever the host's
    eval would return. *)
Theorem comma_arguments_rejected (eval : string -> result value) (mode : string) :
  In "1.5,2.5" (split_on is_separator "pow(1.5,2.5)") /\
  count "." "1.5,2.5" = 2%nat /\
  evaluate eval "pow(1.5,2.5)" mode = Raise MalformedNumber.
Proof.
  split; [|split].
  - simpl. auto.
  - reflexivity.
  - reflexivity.
Qed.

(** ** The empty string as a numeral *)

Lemma int_of_str_empty (base : Z) :
  exists e, Py.int_of_str "" base = Raise e /\ exn_cls e = ValueError.
Proof.
  unfold Py.int_of_str.
  destruct ((negb (base =? 0) && (base <? 2)) || (base >? 36)).
  - eexists. split; reflexivity.
  - cbn [Py.lstrip Py.sign_of].
    unfold Py.literal_base.
    destruct (base =? 0); cbn; eexists; split; reflexivity.
Qed.

(** C4 (on the code): to_decimal returns None on the empty string for
    every source code except -1, the code of the Roman numerals, where
    roman_to_int has no symbol to reject and to_decimal returns 0.0. *)
Theorem to_decimal_empty :
  (forall from_base, from_base <> -1 -> to_decimal "" from_base = Ok None) /\
  roman_to_int "" = Ok 0 /\
  to_decimal "" (-1) = Ok (Some (S754_zero false)).
Proof.
  split; [|split; reflexivity].
  intros b Hb. unfold to_decimal.
  destruct (b =? 10); [reflexivity|].
  destruct (int_of_str_empty b) as [e [He Hc]].
  destruct ((b =? 2) || (b =? 8) || (b =? 16)).
  - rewrite He. cbn. rewrite Hc. reflexivity.
  - destruct (Z.eqb_spec b (-1)); [contradiction|].
    rewrite He. cbn. rewrite Hc. reflexivity.
Qed.

Lemma to_decimal_empty_witness :
  to_decimal "" 16 = Ok None /\ to_decimal "" 7 = Ok None.
Proof.
  split; apply (proj1 to_decimal_empty); lia.
Defined.

(** ** The check of [evaluate] after the evaluation *)

Lemma as_double_float (v : value) (x : Py.float) :
  as_double v = Ok x -> math_isnan v = Ok (Py.isnan x) /\ math_isinf v = Ok (Py.isinf x).
Proof.
  intros H. unfold math_isnan, math_isinf. rewrite H. split; reflexivity.
Qed.

(** C6: when evaluate succeeds its value is neither NaN nor infinite;
    and when the text passes both checks and eval returns a float that
    is NaN or infinite, evaluate raises the invalid-result error. *)
Theorem evaluate_finite (eval : string -> result value) (expr mode : string) :
  (forall x, evaluate eval expr mode = Ok x ->
     Py.isnan x = false /\ Py.isinf x = false) /\
  (forall expr' y,
     sanitize_expression expr = Ok expr' ->
     Re.search zero_divisor expr' = false ->
     eval (transformed expr' mode) = Ok (VFloat y) ->
     Py.isnan y || Py.isinf y = true ->
     evaluate eval expr mode = Raise InvalidResult).
Proof.
  split.
  - intros x. unfold evaluate.
    destruct (sanitize_expression expr) as [expr'|e]; cbn [bind]; [|discriminate].
    destruct (Re.search zero_divisor expr'); cbn [bind]; [discriminate|].
    destruct (eval (transformed expr' mode)) as [v|e]; cbn [bind]; [|discriminate].
    destruct (as_double v) as [d|e] eqn:Hd.
    + destruct (as_double_float v d Hd) as [Hn Hi].
      rewrite Hn. cbn [bind].
      destruct (Py.isnan d) eqn:En; cbn [bind]; [discriminate|].
      rewrite Hi. cbn [bind].
      destruct (Py.isinf d) eqn:Ei; cbn [bind]; [discriminate|].
      intros H. injection H as <-. auto.
    + unfold math_isnan. rewrite Hd. cbn [bind]. discriminate.
  - intros expr' y Hs Hz He Hbad. unfold evaluate.
    rewrite Hs. cbn. rewrite Hz. cbn. rewrite He. cbn.
    destruct (Py.isnan y); cbn; [reflexivity|].
    cbn in Hbad. rewrite Hbad. reflexivity.
Qed.

Lemma evaluate_finite_witness :
  (Py.isnan (float_lit 4) = false /\ Py.isinf (float_lit 4) = false) /\
  evaluate sample_eval "1e308*10" "deg" = Raise InvalidResult.
Proof.
  split.
  - apply (proj1 (evaluate_finite sample_eval "2+2" "deg")). reflexivity.
  - apply (proj2 (evaluate_finite sample_eval "1e308*10" "deg")
             "1e308*10" (S754_infinity false)); reflexivity.
Defined.

(** ** The history *)

Section History.

Import CalculatorUI.

Variable eval : string -> result value.

Lemma calculate_cases (self : CalculatorUI.t) :
  (ledger (calculate eval self) = ledger self /\
   (display self = "" \/
    exists e, evaluate eval (display self) (angle_mode self) = Raise e)) \/
  (exists x,
     display self <> "" /\
     evaluate eval (display self) (angle_mode self) = Ok x /\
     ledger (calculate eval self)
     = (ledger self ++ [(display self, Py.str_of_float x)])%list).
Proof.
  unfold calculate.
  destruct (display self) as [|c r] eqn:Hd; cbn [String.length Nat.eqb].
  - left. auto.
  - rewrite <- Hd.
    destruct (evaluate eval (display self) (angle_mode self)) as [x|e] eqn:He.
    + right. exists x. split; [rewrite Hd; discriminate|].
      split; reflexivity.
    + left. split; [|right; eauto].
      destruct (exn_cls e); reflexivity.
Qed.

Lemma step_ledger (self : CalculatorUI.t) (ev : event) :
  Forall (successful eval) (ledger self) ->
  Forall (successful eval) (ledger (step eval self ev)).
Proof.
  intros H. destruct ev; cbn; try exact H.
  - unfold add_function. destruct (String.eqb func "**2"); exact H.
  - destruct (calculate_cases self) as [[-> _]|[x [_ [He ->]]]]; [exact H|].
    apply Forall_app. split; [exact H|].
    constructor; [|constructor].
    exists (angle_mode self), x. split; [exact He | reflexivity].
  - constructor.
Qed.

Lemma run_ledger (evs : list event) (self : CalculatorUI.t) :
  Forall (successful eval) (ledger self) ->
  Forall (successful eval) (ledger (fold_left (step eval) evs self)).
Proof.
  revert self. induction evs as [|ev evs IH]; intros self H; cbn.
  - exact H.
  - apply IH, step_ledger, H.
Qed.

End History.

(** C9: a failed evaluation leaves the entries of the history as they
    were; calculate changes them only by appending the expression with
    the text of the value of a successful evaluation; and in every
    state the window can reach, every entry records a successful
    evaluation. *)
Theorem history_records_successes (eval : string -> result value) :
  (forall self e,
     evaluate eval (CalculatorUI.display self) (CalculatorUI.angle_mode self)
     = Raise e ->
     ledger (CalculatorUI.calculate eval self) = ledger self) /\
  (forall self,
     ledger (CalculatorUI.calculate eval self) <> ledger self ->
     exists x,
       evaluate eval (CalculatorUI.display self) (CalculatorUI.angle_mode self)
       = Ok x /\
       ledger (CalculatorUI.calculate eval self)
       = (ledger self
            ++ [(CalculatorUI.display self, Py.str_of_float x)])%list) /\
  (forall evs, Forall (successful eval) (ledger (CalculatorUI.run eval evs))).
Proof.
  split; [|split].
  - intros self e He.
    destruct (calculate_cases eval self) as [[H _]|[x [_ [Hx _]]]].
    + exact H.
    + rewrite He in Hx. discriminate.
  - intros self Hne.
    destruct (calculate_cases eval self) as [[H _]|[x [_ [Hx H]]]].
    + contradiction.
    + exists x. split; assumption.
  - intros evs. apply run_ledger. constructor.
Qed.

Lemma history_records_successes_witness :
  ledger (CalculatorUI.calculate sample_eval
            (CalculatorUI.set_display CalculatorUI.init "foo(1)")) = [] /\
  ledger (CalculatorUI.run sample_eval
            [CalculatorUI.Type_ "2+2"; CalculatorUI.Calculate;
             CalculatorUI.Type_ "foo(1)"; CalculatorUI.Calculate])
  = [("2+2", "4.0")].
Proof.
  split.
  - apply (proj1 (history_records_successes sample_eval)
             (CalculatorUI.set_display CalculatorUI.init "foo(1)")
             (Exn ValueError "Neplatný výraz: name 'foo' is not defined")).
    reflexivity.
  - vm_compute. reflexivity.
Defined.

(** ** Positional numerals *)

Lemma ascii_forall (P : ascii -> bool) :
  forallb P (map ascii_of_nat (seq 0 256)) = true -> forall c, P c = true.
Proof.
  intros Hall c. rewrite forallb_forall in Hall.
  apply Hall, in_map_iff. exists (nat_of_ascii c).
  split; [apply ascii_nat_embedding|].
  apply in_seq. pose proof (nat_ascii_bounded c). lia.
Qed.

Lemma range_check (P : Z -> bool) (k : nat) :
  forallb P (map Z.of_nat (seq 0 k)) = true ->
  forall d, 0 <= d < Z.of_nat k -> P d = true.
Proof.
  intros Hall d Hd.
  rewrite forallb_forall in Hall.
  apply Hall, in_map_iff.
  exists (Z.to_nat d). split; [lia|].
  apply in_seq. lia.
Qed.

Lemma digit_char_facts (d : Z) :
  0 <= d < 36 ->
  let c := upper_char (Py.digit_char d) in
  Py.digit_value c = d /\
  Py.digit_value (Py.digit_char d) = d /\
  Py.is_underscore c = false /\
  Py.is_underscore (Py.digit_char d) = false /\
  (is_digit c || is_upper c) = true /\
  str_index digits d = Ok c /\
  (0 < d -> Ascii.eqb c "0" = false) /\
  (d < 10 -> c = Py.digit_char d).
Proof.
  intros Hd.
  pose (P := fun d =>
    let c := upper_char (Py.digit_char d) in
    (Py.digit_value c =? d) && (Py.digit_value (Py.digit_char d) =? d)
    && negb (Py.is_underscore c) && negb (Py.is_underscore (Py.digit_char d))
    && (is_digit c || is_upper c)
    && match str_index digits d with Ok c' => Ascii.eqb c' c | Raise _ => false end
    && ((d <=? 0) || negb (Ascii.eqb c "0"))
    && ((10 <=? d) || Ascii.eqb c (Py.digit_char d))).
  assert (H : P d = true).
  { apply (range_check P 36); [vm_compute; reflexivity | exact Hd]. }
  unfold P in H. cbv zeta in H.
  apply andb_true_iff in H. destruct H as [H H8].
  apply andb_true_iff in H. destruct H as [H H7].
  apply andb_true_iff in H. destruct H as [H H6].
  apply andb_true_iff in H. destruct H as [H H5].
  apply andb_true_iff in H. destruct H as [H H4].
  apply andb_true_iff in H. destruct H as [H H3].
  apply andb_true_iff in H. destruct H as [H1 H2].
  apply Z.eqb_eq in H1, H2. apply negb_true_iff in H3, H4.
  cbv zeta. repeat split; try assumption.
  - destruct (str_index digits d) as [c'|]; [|discriminate].
    apply Ascii.eqb_eq in H6. now subst.
  - intros Hpos. apply orb_true_iff in H7. destruct H7 as [H7|H7].
    + apply Z.leb_le in H7. lia.
    + now apply negb_true_iff in H7.
  - intros Hlt. apply orb_true_iff in H8. destruct H8 as [H8|H8].
    + apply Z.leb_le in H8. lia.
    + now apply Ascii.eqb_eq in H8.
Qed.

Lemma digits_value_app (b : Z) (l1 l2 : list ascii) (acc : Z) :
  Py.digits_value b (string_of_list_ascii (l1 ++ l2)) acc
  = Py.digits_value b (string_of_list_ascii l2)
      (Py.digits_value b (string_of_list_ascii l1) acc).
Proof.
  revert acc. induction l1 as [|c l1 IH]; intros acc; cbn; [reflexivity|].
  destruct (Py.is_underscore c); apply IH.
Qed.

Lemma str_forallb_list (p : ascii -> bool) (l : list ascii) :
  str_forallb p (string_of_list_ascii l) = forallb p l.
Proof. induction l as [|c l IH]; cbn; [reflexivity | now rewrite IH]. Qed.

Lemma str_forallb_app (p : ascii -> bool) (a b : string) :
  str_forallb p (a ++ b) = str_forallb p a && str_forallb p b.
Proof.
  induction a as [|c a IH]; cbn; [reflexivity|].
  now rewrite IH, andb_assoc.
Qed.

Lemma upper_list (l : list ascii) :
  upper (string_of_list_ascii l) = string_of_list_ascii (map upper_char l).
Proof. induction l as [|c l IH]; cbn; [reflexivity | now f_equal]. Qed.

Lemma digits_lsb_zero (fuel : nat) (b n : Z) :
  n <= 0 -> Py.digits_lsb fuel b n = [].
Proof.
  intros Hn. destruct fuel; cbn; [reflexivity|].
  destruct (Z.leb_spec n 0); [reflexivity | lia].
Qed.

Lemma quotient_bound (b n : Z) (k : nat) :
  2 <= b -> 0 < n < 2 ^ Z.of_nat (S k) -> 0 <= n / b < 2 ^ Z.of_nat k.
Proof.
  intros Hb [Hn Hlt]. split; [apply Z.div_pos; lia|].
  apply Z.div_lt_upper_bound; [lia|].
  rewrite Nat2Z.inj_succ, Z.pow_succ_r in Hlt by lia.
  assert (0 < 2 ^ Z.of_nat k) by (apply Z.pow_pos_nonneg; lia).
  nia.
Qed.

(** The digits the division loop produces, read most significant first:
    they denote [n], each is a digit of the base, and the first is not
    zero. *)
Lemma digits_lsb_spec (fuel : nat) (b n : Z) :
  2 <= b <= 36 -> 0 < n < 2 ^ Z.of_nat fuel ->
  let l := rev (map upper_char (Py.digits_lsb fuel b n)) in
  Py.digits_value b (string_of_list_ascii l) 0 = n /\
  forallb (digit_ok b) l = true /\
  exists c l', l = c :: l' /\ Ascii.eqb c "0" = false.
Proof.
  intros Hb. revert n. induction fuel as [|k IH]; intros n Hn.
  - cbn in Hn. lia.
  - cbn [Py.digits_lsb].
    destruct (Z.leb_spec n 0) as [Hle|_]; [lia|].
    assert (Hr : 0 <= n mod b < 36).
    { pose proof (Z.mod_pos_bound n b). lia. }
    assert (Hrb : n mod b < b) by (apply Z.mod_pos_bound; lia).
    destruct (digit_char_facts (n mod b) Hr)
      as [Hv [_ [Hu [_ [Hc [_ [Hz _]]]]]]].
    cbv zeta in Hv, Hu, Hc, Hz.
    cbn [map rev]. cbv zeta.
    remember (upper_char (Py.digit_char (n mod b))) as c eqn:Ec.
    assert (Hok : digit_ok b c = true).
    { unfold digit_ok. rewrite Hc, Hv. cbn. apply Z.ltb_lt. exact Hrb. }
    pose proof (quotient_bound b n k ltac:(lia) Hn) as Hq.
    pose proof (Z.div_mod n b ltac:(lia)) as Hdm.
    destruct (Z.eq_dec (n / b) 0) as [Hq0|Hq0].
    + rewrite (digits_lsb_zero k b (n / b)) by lia.
      cbn. rewrite Hu, Hv, Hok. repeat split.
      * lia.
      * exists c, []. split; [reflexivity|]. apply Hz. lia.
    + destruct (IH (n / b) ltac:(lia)) as [Hval [Hall [c' [l' [Hl Hc']]]]].
      cbv zeta in Hval, Hall, Hl.
      rewrite digits_value_app, Hval. cbn. rewrite Hu, Hv.
      repeat split.
      * lia.
      * rewrite forallb_app, Hall. cbn. now rewrite Hok.
      * exists c', (l' ++ [c])%list. rewrite Hl. split; [reflexivity | exact Hc'].
Qed.

Lemma digits_fuel_enough (n : Z) :
  0 < n -> n < 2 ^ Z.of_nat (Py.digits_fuel n).
Proof.
  intros Hn. unfold Py.digits_fuel.
  rewrite Nat2Z.inj_succ, Z2Nat.id by apply Z.log2_nonneg.
  apply Z.log2_spec. exact Hn.
Qed.

(** The numeral [magnitude] writes, in upper case: it is in normal form
    and denotes the absolute value. *)
Lemma magnitude_spec (b n : Z) :
  2 <= b <= 36 ->
  normalized b (upper (Py.magnitude b n)) = true /\
  numeral_value b (upper (Py.magnitude b n)) = Z.abs n.
Proof.
  intros Hb. unfold Py.magnitude, numeral_value.
  destruct (Z.eqb_spec n 0) as [->|Hn].
  - cbn. split; [|reflexivity].
    unfold normalized, digit_ok. cbn.
    destruct (Z.ltb_spec 0 b); [reflexivity | lia].
  - rewrite upper_list, map_rev.
    destruct (digits_lsb_spec (Py.digits_fuel (Z.abs n)) b (Z.abs n) Hb)
      as [Hval [Hall [c [l [Hl Hc]]]]].
    { split; [lia | apply digits_fuel_enough; lia]. }
    cbv zeta in Hval, Hall, Hl.
    split; [|exact Hval].
    rewrite Hl in *. cbn [string_of_list_ascii]. unfold normalized.
    change (String c (string_of_list_ascii l))
      with (string_of_list_ascii (c :: l)).
    rewrite str_forallb_list, Hall, Hc. reflexivity.
Qed.

Lemma upper_small_digits (fuel : nat) (b n : Z) :
  2 <= b <= 10 ->
  map upper_char (Py.digits_lsb fuel b n) = Py.digits_lsb fuel b n.
Proof.
  intros Hb. revert n. induction fuel as [|k IH]; intros n; cbn; [reflexivity|].
  destruct (n <=? 0); [reflexivity|]. cbn. rewrite IH. f_equal.
  pose proof (Z.mod_pos_bound n b ltac:(lia)) as Hr.
  apply (digit_char_facts (n mod b)); lia.
Qed.

Lemma upper_magnitude_small (b n : Z) :
  2 <= b <= 10 -> upper (Py.magnitude b n) = Py.magnitude b n.
Proof.
  intros Hb. unfold Py.magnitude.
  destruct (n =? 0); [reflexivity|].
  now rewrite upper_list, map_rev, upper_small_digits.
Qed.

(** ** The normal form of a numeral is unique *)

Lemma ok_char_facts (b : Z) (c : ascii) :
  b <= 36 -> digit_ok b c = true ->
  Py.is_underscore c = false /\ 0 <= Py.digit_value c < b /\
  (Py.digit_value c = 0 -> Ascii.eqb c "0" = true) /\
  c = upper_char (Py.digit_char (Py.digit_value c)).
Proof.
  intros Hb Hok. unfold digit_ok in Hok.
  apply andb_true_iff in Hok. destruct Hok as [Hcls Hlt].
  apply Z.ltb_lt in Hlt.
  pose proof (ascii_forall (fun c =>
    negb (is_digit c || is_upper c) ||
    (negb (Py.is_underscore c) && (0 <=? Py.digit_value c)
     && (negb (Py.digit_value c =? 0) || Ascii.eqb c "0")
     && Ascii.eqb c (upper_char (Py.digit_char (Py.digit_value c)))))
    ltac:(vm_compute; reflexivity) c) as H.
  cbv beta in H. rewrite Hcls in H. cbn [negb orb] in H.
  apply andb_true_iff in H. destruct H as [H H4].
  apply andb_true_iff in H. destruct H as [H H3].
  apply andb_true_iff in H. destruct H as [H1 H2].
  apply negb_true_iff in H1. apply Z.leb_le in H2. apply Ascii.eqb_eq in H4.
  repeat split; try assumption.
  intros H0. rewrite H0 in H3. exact H3.
Qed.

Lemma value_snoc (b : Z) (l : list ascii) (d : ascii) :
  Py.is_underscore d = false ->
  Py.digits_value b (string_of_list_ascii (l ++ [d])) 0
  = Py.digits_value b (string_of_list_ascii l) 0 * b + Py.digit_value d.
Proof. intros Hd. rewrite digits_value_app. cbn. now rewrite Hd. Qed.

Lemma value_nonneg (b : Z) (l : list ascii) :
  2 <= b <= 36 -> forallb (digit_ok b) l = true ->
  0 <= Py.digits_value b (string_of_list_ascii l) 0.
Proof.
  intros Hb. induction l as [|d l IH] using rev_ind; intros H; [cbn; lia|].
  rewrite forallb_app in H. apply andb_true_iff in H. destruct H as [Hl Hd].
  cbn in Hd. rewrite andb_true_r in Hd.
  destruct (ok_char_facts b d ltac:(lia) Hd) as [Hu [Hv _]].
  rewrite value_snoc by exact Hu. specialize (IH Hl). nia.
Qed.

Lemma value_positive (b : Z) (c : ascii) (l : list ascii) :
  2 <= b <= 36 -> forallb (digit_ok b) (c :: l) = true ->
  Ascii.eqb c "0" = false ->
  0 < Py.digits_value b (string_of_list_ascii (c :: l)) 0.
Proof.
  intros Hb. induction l as [|d l IH] using rev_ind; intros H Hc.
  - cbn in H. rewrite andb_true_r in H.
    destruct (ok_char_facts b c ltac:(lia) H) as [Hu [Hv [Hz _]]].
    cbn. rewrite Hu.
    destruct (Z.eq_dec (Py.digit_value c) 0) as [E|E]; [|lia].
    rewrite (Hz E) in Hc. discriminate.
  - change (c :: l ++ [d])%list with ((c :: l) ++ [d])%list in *.
    rewrite forallb_app in H. apply andb_true_iff in H. destruct H as [Hl Hd].
    cbn in Hd. rewrite andb_true_r in Hd.
    destruct (ok_char_facts b d ltac:(lia) Hd) as [Hu [Hv _]].
    rewrite value_snoc by exact Hu. specialize (IH Hl Hc). nia.
Qed.

Lemma numeral_unique_list (b : Z) (l1 l2 : list ascii) :
  2 <= b <= 36 ->
  forallb (digit_ok b) l1 = true -> forallb (digit_ok b) l2 = true ->
  (exists c r, l1 = c :: r /\ (Ascii.eqb c "0" = false \/ r = [])) ->
  (exists c r, l2 = c :: r /\ (Ascii.eqb c "0" = false \/ r = [])) ->
  Py.digits_value b (string_of_list_ascii l1) 0
  = Py.digits_value b (string_of_list_ascii l2) 0 ->
  l1 = l2.
Proof.
  intros Hb. revert l2.
  induction l1 as [|d1 l1 IH] using rev_ind; intros l2 H1 H2 N1 N2 HV.
  { destruct N1 as [c [r [E _]]]. discriminate. }
  destruct l2 as [|d2 l2 _] using rev_ind.
  { destruct N2 as [c [r [E _]]]. discriminate. }
  rewrite forallb_app in H1, H2.
  apply andb_true_iff in H1, H2.
  destruct H1 as [Hl1 Hd1]. destruct H2 as [Hl2 Hd2].
  cbn in Hd1, Hd2. rewrite andb_true_r in Hd1, Hd2.
  destruct (ok_char_facts b d1 ltac:(lia) Hd1) as [Hu1 [Hv1 [_ Hc1]]].
  destruct (ok_char_facts b d2 ltac:(lia) Hd2) as [Hu2 [Hv2 [_ Hc2]]].
  rewrite !value_snoc in HV by assumption.
  pose proof (value_nonneg b l1 Hb Hl1) as Hn1.
  pose proof (value_nonneg b l2 Hb Hl2) as Hn2.
  destruct (Z.div_mod_unique b
              (Py.digits_value b (string_of_list_ascii l1) 0)
              (Py.digits_value b (string_of_list_ascii l2) 0)
              (Py.digit_value d1) (Py.digit_value d2))
    as [Hv Hd]; [left; lia | left; lia | lia |].
  assert (Ed : d1 = d2) by (rewrite Hc1, Hc2, Hd; reflexivity).
  subst d2. f_equal.
  destruct N1 as [c1 [r1 [E1 L1]]]. destruct N2 as [c2 [r2 [E2 L2]]].
  destruct l1 as [|a1 t1]; destruct l2 as [|a2 t2].
  - reflexivity.
  - exfalso. cbn in E2. injection E2 as <- <-.
    destruct L2 as [L2|L2]; [|destruct t2; discriminate].
    pose proof (value_positive b a2 t2 Hb Hl2 L2) as Hp.
    rewrite <- Hv in Hp. cbn in Hp. lia.
  - exfalso. cbn in E1. injection E1 as <- <-.
    destruct L1 as [L1|L1]; [|destruct t1; discriminate].
    pose proof (value_positive b a1 t1 Hb Hl1 L1) as Hp.
    rewrite Hv in Hp. cbn in Hp. lia.
  - cbn in E1, E2. injection E1 as <- <-. injection E2 as <- <-.
    destruct L1 as [L1|L1]; [|destruct t1; discriminate].
    destruct L2 as [L2|L2]; [|destruct t2; discriminate].
    apply IH; try assumption; eauto.
Qed.

Lemma normalized_list (b : Z) (s : string) :
  normalized b s = true ->
  forallb (digit_ok b) (list_ascii_of_string s) = true /\
  exists c r, list_ascii_of_string s = c :: r /\
              (Ascii.eqb c "0" = false \/ r = []).
Proof.
  unfold normalized. destruct s as [|c r]; [discriminate|]. intros H.
  apply andb_true_iff in H. destruct H as [Hall Hlead].
  rewrite <- (string_of_list_ascii_of_string (String c r)) in Hall.
  rewrite str_forallb_list in Hall. split; [exact Hall|].
  exists c, (list_ascii_of_string r). split; [reflexivity|].
  apply orb_true_iff in Hlead. destruct Hlead as [Hl|Hl].
  - left. now apply negb_true_iff.
  - right. apply String.eqb_eq in Hl. now subst.
Qed.

(** Two numerals in normal form that denote the same integer are the
    same text. *)
Lemma normalized_unique (b : Z) (s1 s2 : string) :
  2 <= b <= 36 ->
  normalized b s1 = true -> normalized b s2 = true ->
  numeral_value b s1 = numeral_value b s2 -> s1 = s2.
Proof.
  intros Hb N1 N2 HV.
  destruct (normalized_list b s1 N1) as [A1 L1].
  destruct (normalized_list b s2 N2) as [A2 L2].
  unfold numeral_value in HV.
  rewrite <- (string_of_list_ascii_of_string s1) in HV |- *.
  rewrite <- (string_of_list_ascii_of_string s2) in HV |- *.
  f_equal. now apply (numeral_unique_list b).
Qed.

(** ** Custom bases *)

Lemma custom_loop_lsb (fuel : nat) (b n : Z) (out : list ascii) :
  2 <= b <= 36 ->
  custom_loop fuel n b out
  = Ok (out ++ map upper_char (Py.digits_lsb fuel b n))%list.
Proof.
  intros Hb. revert n out. induction fuel as [|k IH]; intros n out; cbn.
  - now rewrite app_nil_r.
  - rewrite Z.gtb_ltb.
    destruct (Z.ltb_spec 0 n) as [Hn|Hn]; destruct (Z.leb_spec n 0); try lia.
    + pose proof (Z.mod_pos_bound n b ltac:(lia)) as Hr.
      destruct (digit_char_facts (n mod b) ltac:(lia))
        as [_ [_ [_ [_ [_ [Hi _]]]]]].
      cbv zeta in Hi. rewrite Hi. cbn [bind].
      rewrite IH, <- app_assoc. reflexivity.
    + now rewrite app_nil_r.
Qed.

Lemma to_custom_base_spec (n b : Z) :
  2 <= b <= 36 ->
  to_custom_base n b = Ok (sign_text n ++ upper (Py.magnitude b n)).
Proof.
  intros Hb. unfold to_custom_base, sign_text, Py.magnitude.
  destruct (Z.ltb_spec b 2); [lia|]. rewrite Z.gtb_ltb.
  destruct (Z.ltb_spec 36 b); [lia|]. cbn [orb].
  destruct (Z.eqb_spec n 0) as [->|Hn]; [reflexivity|].
  rewrite custom_loop_lsb by exact Hb. cbn [bind app].
  rewrite upper_list, map_rev.
  destruct (n <? 0).
  - rewrite rev_app_distr. reflexivity.
  - reflexivity.
Qed.

Lemma digits_value_append (b : Z) (s1 s2 : string) (acc : Z) :
  Py.digits_value b (s1 ++ s2) acc
  = Py.digits_value b s2 (Py.digits_value b s1 acc).
Proof.
  revert acc. induction s1 as [|c s1 IH]; intros acc; cbn; [reflexivity|].
  destruct (Py.is_underscore c); apply IH.
Qed.

(** One turn of the division: the numeral of [n] is the numeral of
    [n / b] followed by the digit of [n mod b]. *)
Lemma magnitude_step (b n : Z) :
  2 <= b <= 36 -> 0 < n ->
  upper (Py.magnitude b n)
  = (if n <? b then "" else upper (Py.magnitude b (n / b)))
    ++ String (upper_char (Py.digit_char (n mod b))) "".
Proof.
  intros Hb Hn.
  pose proof (Z.mod_pos_bound n b ltac:(lia)) as Hr.
  pose proof (Z.div_mod n b ltac:(lia)) as Hdm.
  destruct (digit_char_facts (n mod b) ltac:(lia))
    as [Hv [_ [Hu [_ [Hc [_ [Hz _]]]]]]].
  cbv zeta in Hv, Hu, Hc, Hz.
  remember (upper_char (Py.digit_char (n mod b))) as d eqn:Ed.
  assert (Hok : digit_ok b d = true).
  { unfold digit_ok. rewrite Hc, Hv. cbn. apply Z.ltb_lt. lia. }
  destruct (magnitude_spec b n Hb) as [Hn1 Hv1].
  apply (normalized_unique b); [exact Hb | exact Hn1 | |].
  - destruct (Z.ltb_spec n b) as [Hlt|Hge].
    + cbn. unfold normalized. cbn. rewrite Hok. cbn.
      rewrite Z.mod_small in Hz by lia. rewrite Hz by lia. reflexivity.
    + destruct (magnitude_spec b (n / b) Hb) as [Hn2 Hv2].
      assert (Hq : 0 < n / b) by (apply Z.div_str_pos; lia).
      remember (upper (Py.magnitude b (n / b))) as s eqn:Es.
      unfold normalized in Hn2 |- *.
      destruct s as [|c r]; [discriminate|]. cbn [append].
      apply andb_true_iff in Hn2. destruct Hn2 as [Hall Hlead].
      change (String c (r ++ String d "")) with (String c r ++ String d "").
      rewrite str_forallb_app, Hall. cbn [str_forallb andb]. rewrite Hok.
      cbn [andb]. apply orb_true_iff. left.
      apply orb_true_iff in Hlead. destruct Hlead as [Hl|Hl]; [exact Hl|].
      apply String.eqb_eq in Hl. subst r.
      destruct (Ascii.eqb_spec c "0") as [->|]; [|reflexivity].
      cbn in Hv2. lia.
  - rewrite Hv1. unfold numeral_value.
    destruct (Z.ltb_spec n b) as [Hlt|Hge].
    + cbn. rewrite Hu, Hv. rewrite Z.mod_small by lia. lia.
    + destruct (magnitude_spec b (n / b) Hb) as [_ Hv2].
      unfold numeral_value in Hv2.
      rewrite digits_value_append, Hv2. cbn. rewrite Hu, Hv.
      assert (0 <= n / b) by (apply Z.div_pos; lia). lia.
Qed.

Lemma to_custom_base_range (n b : Z) :
  b < 2 \/ 36 < b ->
  exists e, to_custom_base n b = Raise e /\ exn_cls e = ValueError.
Proof.
  intros Hb. unfold to_custom_base. rewrite Z.gtb_ltb.
  replace ((b <? 2) || (36 <? b)) with true.
  - eexists. split; reflexivity.
  - symmetry. apply orb_true_iff.
    destruct Hb; [left | right]; apply Z.ltb_lt; lia.
Qed.

Lemma int_of_float_errors (x : Py.float) (e : exn) :
  Py.int_of_float x = Raise e ->
  exn_cls e = ValueError \/ exn_cls e = OverflowError.
Proof.
  destruct x as [s|s| |s m ex]; cbn; intros H; try discriminate;
    injection H as <-; cbn; auto.
Qed.

Lemma from_decimal_custom (x : Py.float) (b : Z) :
  b <> 10 -> b <> 2 -> b <> 8 -> b <> 16 -> b <> -1 ->
  from_decimal x b
  = try_except
      (int_value <- Py.int_of_float x ;;
       s <- to_custom_base int_value b ;; Ok (Some s))
      [ValueError; TypeError; OverflowError] (fun _ => Ok None).
Proof.
  intros H10 H2 H8 H16 H1. unfold from_decimal.
  destruct (Py.int_of_float x) as [n|e]; [|reflexivity]. cbn [bind].
  destruct (Z.eqb_spec b 10); [contradiction|].
  destruct (Z.eqb_spec b 2); [contradiction|].
  destruct (Z.eqb_spec b 8); [contradiction|].
  destruct (Z.eqb_spec b 16); [contradiction|].
  destruct (Z.eqb_spec b (-1)); [contradiction|].
  reflexivity.
Qed.

(** C7 (amended): to_custom_base raises for every radix outside [2,36]
    and, for a radix in [2,36], writes the sign and then the numeral of
    the magnitude in normal form over the alphabet 0-9A-Z, the only
    such numeral of that value, 0 for zero, and for a positive value
    the numeral of the quotient by the radix followed by the digit of
    the remainder;
    from_decimal returns exactly that, and None outside [2,36], for
    every target code other than 10, 2, 8, 16 and -1, which it
    dispatches before the custom base. *)
Theorem custom_base_rendering (to_base : Z) :
  (forall n, to_base < 2 \/ 36 < to_base ->
     exists e, to_custom_base n to_base = Raise e /\ exn_cls e = ValueError) /\
  (forall n, 2 <= to_base <= 36 ->
     exists s,
       to_custom_base n to_base = Ok (sign_text n ++ s) /\
       normalized to_base s = true /\
       numeral_value to_base s = Z.abs n /\
       (forall s', normalized to_base s' = true ->
                   numeral_value to_base s' = Z.abs n -> s' = s) /\
       (n = 0 -> s = "0")) /\
  (forall n, 2 <= to_base <= 36 -> 0 < n ->
     exists d,
       str_index digits (n mod to_base) = Ok d /\
       (n < to_base -> to_custom_base n to_base = Ok (String d "")) /\
       (to_base <= n ->
        exists s, to_custom_base (n / to_base) to_base = Ok s /\
                  to_custom_base n to_base = Ok (s ++ String d ""))) /\
  (forall x,
     to_base <> 10 -> to_base <> 2 -> to_base <> 8 -> to_base <> 16 ->
     to_base <> -1 ->
     (to_base < 2 \/ 36 < to_base -> from_decimal x to_base = Ok None) /\
     (forall n, 2 <= to_base <= 36 -> Py.int_of_float x = Ok n ->
        exists s,
          to_custom_base n to_base = Ok s /\
          from_decimal x to_base = Ok (Some s))).
Proof.
  split; [|split; [|split]].
  - intros n Hb. apply to_custom_base_range, Hb.
  - intros n Hb. exists (upper (Py.magnitude to_base n)).
    split; [apply to_custom_base_spec, Hb|].
    destruct (magnitude_spec to_base n Hb) as [Hn Hv].
    repeat split; try assumption.
    + intros s' Hn' Hv'. apply (normalized_unique to_base); congruence.
    + intros ->. reflexivity.
  - intros n Hb Hn.
    pose proof (Z.mod_pos_bound n to_base ltac:(lia)) as Hr.
    destruct (digit_char_facts (n mod to_base) ltac:(lia))
      as [_ [_ [_ [_ [_ [Hi _]]]]]].
    cbv zeta in Hi. eexists. split; [exact Hi|].
    pose proof (magnitude_step to_base n Hb Hn) as Hstep.
    assert (Hs : sign_text n = "")
      by (unfold sign_text; destruct (Z.ltb_spec n 0); [lia | reflexivity]).
    split.
    + intros Hlt. rewrite to_custom_base_spec, Hs, Hstep by exact Hb.
      destruct (Z.ltb_spec n to_base); [reflexivity | lia].
    + intros Hge. exists (upper (Py.magnitude to_base (n / to_base))).
      assert (Hq : 0 < n / to_base) by (apply Z.div_str_pos; lia).
      assert (Hs' : sign_text (n / to_base) = "").
      { unfold sign_text.
        destruct (Z.ltb_spec (n / to_base) 0); [lia | reflexivity]. }
      rewrite !to_custom_base_spec, Hs, Hs', Hstep by exact Hb.
      destruct (Z.ltb_spec n to_base); [lia|]. split; reflexivity.
  - intros x H10 H2 H8 H16 H1.
    rewrite from_decimal_custom by assumption. split.
    + intros Hb.
      destruct (Py.int_of_float x) as [n|e] eqn:Hx; cbn [bind].
      * destruct (to_custom_base_range n to_base Hb) as [e [-> He]].
        cbn. rewrite He. reflexivity.
      * destruct (int_of_float_errors x e Hx) as [He|He];
          cbn; rewrite He; reflexivity.
    + intros n Hb ->. cbn [bind].
      rewrite to_custom_base_spec by exact Hb. cbn.
      eexists. split; reflexivity.
Qed.

Lemma custom_base_rendering_witness :
  (exists e, to_custom_base 255 37 = Raise e /\ exn_cls e = ValueError) /\
  (exists s,
     to_custom_base (-255) 36 = Ok (sign_text (-255) ++ s) /\
     normalized 36 s = true /\
     numeral_value 36 s = Z.abs (-255) /\
     (forall s', normalized 36 s' = true ->
                 numeral_value 36 s' = Z.abs (-255) -> s' = s) /\
     (-255 = 0 -> s = "0")) /\
  (exists d,
     str_index digits (255 mod 36) = Ok d /\
     (255 < 36 -> to_custom_base 255 36 = Ok (String d "")) /\
     (36 <= 255 ->
      exists s, to_custom_base (255 / 36) 36 = Ok s /\
                to_custom_base 255 36 = Ok (s ++ String d ""))) /\
  from_decimal (float_lit 255) 37 = Ok None /\
  (exists s,
     to_custom_base (-255) 7 = Ok s /\
     from_decimal (float_lit (-255)) 7 = Ok (Some s)).
Proof.
  split; [|split; [|split; [|split]]].
  - apply (proj1 (custom_base_rendering 37) 255). lia.
  - apply (proj1 (proj2 (custom_base_rendering 36)) (-255)). lia.
  - apply (proj1 (proj2 (proj2 (custom_base_rendering 36))) 255); lia.
  - apply (proj2 (proj2 (proj2 (custom_base_rendering 37))) (float_lit 255));
      lia.
  - apply (proj2 (proj2 (proj2 (custom_base_rendering 7))) (float_lit (-255)));
      try lia. reflexivity.
Defined.

(** C7 (as stated) fails: the radix -1 typed as a custom base is the
    code of the Roman numerals and is rendered instead of refused; the
    radix 10 gives the text of the float, so zero is not rendered as 0;
    and the radix 16 takes the path of hex, where a negative value loses
    its sign. *)
Lemma custom_base_counterexample :
  from_decimal (float_lit 5) (CalculatorUI.base_code (CalculatorUI.Custom (-1)))
  = Ok (Some "V") /\
  from_decimal (float_lit 0) (CalculatorUI.base_code (CalculatorUI.Custom 10))
  = Ok (Some "0.0") /\
  from_decimal (float_lit (-255)) (CalculatorUI.base_code (CalculatorUI.Custom 16))
  = Ok (Some "XFF").
Proof. repeat split; vm_compute; reflexivity. Qed.

(** ** Integers that the doubles hold exactly *)

Lemma digits2_log2 (p : positive) :
  Zpos (digits2_pos p) = Z.log2 (Zpos p) + 1.
Proof.
  assert (Hs : forall q, digits2_pos q = Pos.size q).
  { induction q; cbn; congruence. }
  rewrite Hs.
  change (Zpos (Pos.size p)) with (Z.log2 (Zpos p~0)).
  change (Zpos p~0) with (2 * Zpos p).
  apply Z.log2_double. lia.
Qed.

Lemma iter_xO_pow2 (m k : positive) :
  Zpos (Pos.iter xO m k) = Zpos m * 2 ^ Zpos k.
Proof.
  rewrite (Pos.iter_swap_gen _ _ Zpos xO (Z.mul 2)) by reflexivity.
  change (Pos.iter (Z.mul 2) (Zpos m) k) with (Z.shiftl (Zpos m) (Zpos k)).
  apply Z.shiftl_mul_pow2. lia.
Qed.

Lemma binary_round_aux_exact (s : bool) (mz : positive) (ez : Z) :
  Zpos (digits2_pos mz) = 53 -> -1074 <= ez <= 971 ->
  binary_round_aux Py.prec Py.emax s (Zpos mz) ez loc_Exact
  = S754_finite s mz ez.
Proof.
  intros Hd He.
  assert (Hf : fexp Py.prec Py.emax (Zdigits2 (Zpos mz) + ez) - ez = 0).
  { unfold fexp, emin, Py.prec, Py.emax. cbn [Zdigits2]. rewrite Hd. lia. }
  unfold binary_round_aux, shr_fexp.
  rewrite Hf. cbn [shr shr_record_of_loc shr_m loc_of_shr_record round_nearest_even].
  rewrite Hf. cbn [shr shr_record_of_loc shr_m].
  unfold Py.emax, Py.prec.
  destruct (Z.leb_spec ez (1024 - 53)); [reflexivity | lia].
Qed.

Lemma float_of_int_small (m : positive) :
  Zpos m < 2 ^ 53 ->
  exists mz ez,
    binary_normalize Py.prec Py.emax (Zpos m) 0 false = S754_finite false mz ez /\
    -52 <= ez <= 0 /\ Zpos mz = Zpos m * 2 ^ (- ez).
Proof.
  intros Hm.
  assert (Hd : 1 <= Zpos (digits2_pos m) <= 53).
  { rewrite digits2_log2.
    pose proof (Z.log2_nonneg (Zpos m)).
    pose proof (proj1 (Z.log2_lt_pow2 (Zpos m) 53 ltac:(lia)) Hm). lia. }
  cbn [binary_normalize]. unfold binary_round.
  assert (Hf : fexp Py.prec Py.emax (Zpos (digits2_pos m) + 0)
               = Zpos (digits2_pos m) - 53).
  { unfold fexp, emin, Py.prec, Py.emax. lia. }
  rewrite Hf. unfold shl_align.
  destruct (Zpos (digits2_pos m) - 53 - 0) as [|k|k] eqn:Hk; try lia.
  - exists m, 0. split; [|split].
    + apply binary_round_aux_exact; lia.
    + lia.
    + cbn. lia.
  - exists (Pos.iter xO m k), (Zpos (digits2_pos m) - 53).
    assert (Hz : Zpos (Pos.iter xO m k) = Zpos m * 2 ^ Zpos k)
      by apply iter_xO_pow2.
    split; [|split].
    + apply binary_round_aux_exact; [|lia].
      rewrite digits2_log2, Hz, Z.log2_mul_pow2 by lia.
      rewrite digits2_log2 in Hk. lia.
    + lia.
    + rewrite Hz. f_equal. f_equal. lia.
Qed.

(** Every integer from 0 to 2^53 converts to a double and back
    unchanged. *)
Lemma float_of_int_exact (n : Z) :
  0 <= n <= 2 ^ 53 ->
  Py.float_of_int n = Ok (float_lit n) /\ Py.int_of_float (float_lit n) = Ok n.
Proof.
  intros Hn. unfold Py.float_of_int, float_lit.
  destruct (Z.eq_dec n (2 ^ 53)) as [->|Hne]; [split; vm_compute; reflexivity|].
  destruct n as [|m|m]; [split; reflexivity | | lia].
  destruct (float_of_int_small m ltac:(lia)) as [mz [ez [-> [He Hz]]]].
  split; [reflexivity|].
  cbn [Py.int_of_float]. f_equal.
  destruct (Z.leb_spec 0 ez).
  - replace ez with 0 in * by lia. cbn in Hz. lia.
  - rewrite Hz. apply Z.div_mul.
    apply Z.pow_nonzero; lia.
Qed.

(** ** The round trip through the bases 2, 8 and 16 *)

Lemma drop_prefix_nonneg (pre : string) (b n : Z) :
  0 <= n -> String.length pre = 2%nat ->
  drop 2 (Py.with_prefix pre b n) = Py.magnitude b n.
Proof.
  intros Hn Hp. unfold Py.with_prefix.
  destruct (Z.ltb_spec n 0); [lia|].
  destruct pre as [|c1 [|c2 [|c3 pre]]]; try discriminate. reflexivity.
Qed.

Lemma to_decimal_integer (t : string) (b n : Z) :
  b = 2 \/ b = 8 \/ b = 16 ->
  Py.int_of_str t b = Ok n -> 0 <= n <= 2 ^ 53 ->
  to_decimal t b = Ok (Some (float_lit n)).
Proof.
  intros Hb Ht Hn. unfold to_decimal.
  destruct (float_of_int_exact n Hn) as [Hf _].
  destruct Hb as [-> | [-> | ->]]; cbn [Z.eqb Pos.eqb orb];
    rewrite Ht; cbn [bind]; rewrite Hf; reflexivity.
Qed.

Lemma from_decimal_integer (b n : Z) :
  b = 2 \/ b = 8 \/ b = 16 -> 0 <= n <= 2 ^ 53 ->
  from_decimal (float_lit n) b = Ok (Some (upper (Py.magnitude b n))).
Proof.
  intros Hb Hn. unfold from_decimal.
  destruct (float_of_int_exact n Hn) as [_ Hi]. rewrite Hi. cbn [bind].
  destruct Hb as [-> | [-> | ->]]; cbn [Z.eqb Pos.eqb try_except];
    unfold Py.bin, Py.oct, Py.hex;
    rewrite drop_prefix_nonneg by (reflexivity || lia);
    rewrite ?upper_magnitude_small by lia; reflexivity.
Qed.

(** C2 (amended): for every integer n from 0 to 2^53 and every base b
    in {2, 8, 16}, if int(t, b) reads t as n then to_decimal returns the
    double of n and from_decimal renders it as the numeral of n in
    normal form: digits of the base, upper case, no leading zero, no
    prefix and no sign; no other text in normal form denotes n. *)
Theorem base_round_trip (t : string) (b n : Z) :
  b = 2 \/ b = 8 \/ b = 16 ->
  0 <= n <= 2 ^ 53 ->
  Py.int_of_str t b = Ok n ->
  exists x s,
    to_decimal t b = Ok (Some x) /\
    from_decimal x b = Ok (Some s) /\
    normalized b s = true /\
    numeral_value b s = n /\
    (forall s', normalized b s' = true -> numeral_value b s' = n -> s' = s).
Proof.
  intros Hb Hn Ht.
  exists (float_lit n), (upper (Py.magnitude b n)).
  split; [now apply to_decimal_integer|].
  split; [now apply from_decimal_integer|].
  destruct (magnitude_spec b n ltac:(lia)) as [Hnorm Hval].
  assert (Hv : numeral_value b (upper (Py.magnitude b n)) = n)
    by (rewrite Hval; lia).
  split; [exact Hnorm|]. split; [exact Hv|].
  intros s' Hn' Hv'. apply (normalized_unique b); [lia| | |congruence];
    assumption.
Qed.

Lemma base_round_trip_witness :
  exists x s,
    to_decimal " +0x_00fF " 16 = Ok (Some x) /\
    from_decimal x 16 = Ok (Some s) /\
    normalized 16 s = true /\
    numeral_value 16 s = 255 /\
    (forall s', normalized 16 s' = true -> numeral_value 16 s' = 255 -> s' = s).
Proof.
  apply (base_round_trip " +0x_00fF " 16 255).
  - right. right. reflexivity.
  - lia.
  - reflexivity.
Defined.

(** C2 (as stated) fails beyond 2^53, where the double between the two
    conversions rounds the integer, and for a negative integer, where
    the slice that removes the prefix removes the sign and leaves the
    letter of the prefix. *)
Lemma base_round_trip_counterexample :
  (Py.int_of_str "20000000000001" 16 = Ok (2 ^ 53 + 1) /\
   to_decimal "20000000000001" 16 = Ok (Some (float_lit (2 ^ 53))) /\
   from_decimal (float_lit (2 ^ 53)) 16 = Ok (Some "20000000000000")) /\
  (Py.int_of_str "-101" 2 = Ok (-5) /\
   to_decimal "-101" 2 = Ok (Some (float_lit (-5))) /\
   from_decimal (float_lit (-5)) 2 = Ok (Some "b101")).
Proof. repeat split; vm_compute; reflexivity. Qed.

(** ** The texts [int] accepts *)

Lemma space_facts (c : ascii) :
  Py.is_c_space c = true ->
  Py.digit_value c = 37 /\ Py.is_underscore c = false /\
  Ascii.eqb c "+" = false /\ Ascii.eqb c "-" = false.
Proof.
  pose proof (ascii_forall (fun c =>
    negb (Py.is_c_space c) ||
    ((Py.digit_value c =? 37) && negb (Py.is_underscore c)
     && negb (Ascii.eqb c "+") && negb (Ascii.eqb c "-")))
    ltac:(vm_compute; reflexivity) c) as H.
  cbv beta in H. intros Hs. rewrite Hs in H. cbn in H.
  repeat (apply andb_true_iff in H; destruct H as [H ?]).
  apply Z.eqb_eq in H.
  repeat match goal with H : negb _ = true |- _ => apply negb_true_iff in H end.
  auto.
Qed.

Lemma digit_facts (c : ascii) :
  Py.digit_value c < 37 ->
  Py.is_c_space c = false /\ Py.is_underscore c = false /\
  Ascii.eqb c "+" = false /\ Ascii.eqb c "-" = false.
Proof.
  pose proof (ascii_forall (fun c =>
    (37 <=? Py.digit_value c) ||
    (negb (Py.is_c_space c) && negb (Py.is_underscore c)
     && negb (Ascii.eqb c "+") && negb (Ascii.eqb c "-")))
    ltac:(vm_compute; reflexivity) c) as H.
  cbv beta in H. intros Hd.
  destruct (Z.leb_spec 37 (Py.digit_value c)); [lia|]. cbn in H.
  repeat (apply andb_true_iff in H; destruct H as [H ?]).
  repeat match goal with H : negb _ = true |- _ => apply negb_true_iff in H end.
  auto.
Qed.

Lemma prefix_letter_facts (b : Z) (c : ascii) :
  Py.prefix_letter b = Some (lower_char c) ->
  group_char b c = false /\ Py.is_c_space c = false.
Proof.
  pose proof (ascii_forall (fun c =>
    forallb (fun b =>
      match Py.prefix_letter b with
      | Some l => negb (Ascii.eqb (lower_char c) l)
                  || (negb (group_char b c) && negb (Py.is_c_space c))
      | None => true
      end) [2; 8; 16])
    ltac:(vm_compute; reflexivity) c) as H.
  cbv beta in H. rewrite forallb_forall in H.
  unfold Py.prefix_letter at 1.
  destruct (Z.eqb_spec b 16) as [->|]; [|destruct (Z.eqb_spec b 8) as [->|];
    [|destruct (Z.eqb_spec b 2) as [->|]; [|discriminate]]];
    intros Hl; injection Hl as Hl.
  - specialize (H 16 ltac:(cbn; auto)). cbn [Py.prefix_letter Z.eqb Pos.eqb] in H.
    rewrite <- Hl, Ascii.eqb_refl in H. cbn in H.
    apply andb_true_iff in H. destruct H as [H1 H2].
    apply negb_true_iff in H1, H2. auto.
  - specialize (H 8 ltac:(cbn; auto)). cbn [Py.prefix_letter Z.eqb Pos.eqb] in H.
    rewrite <- Hl, Ascii.eqb_refl in H. cbn in H.
    apply andb_true_iff in H. destruct H as [H1 H2].
    apply negb_true_iff in H1, H2. auto.
  - specialize (H 2 ltac:(cbn; auto)). cbn [Py.prefix_letter Z.eqb Pos.eqb] in H.
    rewrite <- Hl, Ascii.eqb_refl in H. cbn in H.
    apply andb_true_iff in H. destruct H as [H1 H2].
    apply negb_true_iff in H1, H2. auto.
Qed.

Lemma lstrip_split (p : ascii -> bool) (text : string) :
  exists ws,
    text = ws ++ Py.lstrip p text /\
    str_forallb p ws = true /\ Py.stops p (Py.lstrip p text) = true.
Proof.
  induction text as [|c r IH]; cbn.
  - exists "". auto.
  - destruct (p c) eqn:Hc.
    + destruct IH as [ws [H1 [H2 H3]]]. exists (String c ws). cbn.
      rewrite Hc, H2. split; [f_equal; exact H1 | auto].
    + exists "". cbn. rewrite Hc. auto.
Qed.

Lemma lstrip_app (p : ascii -> bool) (ws s : string) :
  str_forallb p ws = true -> Py.stops p s = true ->
  Py.lstrip p (ws ++ s) = s.
Proof.
  intros Hws Hs. induction ws as [|c ws IH]; cbn in *.
  - destruct s as [|c r]; cbn in *; [reflexivity|].
    apply negb_true_iff in Hs. now rewrite Hs.
  - apply andb_true_iff in Hws. destruct Hws as [Hc Hws].
    rewrite Hc. now apply IH.
Qed.

Lemma span_split (p : ascii -> bool) (s a r : string) :
  span p s = (a, r) ->
  s = a ++ r /\ str_forallb p a = true /\ Py.stops p r = true.
Proof.
  revert a r. induction s as [|c s IH]; cbn; intros a r H.
  - injection H as <- <-. auto.
  - destruct (p c) eqn:Hc.
    + destruct (span p s) as [a' r'] eqn:E. injection H as <- <-.
      destruct (IH _ _ eq_refl) as [H1 [H2 H3]].
      cbn. rewrite Hc, H2. split; [f_equal; exact H1 | auto].
    + injection H as <- <-. cbn. rewrite Hc. auto.
Qed.

Lemma span_app (p : ascii -> bool) (a r : string) :
  str_forallb p a = true -> Py.stops p r = true -> span p (a ++ r) = (a, r).
Proof.
  intros Ha Hr. induction a as [|c a IH]; cbn in *.
  - destruct r as [|c r]; cbn in *; [reflexivity|].
    apply negb_true_iff in Hr. now rewrite Hr.
  - apply andb_true_iff in Ha. destruct Ha as [Hc Ha].
    rewrite Hc, (IH Ha). reflexivity.
Qed.

Lemma sign_of_split (s : string) :
  exists sg, s = sg ++ snd (Py.sign_of s) /\ (sg = "" \/ sg = "+" \/ sg = "-").
Proof.
  destruct s as [|c r]; cbn; [exists ""; auto|].
  destruct (Ascii.eqb_spec c "+") as [->|_]; [exists "+"; auto|].
  destruct (Ascii.eqb_spec c "-") as [->|_]; [exists "-"; auto|].
  exists "". auto.
Qed.

Lemma skip_prefix_split (b : Z) (s : string) :
  exists pre, s = pre ++ Py.skip_prefix b s /\ radix_prefix b pre.
Proof.
  unfold Py.skip_prefix.
  destruct s as [|z [|c r]]; try (exists ""; split; [reflexivity | left; reflexivity]).
  destruct (Py.prefix_letter b) as [l|] eqn:Hl;
    [|exists ""; split; [reflexivity | left; reflexivity]].
  destruct (Ascii.eqb_spec z "0") as [->|_];
    [|exists ""; split; [reflexivity | left; reflexivity]].
  destruct (Ascii.eqb_spec (lower_char c) l) as [<-|_];
    [|exists ""; split; [reflexivity | left; reflexivity]].
  cbn [andb].
  destruct r as [|u r'].
  - exists (String "0" (String c "")). split; [reflexivity|].
    right. exists c. auto.
  - destruct (Py.is_underscore u) eqn:Hu.
    + apply Ascii.eqb_eq in Hu. subst u.
      exists (String "0" (String c "_")). split; [reflexivity|].
      right. exists c. auto.
    + exists (String "0" (String c "")). split; [reflexivity|].
      right. exists c. auto.
Qed.

Lemma int_of_str_accepts (b : Z) (text : string) :
  b = 2 \/ b = 8 \/ b = 16 ->
  (exists n, Py.int_of_str text b = Ok n) <->
  accepts_tail b
    (Py.skip_prefix b (snd (Py.sign_of (Py.lstrip Py.is_c_space text)))) = true.
Proof.
  intros Hb. unfold Py.int_of_str, accepts_tail.
  assert (Hchk : (negb (b =? 0) && (b <? 2)) || (b >? 36) = false)
    by (destruct Hb as [-> | [-> | ->]]; reflexivity).
  assert (Hlb : forall s, Py.literal_base b s = (b, false)).
  { intros s. unfold Py.literal_base.
    destruct Hb as [-> | [-> | ->]]; reflexivity. }
  rewrite Hchk.
  destruct (Py.sign_of (Py.lstrip Py.is_c_space text)) as [neg s1].
  rewrite Hlb. cbn [snd].
  destruct (Py.stops Py.is_underscore (Py.skip_prefix b s1)); cbn [negb andb].
  - fold (group_char b).
    destruct (span (group_char b) (Py.skip_prefix b s1)) as [body rest].
    destruct (Py.underscores_ok body); cbn [negb andb];
      [|split; [intros [n H]; discriminate | discriminate]].
    destruct (String.length body =? 0)%nat; cbn [negb andb];
      [split; [intros [n H]; discriminate | discriminate]|].
    destruct (str_forallb Py.is_c_space rest); cbn [negb];
      [|split; [intros [n H]; discriminate | discriminate]].
    split; [reflexivity | eauto].
  - split; [intros [n H]; discriminate | discriminate].
Qed.

Lemma accepts_literal (b : Z) (text : string) :
  accepts_tail b
    (Py.skip_prefix b (snd (Py.sign_of (Py.lstrip Py.is_c_space text)))) = true ->
  int_literal b text.
Proof.
  intros H.
  destruct (lstrip_split Py.is_c_space text) as [ws1 [Ht [Hws1 _]]].
  destruct (sign_of_split (Py.lstrip Py.is_c_space text)) as [sg [Hs Hsg]].
  destruct (skip_prefix_split b (snd (Py.sign_of (Py.lstrip Py.is_c_space text))))
    as [pre [Hp Hpre]].
  set (s2 := Py.skip_prefix b (snd (Py.sign_of (Py.lstrip Py.is_c_space text)))) in *.
  unfold accepts_tail in H.
  apply andb_true_iff in H. destruct H as [Hu H].
  destruct (span (group_char b) s2) as [body rest] eqn:Hspan.
  apply andb_true_iff in H. destruct H as [H Hrest].
  apply andb_true_iff in H. destruct H as [Hok Hlen].
  destruct (span_split _ _ _ _ Hspan) as [Hs2 [Hbody _]].
  exists ws1, sg, pre, body, rest.
  split; [|repeat split; try assumption].
  - rewrite Ht at 1. rewrite Hs at 1. rewrite Hp at 1. rewrite Hs2 at 1.
    reflexivity.
  - unfold digit_groups. destruct body as [|c body']; [discriminate|].
    rewrite Hs2 in Hu. cbn in Hu. rewrite Hu, Hbody, Hok. reflexivity.
Qed.

Lemma literal_accepts (b : Z) (text : string) :
  b = 2 \/ b = 8 \/ b = 16 ->
  int_literal b text ->
  accepts_tail b
    (Py.skip_prefix b (snd (Py.sign_of (Py.lstrip Py.is_c_space text)))) = true.
Proof.
  intros Hb [ws1 [sg [pre [body [ws2 [-> [Hws1 [Hws2 [Hsg [Hpre Hbody]]]]]]]]]].
  unfold digit_groups in Hbody.
  destruct body as [|c0 body']; [discriminate|].
  apply andb_true_iff in Hbody. destruct Hbody as [Hbody Hok].
  apply andb_true_iff in Hbody. destruct Hbody as [Hc0 Hall].
  apply negb_true_iff in Hc0.
  assert (Hb36 : b <= 36) by lia.
  assert (Hg0 : group_char b c0 = true).
  { cbn in Hall. apply andb_true_iff in Hall. apply Hall. }
  assert (Hd0 : Py.digit_value c0 < 37).
  { unfold group_char in Hg0. rewrite Hc0, orb_false_r in Hg0.
    apply Z.ltb_lt in Hg0. lia. }
  destruct (digit_facts c0 Hd0) as [Hsp0 [_ [Hplus0 Hminus0]]].
  assert (Hstop2 : Py.stops (group_char b) ws2 = true).
  { destruct ws2 as [|c r]; [reflexivity|]. cbn in Hws2 |- *.
    apply andb_true_iff in Hws2. destruct Hws2 as [Hc _].
    destruct (space_facts c Hc) as [Hv [Hu _]].
    unfold group_char. rewrite Hv, Hu.
    destruct (Z.ltb_spec 37 b); [lia | reflexivity]. }
  remember (String c0 body' ++ ws2) as t3 eqn:Et3.
  (* after the prefix *)
  assert (Htail : accepts_tail b t3 = true).
  { subst t3. unfold accepts_tail. cbn [append Py.stops].
    rewrite Hc0. cbn [negb andb].
    change (String c0 (body' ++ ws2)) with (String c0 body' ++ ws2).
    rewrite (span_app _ _ _ Hall Hstop2), Hok, Hws2. reflexivity. }
  (* the prefix *)
  assert (Hskip : Py.skip_prefix b (pre ++ t3) = t3).
  { subst t3. destruct Hpre as [->|[c [Hl [->| ->]]]].
    - cbn [append]. unfold Py.skip_prefix.
      destruct (body' ++ ws2) as [|c1 r] eqn:Hr; [reflexivity|].
      destruct (Py.prefix_letter b) as [l|] eqn:Hl; [|reflexivity].
      destruct (Ascii.eqb_spec (lower_char c1) l) as [<-|_];
        [|now rewrite andb_false_r].
      destruct (prefix_letter_facts b c1 Hl) as [Hg1 Hs1].
      exfalso. destruct body' as [|c' body''].
      + cbn in Hr. subst ws2. cbn in Hws2. rewrite Hs1 in Hws2. discriminate.
      + cbn in Hr. injection Hr as -> _. cbn in Hall.
        rewrite Hg1, andb_false_r in Hall. discriminate.
    - cbn [append]. unfold Py.skip_prefix. rewrite Hl.
      rewrite !Ascii.eqb_refl. cbn [andb]. rewrite Hc0. reflexivity.
    - cbn [append]. unfold Py.skip_prefix. rewrite Hl.
      rewrite !Ascii.eqb_refl. cbn [andb]. reflexivity. }
  (* the head of the text after the sign is no sign and no space *)
  assert (Hhead : exists h r, pre ++ t3 = String h r /\
                    Py.is_c_space h = false /\
                    Ascii.eqb h "+" = false /\ Ascii.eqb h "-" = false).
  { subst t3. destruct Hpre as [->|[c [_ [->| ->]]]]; cbn [append]; eauto 10. }
  destruct Hhead as [h [r [Hh [Hhs [Hhp Hhm]]]]].
  assert (Hsign : snd (Py.sign_of (sg ++ pre ++ t3)) = pre ++ t3).
  { destruct Hsg as [->|[->| ->]]; cbn [append]; [|reflexivity|reflexivity].
    rewrite Hh. cbn. rewrite Hhp, Hhm. reflexivity. }
  assert (Hstrip : Py.lstrip Py.is_c_space (ws1 ++ sg ++ pre ++ t3)
                   = sg ++ pre ++ t3).
  { apply lstrip_app; [exact Hws1|].
    destruct Hsg as [->|[->| ->]]; cbn [append]; [|reflexivity|reflexivity].
    rewrite Hh. cbn. now rewrite Hhs. }
  rewrite Hstrip, Hsign, Hskip. exact Htail.
Qed.

(** The texts [int] accepts in the bases 2, 8 and 16 are the integer
    literals: white space, sign, prefix, digit groups, white space. *)
Lemma int_of_str_literal (b : Z) (text : string) :
  b = 2 \/ b = 8 \/ b = 16 ->
  (exists n, Py.int_of_str text b = Ok n) <-> int_literal b text.
Proof.
  intros Hb. rewrite (int_of_str_accepts b text Hb). split.
  - apply accepts_literal.
  - apply literal_accepts, Hb.
Qed.

(** ** [validate_input] *)

Lemma float_of_str_errors (text : string) (e : exn) :
  Py.float_of_str text = Raise e -> exn_cls e = ValueError.
Proof.
  unfold Py.float_of_str.
  destruct (Py.drop_underscores _ _) as [s|]; [|intros H; now injection H as <-].
  destruct (Py.parse_inf_or_nan s) as [[x [|c r]]|].
  - discriminate.
  - intros H; now injection H as <-.
  - destruct (Py.parse_decimal s) as [[x [|c r]]|]; try discriminate;
      intros H; now injection H as <-.
Qed.

Lemma int_of_str_errors (text : string) (b : Z) (e : exn) :
  Py.int_of_str text b = Raise e -> exn_cls e = ValueError.
Proof.
  unfold Py.int_of_str.
  destruct ((negb (b =? 0) && (b <? 2)) || (b >? 36));
    [intros H; now injection H as <-|].
  destruct (Py.sign_of _) as [neg s]. destruct (Py.literal_base b s) as [b' z].
  destruct (negb (Py.stops _ _)); [intros H; now injection H as <-|].
  destruct (span _ _) as [body rest].
  repeat match goal with
         | |- (if ?c then _ else _) = _ -> _ =>
             destruct c; [intros H; now injection H as <-|]
         end.
  discriminate.
Qed.

Lemma plain_digits_groups (b : Z) (s : string) :
  b <= 36 ->
  str_forallb (fun c => Py.digit_value c <? b) s = true ->
  str_forallb (group_char b) s = true /\ Py.underscores_ok s = true /\
  Py.stops Py.is_underscore s = true.
Proof.
  intros Hb. induction s as [|c r IH]; cbn; [auto|]. intros H.
  apply andb_true_iff in H. destruct H as [Hc Hr].
  destruct (IH Hr) as [H1 [H2 _]].
  assert (Hd : Py.digit_value c < 37) by (apply Z.ltb_lt in Hc; lia).
  destruct (digit_facts c Hd) as [_ [Hu _]].
  unfold group_char at 1. rewrite Hc, Hu, H1, H2. auto.
Qed.

Lemma sign_and_digits_literal (b : Z) (text : string) :
  b <= 36 -> sign_and_digits b text = true -> int_literal b text.
Proof.
  intros Hb H. unfold sign_and_digits in H.
  destruct (sign_of_split text) as [sg [Ht Hsg]].
  destruct (Py.sign_of text) as [neg s]. cbn [snd] in Ht.
  apply andb_true_iff in H. destruct H as [Hne Hall].
  destruct (plain_digits_groups b s Hb Hall) as [Hg [Hok Hst]].
  exists "", sg, "", s, "".
  split; [|repeat split; auto].
  - cbn. rewrite Ht at 1. f_equal.
    clear. induction s as [|c r IH]; cbn; [reflexivity | now f_equal].
  - left. reflexivity.
  - unfold digit_groups. destruct s as [|c r]; [discriminate|].
    cbn in Hst. rewrite Hst, Hg, Hok. reflexivity.
Qed.

(** C5 (amended): validate_input never raises; it returns false for the
    empty text and for every base other than 10, 2, 8 and 16; for base
    10 it returns true exactly when float accepts the text; for a base
    in {2, 8, 16} it returns true exactly when the text is an integer
    literal of the host: optional white space, an optional sign, an
    optional prefix of the base (0b, 0o, 0x, with one underscore allowed
    after it), digits of the radix with single underscores between them
    allowed, optional white space; in particular a sign followed by
    digits of the radix is accepted. *)
Theorem validate_input_spec (text : string) (base : Z) :
  (exists v, validate_input text base = Ok v) /\
  (text = "" -> validate_input text base = Ok false) /\
  (base <> 10 -> base <> 2 -> base <> 8 -> base <> 16 ->
   validate_input text base = Ok false) /\
  (base = 10 ->
   (validate_input text base = Ok true <->
    exists x, Py.float_of_str text = Ok x)) /\
  (base = 2 \/ base = 8 \/ base = 16 ->
   (validate_input text base = Ok true <-> int_literal base text) /\
   (sign_and_digits base text = true -> validate_input text base = Ok true)).
Proof.
  assert (Hint : base = 2 \/ base = 8 \/ base = 16 ->
                 validate_input text base = Ok true <-> int_literal base text).
  { intros Hb. rewrite <- (int_of_str_literal base text Hb).
    unfold validate_input.
    destruct text as [|c r] eqn:Et.
    - cbn [String.length Nat.eqb]. split; [discriminate|].
      intros [n Hn]. destruct (int_of_str_empty base) as [e [He _]].
      rewrite He in Hn. discriminate.
    - cbn [String.length Nat.eqb]. rewrite <- Et.
      replace (base =? 10) with false
        by (destruct Hb as [-> | [-> | ->]]; reflexivity).
      replace ((base =? 2) || (base =? 8) || (base =? 16)) with true
        by (destruct Hb as [-> | [-> | ->]]; reflexivity).
      destruct (Py.int_of_str text base) as [n|e] eqn:Hi; cbn.
      + split; eauto.
      + rewrite (int_of_str_errors _ _ _ Hi). cbn.
        split; [discriminate | intros [n Hn]; discriminate]. }
  split; [|split; [|split; [|split]]].
  - unfold validate_input.
    destruct (String.length text =? 0)%nat; [eauto|].
    destruct (base =? 10).
    + destruct (Py.float_of_str text) as [x|e] eqn:Hf; cbn; [eauto|].
      rewrite (float_of_str_errors _ _ Hf). cbn. eauto.
    + destruct ((base =? 2) || (base =? 8) || (base =? 16)); [|eauto].
      destruct (Py.int_of_str text base) as [n|e] eqn:Hi; cbn; [eauto|].
      rewrite (int_of_str_errors _ _ _ Hi). cbn. eauto.
  - intros ->. reflexivity.
  - intros H10 H2 H8 H16. unfold validate_input.
    destruct (String.length text =? 0)%nat; [reflexivity|].
    destruct (Z.eqb_spec base 10); [contradiction|].
    destruct (Z.eqb_spec base 2); [contradiction|].
    destruct (Z.eqb_spec base 8); [contradiction|].
    destruct (Z.eqb_spec base 16); [contradiction|]. reflexivity.
  - intros ->. unfold validate_input.
    destruct text as [|c r] eqn:Et.
    + cbn. split; [discriminate | intros [x Hx]; discriminate].
    + cbn [String.length Nat.eqb Z.eqb Pos.eqb]. rewrite <- Et.
      destruct (Py.float_of_str text) as [x|e] eqn:Hf; cbn.
      * split; eauto.
      * rewrite (float_of_str_errors _ _ Hf). cbn.
        split; [discriminate | intros [x Hx]; discriminate].
  - intros Hb. split; [exact (Hint Hb)|].
    intros Hs. apply (Hint Hb).
    apply sign_and_digits_literal; [lia | exact Hs].
Qed.

Lemma validate_input_spec_witness :
  validate_input "" 16 = Ok false /\
  validate_input "777" 7 = Ok false /\
  (validate_input "1e5" 10 = Ok true <-> exists x, Py.float_of_str "1e5" = Ok x) /\
  (validate_input "0x_1F" 16 = Ok true <-> int_literal 16 "0x_1F") /\
  validate_input "-777" 8 = Ok true.
Proof.
  split; [|split; [|split; [|split]]].
  - apply (proj1 (proj2 (validate_input_spec "" 16))). reflexivity.
  - apply (proj1 (proj2 (proj2 (validate_input_spec "777" 7)))); lia.
  - apply (proj1 (proj2 (proj2 (proj2 (validate_input_spec "1e5" 10))))).
    reflexivity.
  - apply (proj2 (proj2 (proj2 (proj2 (validate_input_spec "0x_1F" 16))))).
    right. right. reflexivity.
  - apply (proj2 (proj2 (proj2 (proj2 (validate_input_spec "-777" 8))))).
    + right. left. reflexivity.
    + reflexivity.
Defined.

(** C5 (as stated) fails: validate_input accepts texts that are not a
    sign followed by digits of the radix (a prefix, white space around,
    underscores between digits), and for base 10 it accepts nan and
    inf, which are not real numbers. *)
Lemma validate_input_counterexample :
  (validate_input "0x1F" 16 = Ok true /\ sign_and_digits 16 "0x1F" = false) /\
  (validate_input " 1_0 " 2 = Ok true /\ sign_and_digits 2 " 1_0 " = false) /\
  (validate_input "nan" 10 = Ok true /\
   Py.float_of_str "nan" = Ok S754_nan /\
   Py.float_of_str "-inf" = Ok (S754_infinity true)).
Proof. repeat split; vm_compute; reflexivity. Qed.

(** ** The rewriting for degrees *)

Lemma numeric_char_facts (c : ascii) :
  is_digit c || Ascii.eqb c "." || Ascii.eqb c "-" = true ->
  Ascii.eqb c "^" = false /\ Ascii.eqb c ")" = false /\
  Ascii.eqb c "010" = false /\ Ascii.eqb "c" c = false /\
  Ascii.eqb "t" c = false.
Proof.
  pose proof (ascii_forall (fun c =>
    negb (is_digit c || Ascii.eqb c "." || Ascii.eqb c "-") ||
    (negb (Ascii.eqb c "^") && negb (Ascii.eqb c ")")
     && negb (Ascii.eqb c "010") && negb (Ascii.eqb "c" c)
     && negb (Ascii.eqb "t" c)))
    ltac:(vm_compute; reflexivity) c) as H.
  cbv beta in H. intros Hn. rewrite Hn in H. cbn in H.
  repeat (apply andb_true_iff in H; destruct H as [H ?]).
  repeat match goal with H : negb _ = true |- _ => apply negb_true_iff in H end.
  auto.
Qed.

Lemma replace_caret_numeric (x rest : string) :
  numeric_text x = true ->
  replace_caret (x ++ rest) = x ++ replace_caret rest.
Proof.
  unfold numeric_text. induction x as [|c x IH]; cbn; [reflexivity|].
  intros H. apply andb_true_iff in H. destruct H as [Hc Hx].
  destruct (numeric_char_facts c Hc) as [-> _]. now rewrite IH.
Qed.

Lemma find_close_numeric (x rest : string) :
  numeric_text x = true -> find_close (x ++ String ")" rest) = Some x.
Proof.
  unfold numeric_text. induction x as [|c x IH]; cbn; [reflexivity|].
  intros H. apply andb_true_iff in H. destruct H as [Hc Hx].
  destruct (numeric_char_facts c Hc) as [_ [-> [-> _]]].
  now rewrite IH.
Qed.

Lemma sub_call_skip (name s : string) (k : nat) :
  (String.length s <= k)%nat -> sub_call name k s = "".
Proof.
  revert k. induction s as [|c s IH]; intros k Hk; cbn; [reflexivity|].
  destruct k as [|k]; cbn in Hk; [lia|]. apply IH. lia.
Qed.

Lemma length_append (a b : string) :
  String.length (a ++ b) = (String.length a + String.length b)%nat.
Proof. induction a as [|c a IH]; cbn; [reflexivity | now rewrite IH]. Qed.

(** Where the first letter of the name does not occur, nothing is
    rewritten. *)
Lemma sub_call_absent (n0 : ascii) (name s : string) :
  str_forallb (fun c => negb (Ascii.eqb n0 c)) s = true ->
  sub_call (String n0 name) 0 s = s.
Proof.
  induction s as [|c s IH]; cbn; [reflexivity|].
  intros H. apply andb_true_iff in H. destruct H as [Hc Hs].
  apply negb_true_iff in Hc. rewrite Hc. cbn. now rewrite IH.
Qed.

Lemma numeric_absent (n0 : ascii) (x rest : string) :
  (forall c, is_digit c || Ascii.eqb c "." || Ascii.eqb c "-" = true ->
             Ascii.eqb n0 c = false) ->
  numeric_text x = true ->
  str_forallb (fun c => negb (Ascii.eqb n0 c)) rest = true ->
  str_forallb (fun c => negb (Ascii.eqb n0 c)) (x ++ rest) = true.
Proof.
  intros Hn0. unfold numeric_text.
  induction x as [|c x IH]; cbn; [auto|].
  intros H Hr. apply andb_true_iff in H. destruct H as [Hc Hx].
  rewrite (Hn0 c Hc). cbn. now apply IH.
Qed.

Lemma asin_rewritten (x : string) :
  numeric_text x = true ->
  transformed ("asin(" ++ x ++ ")") "deg" = "asin(radians(" ++ x ++ "))".
Proof.
  intros Hx. unfold transformed. cbn [String.eqb Ascii.eqb Bool.eqb].
  assert (Hr : replace_caret ("asin(" ++ x ++ ")") = "asin(" ++ x ++ ")").
  { cbn. now rewrite replace_caret_numeric. }
  rewrite Hr.
  assert (Hs : sub_call "sin" 0 ("asin(" ++ x ++ ")")
               = "asin(radians(" ++ x ++ "))").
  { cbn. rewrite (find_close_numeric x "" Hx). cbn.
    rewrite sub_call_skip; [reflexivity|].
    cbn. rewrite length_append. cbn. lia. }
  rewrite Hs.
  rewrite (sub_call_absent "c" "os").
  - apply (sub_call_absent "t" "an").
    rewrite str_forallb_app. apply andb_true_iff. split; [reflexivity|].
    apply numeric_absent; [|exact Hx|reflexivity].
    intros c Hc. apply (numeric_char_facts c Hc).
  - rewrite str_forallb_app. apply andb_true_iff. split; [reflexivity|].
    apply numeric_absent; [|exact Hx|reflexivity].
    intros c Hc. apply (numeric_char_facts c Hc).
Qed.

(** C1 (on the code): in degrees the pattern of sin also matches inside
    asin, and likewise cos inside acos and tan inside atan, so the
    arguments of the inverse functions are wrapped too: for every
    numeric text x, evaluate on asin(x) in degrees hands eval the text
    asin(radians(x)), not asin(x) as in radians; on asin(1) it returns
    what evaluate returns on asin(radians(1)) in radians. *)
Theorem inverse_functions_rewritten (eval : string -> result value) :
  transformed "sin(90)" "deg" = "sin(radians(90))" /\
  transformed "acos(1)" "deg" = "acos(radians(1))" /\
  transformed "atan(1)" "deg" = "atan(radians(1))" /\
  (forall x, numeric_text x = true ->
     transformed ("asin(" ++ x ++ ")") "deg" = "asin(radians(" ++ x ++ "))" /\
     transformed ("asin(" ++ x ++ ")") "rad" = "asin(" ++ x ++ ")") /\
  evaluate eval "asin(1)" "deg" = evaluate eval "asin(radians(1))" "rad".
Proof.
  repeat split; try reflexivity.
  - now apply asin_rewritten.
  - unfold transformed. cbn [String.eqb Ascii.eqb Bool.eqb].
    cbn. now rewrite replace_caret_numeric.
Qed.

Lemma inverse_functions_rewritten_witness :
  transformed "asin(0.5)" "deg" = "asin(radians(0.5))" /\
  transformed "asin(0.5)" "rad" = "asin(0.5)".
Proof.
  apply (proj1 (proj2 (proj2 (proj2 (inverse_functions_rewritten sample_eval))))
           "0.5").
  reflexivity.
Defined.

(** ** The matcher of regular expressions *)

Ltac inv H := inversion H; subst; clear H.

Lemma append_assoc3 (a b c : string) : (a ++ b) ++ c = a ++ b ++ c.
Proof. induction a as [|x a IH]; cbn; [reflexivity | now rewrite IH]. Qed.

Lemma append_empty (a b : string) : a ++ b = "" -> a = "" /\ b = "".
Proof. destruct a; cbn; [auto | discriminate]. Qed.

Lemma nullable_matches (r : Re.regex) (rest : string) :
  Re.nullable (Re.at_end rest) r = true <-> Matches r "" rest.
Proof.
  split.
  - induction r; cbn; intros H; try discriminate.
    + constructor.
    + apply andb_true_iff in H. destruct H as [H1 H2].
      apply (M_cat r1 r2 "" "" rest); auto.
    + apply orb_true_iff in H. destruct H as [H|H];
        [apply M_alt_l | apply M_alt_r]; auto.
    + constructor.
    + now constructor.
  - intros H. remember "" as w eqn:Ew. induction H; cbn; try discriminate; auto.
    + apply append_empty in Ew. destruct Ew as [-> ->].
      cbn in IHMatches1. rewrite IHMatches1, IHMatches2; auto.
    + rewrite IHMatches; auto.
    + rewrite IHMatches; auto. apply orb_true_r.
Qed.

Lemma deriv_sound (r : Re.regex) (c : ascii) (w rest : string) :
  Matches (Re.deriv (Re.at_end (String c (w ++ rest))) c r) w rest ->
  Matches r (String c w) rest.
Proof.
  revert w rest. induction r; intros w rest H; cbn [Re.deriv] in H.
  - inv H.
  - inv H.
  - destruct (p c) eqn:Hp; inv H. now constructor.
  - inv H.
    + match goal with H : Matches (Re.Cat _ _) _ _ |- _ => inv H end.
      match goal with
      | H1 : Matches (Re.deriv _ c r1) ?w1 (?w2 ++ rest),
        H2 : Matches r2 ?w2 rest |- _ =>
          rewrite append_assoc3 in H1; apply IHr1 in H1;
          apply (M_cat r1 r2 (String c w1) w2 rest); assumption
      end.
    + destruct (Re.nullable _ r1) eqn:Hn.
      * match goal with H : Matches _ w rest |- _ => apply IHr2 in H end.
        apply (M_cat r1 r2 "" (String c w) rest); [|assumption].
        apply nullable_matches. exact Hn.
      * match goal with H : Matches Re.Fail _ _ |- _ => inv H end.
  - inv H; [apply M_alt_l | apply M_alt_r]; auto.
  - inv H.
    match goal with
    | H1 : Matches (Re.deriv _ c r) ?w1 (?w2 ++ rest),
      H2 : Matches (Re.Star r) ?w2 rest |- _ =>
        rewrite append_assoc3 in H1; apply IHr in H1;
        apply (M_star_cons r (String c w1) w2 rest); assumption
    end.
  - inv H.
Qed.

Lemma deriv_complete (r : Re.regex) (c : ascii) (w rest : string) :
  Matches r (String c w) rest ->
  Matches (Re.deriv (Re.at_end (String c (w ++ rest))) c r) w rest.
Proof.
  intros H. remember (String c w) as cw eqn:E. revert c w E.
  induction H; intros c0 w0 E; try discriminate; cbn [Re.deriv].
  - injection E as -> <-. rewrite H. constructor.
  - destruct w1 as [|c1 w1'].
    + cbn in E. subst w2. apply M_alt_r.
      apply nullable_matches in H. cbn [append] in H. rewrite H.
      now apply IHMatches2.
    + cbn in E. injection E as -> <-. apply M_alt_l.
      rewrite append_assoc3. apply M_cat; [|exact H0].
      now apply IHMatches1.
  - apply M_alt_l. now apply IHMatches.
  - apply M_alt_r. now apply IHMatches.
  - destruct w1 as [|c1 w1'].
    + cbn in E. subst w2. specialize (IHMatches2 c0 w0 eq_refl).
      cbn [Re.deriv] in IHMatches2. exact IHMatches2.
    + cbn in E. injection E as -> <-.
      rewrite append_assoc3. apply M_cat; [|exact H0].
      now apply IHMatches1.
Qed.

(** [match_] holds exactly when the pattern matches a prefix of the
    subject. *)
Lemma match_spec (r : Re.regex) (s : string) :
  Re.match_ r s = true <-> exists w rest, s = w ++ rest /\ Matches r w rest.
Proof.
  revert r. induction s as [|c s IH]; intros r; cbn [Re.match_].
  - rewrite orb_false_r. split.
    + intros H. exists "", "". split; [reflexivity|].
      now apply nullable_matches.
    + intros [w [rest [E H]]]. symmetry in E.
      apply append_empty in E. destruct E as [-> ->].
      now apply nullable_matches.
  - split.
    + intros H. apply orb_true_iff in H. destruct H as [H|H].
      * exists "", (String c s). split; [reflexivity|].
        now apply nullable_matches.
      * apply IH in H. destruct H as [w [rest [-> H]]].
        exists (String c w), rest. split; [reflexivity|].
        now apply deriv_sound.
    + intros [w [rest [E H]]]. apply orb_true_iff.
      destruct w as [|c' w'].
      * left. cbn in E. subst rest. now apply nullable_matches.
      * right. cbn in E. injection E as <- ->.
        apply IH. exists w', rest. split; [reflexivity|].
        now apply deriv_complete.
Qed.

(** [search] holds exactly when the pattern matches somewhere in the
    subject. *)
Lemma search_spec (r : Re.regex) (s : string) :
  Re.search r s = true <->
  exists pre w rest, s = pre ++ w ++ rest /\ Matches r w rest.
Proof.
  induction s as [|c s IH]; cbn [Re.search].
  - rewrite orb_false_r, match_spec. split.
    + intros [w [rest [E H]]]. exists "", w, rest. auto.
    + intros [pre [w [rest [E H]]]]. symmetry in E.
      apply append_empty in E. destruct E as [-> E].
      exists w, rest. auto.
  - split.
    + intros H. apply orb_true_iff in H. destruct H as [H|H].
      * apply match_spec in H. destruct H as [w [rest [E H]]].
        exists "", w, rest. auto.
      * apply IH in H. destruct H as [pre [w [rest [-> H]]]].
        exists (String c pre), w, rest. auto.
    + intros [pre [w [rest [E H]]]]. apply orb_true_iff.
      destruct pre as [|c' pre'].
      * left. apply match_spec. exists w, rest. auto.
      * right. cbn in E. injection E as <- ->.
        apply IH. exists pre', w, rest. auto.
Qed.

(** ** The search before the evaluation *)

Lemma star_class_matches (p : ascii -> bool) (ws rest : string) :
  str_forallb p ws = true -> Matches (Re.Star (Re.Chr p)) ws rest.
Proof.
  induction ws as [|c ws IH]; cbn; intros H; [constructor|].
  apply andb_true_iff in H. destruct H as [Hc Hws].
  apply (M_star_cons (Re.Chr p) (String c "") ws rest); [now constructor | auto].
Qed.

Lemma star_class_inv (p : ascii -> bool) (w rest : string) :
  Matches (Re.Star (Re.Chr p)) w rest -> str_forallb p w = true.
Proof.
  intros H. remember (Re.Star (Re.Chr p)) as r eqn:Er.
  induction H; try discriminate; [reflexivity|].
  injection Er as ->. inv H. cbn.
  match goal with H : p _ = true |- _ => rewrite H end. auto.
Qed.

Lemma at_end_stops (rest : string) :
  Re.at_end rest = true -> Py.stops is_digit rest = true.
Proof.
  destruct rest as [|c [|c' r]]; cbn; try discriminate; [reflexivity|].
  intros H. apply Ascii.eqb_eq in H. subst c. reflexivity.
Qed.

Lemma zero_divisor_sound (w rest : string) :
  Matches zero_divisor w rest ->
  exists ws post,
    w ++ rest = "/" ++ ws ++ "0" ++ post /\
    str_forallb Py.is_space ws = true /\ Py.stops is_digit post = true.
Proof.
  unfold zero_divisor, Re.Lit, Re.Opt. intros H.
  inv H. match goal with H : Matches (Re.Chr _) _ _ |- _ => inv H end.
  match goal with H : Matches (Re.Cat _ _) _ _ |- _ => inv H end.
  match goal with H : Matches (Re.Star _) _ _ |- _ =>
    apply star_class_inv in H; rename H into Hws end.
  match goal with H : Matches (Re.Cat _ _) _ _ |- _ => inv H end.
  match goal with H : Matches (Re.Chr _) _ _ |- _ => inv H end.
  match goal with H : Matches (Re.Cat _ _) _ _ |- _ => inv H end.
  repeat match goal with
         | H : (_ =? _)%char = true |- _ => apply Ascii.eqb_eq in H; subst
         end.
  match goal with
  | Hopt : Matches (Re.Alt (Re.Cat _ _) Re.Eps) ?w4 _,
    Hend : Matches (Re.Alt (Re.Chr _) Re.Eol) ?w5 rest |- _ =>
      exists w1, (w4 ++ w5 ++ rest); split; [|split; [exact Hws|]]
  end.
  - cbn [append]. f_equal. rewrite !append_assoc3. cbn [append].
    rewrite !append_assoc3. reflexivity.
  - match goal with H : Matches (Re.Alt (Re.Cat _ _) Re.Eps) _ _ |- _ => inv H end.
    + match goal with H : Matches (Re.Cat _ _) _ _ |- _ => inv H end.
      match goal with H : Matches (Re.Chr _) _ _ |- _ => inv H end.
      match goal with
      | H : (_ =? _)%char = true |- _ => apply Ascii.eqb_eq in H; subst
      end.
      reflexivity.
    + match goal with H : Matches Re.Eps _ _ |- _ => inv H end.
      cbn [append].
      match goal with H : Matches (Re.Alt (Re.Chr _) Re.Eol) _ _ |- _ => inv H end.
      * match goal with H : Matches (Re.Chr _) _ _ |- _ => inv H end.
        cbn. assumption.
      * match goal with H : Matches Re.Eol _ _ |- _ => inv H end.
        cbn [append]. now apply at_end_stops.
Qed.

Lemma zero_divisor_complete (ws post : string) :
  str_forallb Py.is_space ws = true -> Py.stops is_digit post = true ->
  exists w rest,
    "/" ++ ws ++ "0" ++ post = w ++ rest /\ Matches zero_divisor w rest.
Proof.
  intros Hws Hpost. unfold zero_divisor, Re.Lit, Re.Opt.
  destruct post as [|c post'].
  - exists ("/" ++ (ws ++ ("0" ++ ("" ++ "")))), "". split.
    + cbn [append]. f_equal. rewrite !append_assoc3. reflexivity.
    + apply M_cat; [now constructor|].
      apply M_cat; [now apply star_class_matches|].
      apply M_cat; [now constructor|].
      apply M_cat; [apply M_alt_r; constructor|].
      apply M_alt_r. now constructor.
  - exists ("/" ++ (ws ++ ("0" ++ ("" ++ String c "")))), post'. split.
    + cbn [append]. f_equal. rewrite !append_assoc3. reflexivity.
    + apply M_cat; [now constructor|].
      apply M_cat; [now apply star_class_matches|].
      apply M_cat; [now constructor|].
      apply M_cat; [apply M_alt_r; constructor|].
      apply M_alt_l. constructor. exact Hpost.
Qed.

(** The search fires exactly when the text has a slash, any white
    space, a zero, and then its end or a character that is no digit. *)
Lemma zero_divisor_spec (s : string) :
  Re.search zero_divisor s = true <->
  exists pre ws post,
    s = pre ++ "/" ++ ws ++ "0" ++ post /\
    str_forallb Py.is_space ws = true /\ Py.stops is_digit post = true.
Proof.
  rewrite search_spec. split.
  - intros [pre [w [rest [-> H]]]].
    destruct (zero_divisor_sound w rest H) as [ws [post [E [Hws Hpost]]]].
    exists pre, ws, post. rewrite E. auto.
  - intros [pre [ws [post [-> [Hws Hpost]]]]].
    destruct (zero_divisor_complete ws post Hws Hpost) as [w [rest [E H]]].
    exists pre, w, rest. rewrite E. auto.
Qed.

(** C3 (on the code): the search before the evaluation fires exactly
    when the text has a slash, any white space and a zero followed by
    the end of the text or by a character that is no digit; when it
    fires on the sanitized text, evaluate raises the division-by-zero
    error.  It fires on 1/0, and also on 1/0.5, where the dot after the
    zero is the character that is no digit. *)
Theorem zero_divisor_flags_fraction (eval : string -> result value) (mode : string) :
  (forall s,
     Re.search zero_divisor s = true <->
     exists pre ws post,
       s = pre ++ "/" ++ ws ++ "0" ++ post /\
       str_forallb Py.is_space ws = true /\ Py.stops is_digit post = true) /\
  (forall expr expr',
     sanitize_expression expr = Ok expr' ->
     Re.search zero_divisor expr' = true ->
     evaluate eval expr mode = Raise DivisionByZero) /\
  evaluate eval "1/0" mode = Raise DivisionByZero /\
  evaluate eval "1/0.5" mode = Raise DivisionByZero.
Proof.
  split; [exact zero_divisor_spec|].
  split; [|split; reflexivity].
  intros expr expr' Hs Hz. unfold evaluate. rewrite Hs. cbn [bind].
  rewrite Hz. reflexivity.
Qed.

Lemma zero_divisor_flags_fraction_witness :
  evaluate sample_eval " 8 / 0.25 " "rad" = Raise DivisionByZero.
Proof.
  apply (proj1 (proj2 (zero_divisor_flags_fraction sample_eval "rad"))
           " 8 / 0.25 " "8 / 0.25"); reflexivity.
Defined.



(** * Further properties of the code *)

(** ** Roman numerals: the symbols [roman_to_int] accepts *)

Lemma forallb_rev (A : Type) (p : A -> bool) (l : list A) :
  forallb p (rev l) = forallb p l.
Proof.
  induction l as [|a l IH]; cbn; [reflexivity|].
  rewrite forallb_app, IH. cbn. rewrite andb_true_r. apply andb_comm.
Qed.

Lemma str_forallb_chars (p : ascii -> bool) (s : string) :
  str_forallb p s = forallb p (list_ascii_of_string s).
Proof. induction s as [|c s IH]; cbn; [reflexivity | now rewrite IH]. Qed.

Lemma roman_loop_accepts (chars : list ascii) (total prev : Z) :
  forallb is_roman_symbol chars = true ->
  exists n, roman_loop chars total prev = Ok n.
Proof.
  revert total prev. induction chars as [|c chars IH]; intros total prev H; cbn.
  - eauto.
  - cbn in H. apply andb_true_iff in H. destruct H as [Hc Hr].
    unfold is_roman_symbol in Hc.
    destruct (roman_values c) as [v|]; [|discriminate].
    destruct (v <? prev); apply IH; exact Hr.
Qed.

Lemma roman_loop_rejects (chars : list ascii) (total prev : Z) :
  forallb is_roman_symbol chars = false ->
  exists e, roman_loop chars total prev = Raise e /\ exn_cls e = ValueError.
Proof.
  revert total prev. induction chars as [|c chars IH]; intros total prev H; cbn.
  - discriminate.
  - cbn in H. unfold is_roman_symbol in H at 1.
    destruct (roman_values c) as [v|].
    + cbn in H. destruct (v <? prev); apply IH; exact H.
    + eexists. split; reflexivity.
Qed.

(** X1: roman_to_int returns a value exactly when every character of
    the text, put in upper case, is one of I, V, X, L, C, D, M, and
    raises ValueError otherwise. *)
Theorem roman_to_int_accepts (roman : string) :
  (str_forallb is_roman_symbol (upper roman) = true ->
   exists n, roman_to_int roman = Ok n) /\
  (str_forallb is_roman_symbol (upper roman) = false ->
   exists e, roman_to_int roman = Raise e /\ exn_cls e = ValueError).
Proof.
  unfold roman_to_int, reversed.
  rewrite str_forallb_chars, <- forallb_rev. split.
  - apply roman_loop_accepts.
  - apply roman_loop_rejects.
Qed.

Lemma roman_to_int_accepts_witness :
  (exists n, roman_to_int "mmxxiv" = Ok n) /\
  (exists e, roman_to_int "MMXXIVa" = Raise e /\ exn_cls e = ValueError).
Proof.
  split.
  - apply (proj1 (roman_to_int_accepts "mmxxiv")). reflexivity.
  - apply (proj2 (roman_to_int_accepts "MMXXIVa")). reflexivity.
Defined.

Lemma upper_lower_char (c : ascii) : upper_char (lower_char c) = upper_char c.
Proof.
  apply Ascii.eqb_eq.
  apply (ascii_forall (fun c =>
    Ascii.eqb (upper_char (lower_char c)) (upper_char c))).
  vm_compute. reflexivity.
Qed.

Lemma upper_upper_char (c : ascii) : upper_char (upper_char c) = upper_char c.
Proof.
  apply Ascii.eqb_eq.
  apply (ascii_forall (fun c =>
    Ascii.eqb (upper_char (upper_char c)) (upper_char c))).
  vm_compute. reflexivity.
Qed.

Lemma upper_lower (s : string) : upper (lower s) = upper s.
Proof.
  unfold upper, lower. induction s as [|c r IH]; cbn [str_map]; [reflexivity|].
  now rewrite upper_lower_char, IH.
Qed.

Lemma upper_upper (s : string) : upper (upper s) = upper s.
Proof.
  unfold upper. induction s as [|c r IH]; cbn [str_map]; [reflexivity|].
  now rewrite upper_upper_char, IH.
Qed.

(** X2: roman_to_int does not tell the cases of the letters apart: the
    text in lower case and the text in upper case give what the text
    itself gives, value or error. *)
Theorem roman_to_int_case (roman : string) :
  roman_to_int (lower roman) = roman_to_int roman /\
  roman_to_int (upper roman) = roman_to_int roman.
Proof.
  unfold roman_to_int. now rewrite upper_lower, upper_upper.
Qed.

(** ** Integers of either sign that the doubles hold exactly *)

Lemma binary_round_small (s : bool) (m : positive) :
  Zpos m < 2 ^ 53 ->
  exists mz ez,
    binary_round Py.prec Py.emax s m 0 = S754_finite s mz ez /\
    -52 <= ez <= 0 /\ Zpos mz = Zpos m * 2 ^ (- ez).
Proof.
  intros Hm.
  assert (Hd : 1 <= Zpos (digits2_pos m) <= 53).
  { rewrite digits2_log2.
    pose proof (Z.log2_nonneg (Zpos m)).
    pose proof (proj1 (Z.log2_lt_pow2 (Zpos m) 53 ltac:(lia)) Hm). lia. }
  unfold binary_round.
  assert (Hf : fexp Py.prec Py.emax (Zpos (digits2_pos m) + 0)
               = Zpos (digits2_pos m) - 53).
  { unfold fexp, emin, Py.prec, Py.emax. lia. }
  rewrite Hf. unfold shl_align.
  destruct (Zpos (digits2_pos m) - 53 - 0) as [|k|k] eqn:Hk; try lia.
  - exists m, 0. split; [|split].
    + apply binary_round_aux_exact; lia.
    + lia.
    + cbn. lia.
  - exists (Pos.iter xO m k), (Zpos (digits2_pos m) - 53).
    assert (Hz : Zpos (Pos.iter xO m k) = Zpos m * 2 ^ Zpos k)
      by apply iter_xO_pow2.
    split; [|split].
    + apply binary_round_aux_exact; [|lia].
      rewrite digits2_log2, Hz, Z.log2_mul_pow2 by lia.
      rewrite digits2_log2 in Hk. lia.
    + lia.
    + rewrite Hz. f_equal. f_equal. lia.
Qed.

(** Every integer from -2^53 to 2^53 converts to a finite double and
    back unchanged. *)
Lemma float_lit_exact (n : Z) :
  - 2 ^ 53 <= n <= 2 ^ 53 ->
  Py.float_of_int n = Ok (float_lit n) /\
  Py.int_of_float (float_lit n) = Ok n /\
  Py.isnan (float_lit n) = false /\ Py.isinf (float_lit n) = false.
Proof.
  intros Hn. unfold Py.float_of_int, float_lit.
  destruct (Z.eq_dec n (2 ^ 53)) as [->|H1];
    [repeat split; vm_compute; reflexivity|].
  destruct (Z.eq_dec n (- 2 ^ 53)) as [->|H2];
    [repeat split; vm_compute; reflexivity|].
  destruct n as [|m|m]; [repeat split; reflexivity | |].
  - cbn [binary_normalize].
    destruct (binary_round_small false m ltac:(lia)) as [mz [ez [-> [He Hz]]]].
    repeat split. cbn [Py.int_of_float]. f_equal.
    destruct (Z.leb_spec 0 ez).
    + replace ez with 0 in * by lia. cbn in Hz. lia.
    + rewrite Hz. apply Z.div_mul. apply Z.pow_nonzero; lia.
  - cbn [binary_normalize].
    destruct (binary_round_small true m ltac:(lia)) as [mz [ez [-> [He Hz]]]].
    repeat split. cbn [Py.int_of_float]. f_equal.
    destruct (Z.leb_spec 0 ez).
    + replace ez with 0 in * by lia. cbn in Hz. lia.
    + rewrite Hz, Z.div_mul by (apply Z.pow_nonzero; lia). reflexivity.
Qed.

Lemma float_of_int_errors (n : Z) (e : exn) :
  Py.float_of_int n = Raise e -> exn_cls e = OverflowError.
Proof.
  unfold Py.float_of_int.
  destruct (binary_normalize Py.prec Py.emax n 0 false);
    intros H; try discriminate. now injection H as <-.
Qed.

(** ** [int] on the numerals in normal form *)





(** ** [to_decimal] and [from_decimal]: what they return and raise *)

Lemma to_decimal_reads (t : string) (b n : Z) :
  b <> 10 -> b <> -1 -> Py.int_of_str t b = Ok n ->
  to_decimal t b
  = match Py.float_of_int n with
    | Ok x => Ok (Some x)
    | Raise e => Raise e
    end.
Proof.
  intros H10 H1 Ht. unfold to_decimal.
  destruct (Z.eqb_spec b 10); [contradiction|].
  destruct (Z.eqb_spec b (-1)); [contradiction|].
  assert (Hbody : (if (b =? 2) || (b =? 8) || (b =? 16)
                   then n0 <- Py.int_of_str t b ;;
                        x <- Py.float_of_int n0 ;; Ok (Some x)
                   else n0 <- Py.int_of_str t b ;;
                        x <- Py.float_of_int n0 ;; Ok (Some x))
                  = (x <- Py.float_of_int n ;; Ok (Some x))).
  { rewrite Ht. destruct ((b =? 2) || (b =? 8) || (b =? 16)); reflexivity. }
  rewrite Hbody.
  destruct (Py.float_of_int n) as [x|e] eqn:Hf; cbn; [reflexivity|].
  now rewrite (float_of_int_errors n e Hf).
Qed.

Lemma roman_to_int_cases (t : string) :
  (str_forallb is_roman_symbol (upper t) = true /\
   exists n, roman_to_int t = Ok n) \/
  (str_forallb is_roman_symbol (upper t) = false /\
   exists e, roman_to_int t = Raise e /\ exn_cls e = ValueError).
Proof.
  unfold roman_to_int, reversed.
  rewrite str_forallb_chars, <- forallb_rev.
  destruct (forallb is_roman_symbol (rev (list_ascii_of_string (upper t))))
    eqn:Hs.
  - left. split; [reflexivity|]. now apply roman_loop_accepts.
  - right. split; [reflexivity|]. now apply roman_loop_rejects.
Qed.

Lemma roman_to_int_errors (t : string) (e : exn) :
  roman_to_int t = Raise e -> exn_cls e = ValueError.
Proof.
  intros H. destruct (roman_to_int_cases t) as [[_ [n Hn]]|[_ [e' [He' Hc]]]].
  - rewrite Hn in H. discriminate.
  - rewrite He' in H. now injection H as <-.
Qed.

Lemma to_decimal_roman (t : string) :
  to_decimal t (-1)
  = match roman_to_int t with
    | Ok n => match Py.float_of_int n with
              | Ok x => Ok (Some x)
              | Raise e => Raise e
              end
    | Raise _ => Ok None
    end.
Proof.
  unfold to_decimal. cbn [Z.eqb orb].
  destruct (roman_to_int t) as [n|e] eqn:Hr; cbn [bind].
  - destruct (Py.float_of_int n) as [x|e] eqn:Hf; cbn; [reflexivity|].
    now rewrite (float_of_int_errors n e Hf).
  - cbn. now rewrite (roman_to_int_errors t e Hr).
Qed.

(** X3: with the code of the Roman numerals, to_decimal returns None
    exactly when some character of the text, put in upper case, is not
    one of I, V, X, L, C, D, M. *)
Theorem to_decimal_roman_none (t : string) :
  to_decimal t (-1) = Ok None <->
  str_forallb is_roman_symbol (upper t) = false.
Proof.
  rewrite to_decimal_roman.
  destruct (roman_to_int_cases t) as [[Hs [n Hn]]|[Hs [e [He Hc]]]];
    rewrite Hs.
  - rewrite Hn. destruct (Py.float_of_int n); split; discriminate.
  - rewrite He. split; reflexivity.
Qed.

Lemma to_decimal_roman_none_witness :
  to_decimal "MMXQ" (-1) = Ok None.
Proof. apply (proj2 (to_decimal_roman_none "MMXQ")). reflexivity. Defined.

(** X4: to_decimal catches ValueError only: when int reads the text as
    an integer too large for a double, the OverflowError of the
    conversion to float leaves to_decimal. *)
Theorem to_decimal_overflow (t : string) (b n : Z) :
  b <> 10 -> b <> -1 ->
  Py.int_of_str t b = Ok n ->
  (exists e, Py.float_of_int n = Raise e) ->
  exists e, to_decimal t b = Raise e /\ exn_cls e = OverflowError.
Proof.
  intros H10 H1 Ht [e He].
  rewrite (to_decimal_reads t b n H10 H1 Ht), He.
  exists e. split; [reflexivity|]. exact (float_of_int_errors n e He).
Qed.

Lemma to_decimal_overflow_witness :
  exists e,
    to_decimal ("1" ++ str_repeat "0" 256) 16 = Raise e /\
    exn_cls e = OverflowError.
Proof.
  apply (to_decimal_overflow ("1" ++ str_repeat "0" 256) 16 (2 ^ 1024)).
  - lia.
  - lia.
  - vm_compute. reflexivity.
  - eexists. vm_compute. reflexivity.
Defined.

Lemma int_to_roman_errors (n : Z) (e : exn) :
  int_to_roman n = Raise e -> exn_cls e = ValueError.
Proof.
  unfold int_to_roman. destruct ((n <=? 0) || (n >=? 4000)); [|discriminate].
  intros H. now injection H as <-.
Qed.

(** X5: from_decimal never raises: every exception of its body is caught
    and turned into None; it returns None for NaN and for the
    infinities whatever the target, the decimal target included. *)
Theorem from_decimal_total (x : Py.float) (to_base : Z) :
  (exists r, from_decimal x to_base = Ok r) /\
  from_decimal S754_nan to_base = Ok None /\
  (forall s, from_decimal (S754_infinity s) to_base = Ok None).
Proof.
  split; [|split; reflexivity].
  unfold from_decimal.
  destruct (Py.int_of_float x) as [n|e] eqn:Hx; cbn [bind].
  - destruct (to_base =? 10); [cbn; eauto|].
    destruct (to_base =? 2); [cbn; eauto|].
    destruct (to_base =? 8); [cbn; eauto|].
    destruct (to_base =? 16); [cbn; eauto|].
    destruct (to_base =? -1).
    + destruct (int_to_roman n) as [s|e] eqn:Hr; cbn; [eauto|].
      rewrite (int_to_roman_errors n e Hr). cbn. eauto.
    + destruct (Z_le_dec 2 to_base) as [H2|H2];
        [destruct (Z_le_dec to_base 36) as [H36|H36]|].
      * rewrite to_custom_base_spec by lia. cbn. eauto.
      * destruct (to_custom_base_range n to_base ltac:(lia)) as [e [-> He]].
        cbn. rewrite He. cbn. eauto.
      * destruct (to_custom_base_range n to_base ltac:(lia)) as [e [-> He]].
        cbn. rewrite He. cbn. eauto.
  - destruct (int_of_float_errors x e Hx) as [He|He]; cbn; rewrite He; cbn; eauto.
Qed.

(** ** The Roman target and the round trip through the converter *)

Lemma from_decimal_roman (x : Py.float) (n : Z) :
  Py.int_of_float x = Ok n ->
  from_decimal x (-1)
  = match int_to_roman n with
    | Ok s => Ok (Some s)
    | Raise _ => Ok None
    end.
Proof.
  intros Hx. unfold from_decimal. rewrite Hx. cbn [bind Z.eqb].
  destruct (int_to_roman n) as [s|e] eqn:Hr; cbn; [reflexivity|].
  now rewrite (int_to_roman_errors n e Hr).
Qed.

Lemma int_to_roman_range (n : Z) :
  (1 <= n <= 3999 -> exists s, int_to_roman n = Ok s /\ roman_to_int s = Ok n) /\
  (n <= 0 \/ 4000 <= n -> exists e, int_to_roman n = Raise e).
Proof.
  split.
  - intros Hn. apply roman_round_trips_range in Hn.
    unfold roman_round_trips in Hn.
    destruct (int_to_roman n) as [s|e]; [|discriminate].
    exists s. split; [reflexivity|].
    destruct (roman_to_int s) as [m|e]; [|discriminate].
    apply Z.eqb_eq in Hn. now subst.
  - intros Hn. unfold int_to_roman.
    replace ((n <=? 0) || (n >=? 4000)) with true; [eauto|].
    symmetry. apply orb_true_iff.
    destruct Hn; [left; apply Z.leb_le | right; apply Z.geb_le]; lia.
Qed.

(** X6: to the Roman target from_decimal renders the value truncated to
    an integer n: for n from 1 to 3999 it returns a numeral that
    roman_to_int reads as n, and for any other n it returns None. *)
Theorem from_decimal_roman_range (x : Py.float) (n : Z) :
  Py.int_of_float x = Ok n ->
  (1 <= n <= 3999 ->
   exists s, from_decimal x (-1) = Ok (Some s) /\ roman_to_int s = Ok n) /\
  (n <= 0 \/ 4000 <= n -> from_decimal x (-1) = Ok None).
Proof.
  intros Hx. rewrite (from_decimal_roman x n Hx). split.
  - intros Hn. destruct (proj1 (int_to_roman_range n) Hn) as [s [-> Hs]].
    eauto.
  - intros Hn. destruct (proj2 (int_to_roman_range n) Hn) as [e ->].
    reflexivity.
Qed.

Lemma from_decimal_roman_range_witness :
  (exists s, from_decimal (Py.round_decimal false 19949 (-1)) (-1) = Ok (Some s) /\
             roman_to_int s = Ok 1994) /\
  from_decimal (Py.round_decimal false 5 (-1)) (-1) = Ok None.
Proof.
  split.
  - apply (proj1 (from_decimal_roman_range
                    (Py.round_decimal false 19949 (-1)) 1994 eq_refl)). lia.
  - apply (proj2 (from_decimal_roman_range
                    (Py.round_decimal false 5 (-1)) 0 eq_refl)). lia.
Defined.

(** X7: the Roman numerals go through the converter unchanged: for n
    from 1 to 3999, to_decimal reads the numeral int_to_roman writes as
    the double of n, and from_decimal renders that double as the same
    numeral. *)
Theorem roman_converter_round_trip (n : Z) :
  1 <= n <= 3999 ->
  exists s,
    int_to_roman n = Ok s /\
    to_decimal s (-1) = Ok (Some (float_lit n)) /\
    from_decimal (float_lit n) (-1) = Ok (Some s).
Proof.
  intros Hn.
  destruct (proj1 (int_to_roman_range n) Hn) as [s [Hs Hr]].
  destruct (float_lit_exact n ltac:(lia)) as [Hf [Hi _]].
  exists s. split; [exact Hs|]. split.
  - now rewrite to_decimal_roman, Hr, Hf.
  - now rewrite (from_decimal_roman _ n Hi), Hs.
Qed.

Lemma roman_converter_round_trip_witness :
  exists s,
    int_to_roman 3888 = Ok s /\
    to_decimal s (-1) = Ok (Some (float_lit 3888)) /\
    from_decimal (float_lit 3888) (-1) = Ok (Some s).
Proof. apply (roman_converter_round_trip 3888). lia. Defined.

(** ** Conversions between the integer bases *)

Lemma from_decimal_nonneg (n b : Z) :
  2 <= b <= 36 -> b <> 10 -> 0 <= n <= 2 ^ 53 ->
  from_decimal (float_lit n) b = Ok (Some (upper (Py.magnitude b n))).
Proof.
  intros Hb H10 Hn.
  destruct (Z.eq_dec b 2) as [->|H2]; [apply from_decimal_integer; auto|].
  destruct (Z.eq_dec b 8) as [->|H8]; [apply from_decimal_integer; auto|].
  destruct (Z.eq_dec b 16) as [->|H16]; [apply from_decimal_integer; auto|].
  destruct (float_lit_exact n ltac:(lia)) as [_ [Hi _]].
  rewrite from_decimal_custom by lia.
  rewrite Hi. cbn [bind]. rewrite to_custom_base_spec by lia.
  unfold sign_text. destruct (Z.ltb_spec n 0); [lia | reflexivity].
Qed.





(** X9: a conversion between two integer systems keeps the value: when
    the source reads the text as an integer n from 0 to 2^53 (int for a
    radix, roman_to_int for the code -1), to_decimal returns a double
    from which from_decimal, to any radix from 2 to 36 other than 10,
    renders the numeral of n in normal form in that radix. *)
Theorem base_conversion (t : string) (from_base to_base n : Z) :
  (from_base = -1 /\ roman_to_int t = Ok n) \/
  (from_base <> -1 /\ from_base <> 10 /\ Py.int_of_str t from_base = Ok n) ->
  2 <= to_base <= 36 -> to_base <> 10 ->
  0 <= n <= 2 ^ 53 ->
  exists x s,
    to_decimal t from_base = Ok (Some x) /\
    from_decimal x to_base = Ok (Some s) /\
    normalized to_base s = true /\
    numeral_value to_base s = n.
Proof.
  intros Hsrc Hb H10 Hn.
  destruct (float_lit_exact n ltac:(lia)) as [Hf _].
  exists (float_lit n), (upper (Py.magnitude to_base n)).
  split; [|split].
  - destruct Hsrc as [[-> Hr]|[H1 [H10' Ht]]].
    + now rewrite to_decimal_roman, Hr, Hf.
    + now rewrite (to_decimal_reads t from_base n H10' H1 Ht), Hf.
  - apply from_decimal_nonneg; assumption.
  - destruct (magnitude_spec to_base n Hb) as [Hnorm Hval].
    split; [exact Hnorm|]. rewrite Hval. lia.
Qed.

Lemma base_conversion_witness :
  (exists x s,
     to_decimal "MCMXCIV" (-1) = Ok (Some x) /\
     from_decimal x 2 = Ok (Some s) /\
     normalized 2 s = true /\ numeral_value 2 s = 1994) /\
  (exists x s,
     to_decimal "0o3712" 8 = Ok (Some x) /\
     from_decimal x 36 = Ok (Some s) /\
     normalized 36 s = true /\ numeral_value 36 s = 1994).
Proof.
  split.
  - apply (base_conversion "MCMXCIV" (-1) 2 1994); try lia.
    left. split; reflexivity.
  - apply (base_conversion "0o3712" 8 36 1994); try lia.
    right. split; [lia|]. split; [lia | reflexivity].
Defined.

(** X10: validate_input and to_decimal agree: for the bases 10, 2, 8
    and 16, validate_input returns false exactly when to_decimal
    returns None. *)
Theorem validate_input_to_decimal (text : string) (base : Z) :
  base = 10 \/ base = 2 \/ base = 8 \/ base = 16 ->
  (validate_input text base = Ok false <-> to_decimal text base = Ok None).
Proof.
  intros Hb. unfold validate_input.
  destruct text as [|c r] eqn:Et.
  - cbn [String.length Nat.eqb]. split; [|reflexivity]. intros _.
    destruct Hb as [-> | [-> | [-> | ->]]]; reflexivity.
  - cbn [String.length Nat.eqb]. rewrite <- Et. clear Et c r.
    destruct Hb as [-> | Hb].
    + unfold to_decimal. cbn [Z.eqb Pos.eqb].
      destruct (Py.float_of_str text) as [x|e] eqn:Hf; cbn.
      * split; discriminate.
      * rewrite (float_of_str_errors _ _ Hf). cbn. split; reflexivity.
    + replace (base =? 10) with false
        by (destruct Hb as [-> | [-> | ->]]; reflexivity).
      replace ((base =? 2) || (base =? 8) || (base =? 16)) with true
        by (destruct Hb as [-> | [-> | ->]]; reflexivity).
      destruct (Py.int_of_str text base) as [n|e] eqn:Hi.
      * rewrite (to_decimal_reads text base n) by
          (try exact Hi; destruct Hb as [-> | [-> | ->]]; lia).
        cbn. destruct (Py.float_of_int n); split; discriminate.
      * cbn. rewrite (int_of_str_errors _ _ _ Hi). cbn.
        unfold to_decimal.
        replace (base =? 10) with false
          by (destruct Hb as [-> | [-> | ->]]; reflexivity).
        replace ((base =? 2) || (base =? 8) || (base =? 16)) with true
          by (destruct Hb as [-> | [-> | ->]]; reflexivity).
        rewrite Hi. cbn. rewrite (int_of_str_errors _ _ _ Hi). cbn.
        split; reflexivity.
Qed.

Lemma validate_input_to_decimal_witness :
  validate_input "12" 2 = Ok false <-> to_decimal "12" 2 = Ok None.
Proof. apply validate_input_to_decimal. right. left. reflexivity. Defined.

(** X11: on the paths of bin, oct and hex a negative value loses its
    sign: for n from -2^53 to -1, from_decimal renders the double of n
    as the letter of the prefix (b, o, X) followed by the digits of the
    magnitude. *)
Theorem negative_keeps_prefix_letter (n : Z) :
  - 2 ^ 53 <= n < 0 ->
  from_decimal (float_lit n) 2 = Ok (Some ("b" ++ Py.magnitude 2 n)) /\
  from_decimal (float_lit n) 8 = Ok (Some ("o" ++ Py.magnitude 8 n)) /\
  from_decimal (float_lit n) 16 = Ok (Some ("X" ++ upper (Py.magnitude 16 n))).
Proof.
  intros Hn. destruct (float_lit_exact n ltac:(lia)) as [_ [Hi _]].
  unfold from_decimal. rewrite Hi.
  cbn [bind Z.eqb Pos.eqb try_except].
  unfold Py.bin, Py.oct, Py.hex, Py.with_prefix.
  destruct (Z.ltb_spec n 0); [|lia].
  repeat split.
Qed.

Lemma negative_keeps_prefix_letter_witness :
  from_decimal (float_lit (-10)) 2 = Ok (Some ("b" ++ Py.magnitude 2 (-10))) /\
  from_decimal (float_lit (-10)) 8 = Ok (Some ("o" ++ Py.magnitude 8 (-10))) /\
  from_decimal (float_lit (-10)) 16
  = Ok (Some ("X" ++ upper (Py.magnitude 16 (-10)))).
Proof. apply (negative_keeps_prefix_letter (-10)). lia. Defined.

(** X12: from_decimal cuts the fraction off toward zero: the integer it
    takes from a finite double with mantissa m and exponent e has the
    sign of the double and the magnitude of m * 2^e rounded down; and
    for every target but 10 the result is that of the double of this
    integer, when it lies from -2^53 to 2^53. *)
Theorem from_decimal_truncates (s : bool) (m : positive) (e n : Z) :
  Py.int_of_float (S754_finite s m e) = Ok n ->
  (if s then n <= 0 else 0 <= n) /\
  (0 <= e -> Z.abs n = Zpos m * 2 ^ e) /\
  (e < 0 -> Z.abs n * 2 ^ (- e) <= Zpos m < (Z.abs n + 1) * 2 ^ (- e)) /\
  (forall to_base,
     to_base <> 10 -> - 2 ^ 53 <= n <= 2 ^ 53 ->
     from_decimal (S754_finite s m e) to_base
     = from_decimal (float_lit n) to_base).
Proof.
  intros Hx. pose proof Hx as Hx'.
  change (Ok (let a := if 0 <=? e then Zpos m * 2 ^ e
                       else Zpos m / 2 ^ (- e) in
              if s then - a else a) = Ok n) in Hx.
  cbv zeta in Hx.
  remember (if 0 <=? e then Zpos m * 2 ^ e else Zpos m / 2 ^ (- e)) as a
    eqn:Ea.
  assert (Hn : (if s then - a else a) = n) by congruence.
  assert (Ha : 0 <= a).
  { subst a. destruct (Z.leb_spec 0 e).
    - assert (0 < 2 ^ e) by (apply Z.pow_pos_nonneg; lia). lia.
    - apply Z.div_pos; [lia|]. apply Z.pow_pos_nonneg; lia. }
  assert (Habs : Z.abs n = a) by (destruct s; cbv iota in Hn; lia).
  split; [destruct s; cbv iota in Hn |- *; lia|]. split; [|split].
  - intros He. rewrite Habs. subst a.
    destruct (Z.leb_spec 0 e); [reflexivity | lia].
  - intros He. rewrite Habs. subst a.
    destruct (Z.leb_spec 0 e); [lia|].
    assert (Hp : 0 < 2 ^ (- e)) by (apply Z.pow_pos_nonneg; lia).
    pose proof (Z.mul_div_le (Zpos m) (2 ^ (- e)) Hp).
    pose proof (Z.mul_succ_div_gt (Zpos m) (2 ^ (- e)) Hp).
    lia.
  - intros b Hb Hr. destruct (float_lit_exact n Hr) as [_ [Hi _]].
    unfold from_decimal. rewrite Hx', Hi. cbn [bind].
    destruct (Z.eqb_spec b 10); [contradiction | reflexivity].
Qed.

Lemma from_decimal_truncates_witness :
  from_decimal (Py.round_decimal true 275 (-2)) 7
  = from_decimal (float_lit (-2)) 7.
Proof.
  apply (proj2 (proj2 (proj2
           (from_decimal_truncates true 6192449487634432 (-51) (-2) eq_refl))));
    lia.
Defined.

(** ** The results and the errors of [evaluate] *)

(** X13: what evaluate makes of the value of eval, once the text has
    passed both checks: a finite float is returned as it is, an integer
    from -2^53 to 2^53 as the double equal to it, an integer too large
    for a double gives the evaluation error with the text of the
    overflow, and a value that is no number the invalid-expression
    error with the name of its type. *)
Theorem evaluate_by_type (eval : string -> result value)
    (expr mode expr' : string) (v : value) :
  sanitize_expression expr = Ok expr' ->
  Re.search zero_divisor expr' = false ->
  eval (transformed expr' mode) = Ok v ->
  (forall x, v = VFloat x -> Py.isnan x = false -> Py.isinf x = false ->
     evaluate eval expr mode = Ok x) /\
  (forall n, v = VInt n -> - 2 ^ 53 <= n <= 2 ^ 53 ->
     evaluate eval expr mode = Ok (float_lit n)) /\
  (forall n e, v = VInt n -> Py.float_of_int n = Raise e ->
     evaluate eval expr mode
     = Raise (Exn OtherException
                "Chyba vyhodnocení: int too large to convert to float")) /\
  (forall t, v = VOther t ->
     evaluate eval expr mode
     = Raise (Exn ValueError ("Neplatný výraz: must be real number, not " ++ t))).
Proof.
  intros Hs Hz He. unfold evaluate. rewrite Hs. cbn [bind]. rewrite Hz.
  cbn [bind]. rewrite He. cbn [bind]. unfold math_isnan, math_isinf.
  split; [|split; [|split]].
  - intros x -> Hn Hi. cbn [as_double bind]. rewrite Hn. cbn [bind].
    rewrite Hi. reflexivity.
  - intros n -> Hr. destruct (float_lit_exact n Hr) as [Hf [_ [Hn Hi]]].
    cbn [as_double]. rewrite Hf. cbn [bind]. rewrite Hn. cbn [bind].
    rewrite Hi. reflexivity.
  - intros n e -> Hf. cbn [as_double]. rewrite Hf. cbn [bind].
    unfold Py.float_of_int in Hf.
    destruct (binary_normalize Py.prec Py.emax n 0 false);
      try discriminate.
    injection Hf as <-. reflexivity.
  - intros t ->. reflexivity.
Qed.

Lemma evaluate_by_type_witness :
  evaluate sample_eval " 2+2 " "rad" = Ok (float_lit 4).
Proof.
  apply (proj1 (proj2 (evaluate_by_type sample_eval " 2+2 " "rad" "2+2"
                         (VInt 4) eq_refl eq_refl eq_refl)) 4 eq_refl).
  lia.
Defined.

(** X14: every error that leaves evaluate has one of four forms: the
    division error, the syntax error, a ValueError whose text starts
    with the invalid-expression prefix, or a plain Exception whose text
    starts with the evaluation-error prefix; no TypeError, NameError or
    OverflowError of the checks or of eval escapes as such. *)
Theorem evaluate_errors (eval : string -> result value)
    (expr mode : string) (e : exn) :
  evaluate eval expr mode = Raise e -> evaluation_error e.
Proof.
  unfold evaluate.
  match goal with
  | |- match ?body with _ => _ end = _ -> _ => destruct body as [x|e']
  end; [discriminate|].
  intros H. injection H as <-. unfold evaluation_error, reraise, DivisionByZero.
  destruct (exn_cls e'); eauto.
Qed.

Lemma evaluate_errors_witness :
  evaluation_error (Exn ValueError "Neplatný výraz: name 'foo' is not defined").
Proof.
  apply (evaluate_errors sample_eval "foo(1)" "deg"). reflexivity.
Defined.

(** ** The check of the decimal points *)

Lemma split_on_nonempty (p : ascii -> bool) (s : string) :
  split_on p s <> [].
Proof.
  destruct s as [|c r]; cbn; [discriminate|].
  destruct (p c); [discriminate|].
  destruct (split_on p r); discriminate.
Qed.

Lemma split_on_cons (p : ascii -> bool) (c : ascii) (r : string) :
  split_on p (String c r)
  = if p c then "" :: split_on p r
    else String c (hd "" (split_on p r)) :: tl (split_on p r).
Proof.
  cbn [split_on]. destruct (p c); [reflexivity|].
  pose proof (split_on_nonempty p r) as Hne.
  destruct (split_on p r); [contradiction | reflexivity].
Qed.

Lemma split_on_hd (p : ascii -> bool) (s : string) :
  str_forallb (fun c => negb (p c)) (hd "" (split_on p s)) = true /\
  exists b, s = hd "" (split_on p s) ++ b.
Proof.
  induction s as [|c r [IHf [b IHb]]].
  - split; [reflexivity | now exists ""].
  - rewrite split_on_cons. destruct (p c) eqn:Hc; cbn [hd].
    + split; [reflexivity | now exists (String c r)].
    + split; [cbn; now rewrite Hc, IHf|].
      exists b. cbn. now rewrite <- IHb.
Qed.

(** The pieces of a split hold none of the separators and lie in the
    text. *)
Lemma split_on_parts (p : ascii -> bool) (s part : string) :
  In part (split_on p s) ->
  str_forallb (fun c => negb (p c)) part = true /\
  exists a b, s = a ++ part ++ b.
Proof.
  revert part. induction s as [|c r IH]; intros part Hin.
  - destruct Hin as [<-|[]]. split; [reflexivity | now exists "", ""].
  - rewrite split_on_cons in Hin. destruct (p c) eqn:Hc.
    + destruct Hin as [<-|Hin].
      * split; [reflexivity | now exists "", (String c r)].
      * destruct (IH part Hin) as [Hf [a [b ->]]].
        split; [exact Hf | now exists (String c a), b].
    + destruct Hin as [<-|Hin].
      * destruct (split_on_hd p r) as [Hf [b Hb]].
        split; [cbn; now rewrite Hc, Hf|].
        exists "", b. cbn. now rewrite <- Hb.
      * assert (Hin' : In part (split_on p r)).
        { pose proof (split_on_nonempty p r).
          destruct (split_on p r); [contradiction | now right]. }
        destruct (IH part Hin') as [Hf [a [b ->]]].
        split; [exact Hf | now exists (String c a), b].
Qed.

Lemma split_on_free_prefix (p : ascii -> bool) (seg b : string) :
  str_forallb (fun c => negb (p c)) seg = true ->
  split_on p (seg ++ b)
  = (seg ++ hd "" (split_on p b)) :: tl (split_on p b).
Proof.
  induction seg as [|c seg IH]; intros Hf.
  - cbn. pose proof (split_on_nonempty p b).
    destruct (split_on p b); [contradiction | reflexivity].
  - cbn in Hf. apply andb_true_iff in Hf. destruct Hf as [Hc Hf].
    apply negb_true_iff in Hc.
    change (String c seg ++ b) with (String c (seg ++ b)).
    rewrite split_on_cons, Hc, (IH Hf). reflexivity.
Qed.

(** A stretch of the text without separators lies within one piece of
    the split. *)
Lemma split_on_covers (p : ascii -> bool) (a seg b : string) :
  str_forallb (fun c => negb (p c)) seg = true ->
  exists x y, In (x ++ seg ++ y) (split_on p (a ++ seg ++ b)).
Proof.
  intros Hf. induction a as [|c a [x [y IH]]].
  - exists "", (hd "" (split_on p b)).
    cbn [append]. rewrite (split_on_free_prefix p seg b Hf). now left.
  - change (String c a ++ seg ++ b) with (String c (a ++ seg ++ b)).
    rewrite split_on_cons. destruct (p c).
    + exists x, y. now right.
    + destruct (split_on p (a ++ seg ++ b)) as [|h t]; [contradiction|].
      destruct IH as [Hh|Hin].
      * exists (String c x), y. left. cbn. now rewrite Hh.
      * exists x, y. now right.
Qed.

Lemma count_app (c : ascii) (a b : string) :
  count c (a ++ b) = (count c a + count c b)%nat.
Proof.
  induction a as [|d a IH]; cbn; [reflexivity|]. rewrite IH. lia.
Qed.

Lemma sanitize_expression_cases (expr : string) :
  (sanitize_expression expr
   = Raise (Exn ValueError "Více desetinných teček v čísle") /\
   exists part, In part (split_on is_separator (Py.strip expr)) /\
                (2 <= count "." part)%nat) \/
  (sanitize_expression expr = Ok (Py.strip expr) /\
   forall part, In part (split_on is_separator (Py.strip expr)) ->
                (count "." part <= 1)%nat).
Proof.
  unfold sanitize_expression.
  destruct (existsb (fun part => (1 <? count "." part)%nat)
              (split_on is_separator (Py.strip expr))) eqn:E.
  - left. split; [reflexivity|].
    apply existsb_exists in E. destruct E as [part [Hin Hc]].
    exists part. split; [exact Hin|]. apply Nat.ltb_lt in Hc. lia.
  - right. split; [reflexivity|]. intros part Hin.
    destruct (Nat.ltb_spec 1 (count "." part)) as [Hlt|Hle]; [|lia].
    assert (existsb (fun part => (1 <? count "." part)%nat)
              (split_on is_separator (Py.strip expr)) = true).
    { apply existsb_exists. exists part. split; [exact Hin|].
      now apply Nat.ltb_lt. }
    congruence.
Qed.

(** X15: sanitize_expression strips the text and raises its error
    exactly when a stretch of the stripped text without any of the six
    split characters holds two or more decimal points; otherwise it
    returns the stripped text, whatever its other characters are.  When
    it raises, evaluate fails with the malformed-number error. *)
Theorem sanitize_expression_spec (expr : string) :
  (sanitize_expression expr
   = Raise (Exn ValueError "Více desetinných teček v čísle") <->
   exists a seg b,
     Py.strip expr = a ++ seg ++ b /\ separator_free seg = true /\
     (2 <= count "." seg)%nat) /\
  (sanitize_expression expr
   = Raise (Exn ValueError "Více desetinných teček v čísle") \/
   sanitize_expression expr = Ok (Py.strip expr)) /\
  (forall eval mode,
     sanitize_expression expr
     = Raise (Exn ValueError "Více desetinných teček v čísle") ->
     evaluate eval expr mode = Raise MalformedNumber).
Proof.
  split; [|split].
  - split.
    + intros Hr.
      destruct (sanitize_expression_cases expr) as [[_ [part [Hin Hc]]]|[Ho _]];
        [|congruence].
      destruct (split_on_parts _ _ _ Hin) as [Hf [a [b Hs]]].
      exists a, part, b. auto.
    + intros [a [seg [b [Hs [Hf Hc]]]]].
      destruct (sanitize_expression_cases expr) as [[Hr _]|[_ Hall]];
        [exact Hr|].
      destruct (split_on_covers is_separator a seg b Hf) as [x [y Hin]].
      rewrite <- Hs in Hin. specialize (Hall _ Hin).
      rewrite !count_app in Hall. lia.
  - destruct (sanitize_expression_cases expr) as [[Hr _]|[Ho _]]; auto.
  - intros eval mode Hr. unfold evaluate. rewrite Hr. reflexivity.
Qed.

Lemma sanitize_expression_spec_witness :
  evaluate sample_eval " 2*(1.5.2+1) " "rad" = Raise MalformedNumber.
Proof.
  apply (proj2 (proj2 (sanitize_expression_spec " 2*(1.5.2+1) "))).
  reflexivity.
Defined.

(** ** The rewriting for degrees, in general *)

Lemma strip_prefix_app (pre s : string) : strip_prefix pre (pre ++ s) = Some s.
Proof.
  induction pre as [|c pre IH]; cbn; [now destruct s|].
  now rewrite Ascii.eqb_refl.
Qed.

Lemma find_close_argument (arg rest : string) :
  call_argument arg = true -> find_close (arg ++ String ")" rest) = Some arg.
Proof.
  unfold call_argument. induction arg as [|c arg IH]; cbn; [reflexivity|].
  intros H. apply andb_true_iff in H. destruct H as [Hc Harg].
  apply andb_true_iff in Hc. destruct Hc as [H1 H2].
  apply negb_true_iff in H1, H2. rewrite H1, H2, (IH Harg). reflexivity.
Qed.

Lemma sub_call_pass (name a s : string) :
  sub_call name (String.length a) (a ++ s) = sub_call name 0 s.
Proof.
  induction a as [|c a IH]; cbn [String.length append]; [reflexivity|].
  cbn [sub_call]. exact IH.
Qed.

Lemma strip_prefix_suffix (p : ascii -> bool) (pre s t : string) :
  strip_prefix pre s = Some t ->
  str_forallb p s = true -> str_forallb p t = true.
Proof.
  revert s. induction pre as [|a pre IH]; intros s H Hs.
  - destruct s; cbn in H; injection H as <-; exact Hs.
  - destruct s as [|b s]; cbn in H; [discriminate|].
    destruct (Ascii.eqb a b); [|discriminate].
    cbn in Hs. apply andb_true_iff in Hs. apply (IH s H), Hs.
Qed.

Lemma find_close_none (s : string) :
  str_forallb (fun c => negb (Ascii.eqb c ")")) s = true ->
  find_close s = None.
Proof.
  induction s as [|c s IH]; cbn; [reflexivity|].
  intros H. apply andb_true_iff in H. destruct H as [Hc Hs].
  apply negb_true_iff in Hc. rewrite Hc, (IH Hs).
  now destruct (Ascii.eqb c "010").
Qed.

Lemma sub_call_first_close (name arg rest : string) :
  call_argument arg = true ->
  sub_call name 0 (name ++ "(" ++ arg ++ ")" ++ rest)
  = name ++ "(radians(" ++ arg ++ "))" ++ sub_call name 0 rest.
Proof.
  intros Harg.
  assert (Hm : option_map find_close
                 (strip_prefix (name ++ "(")
                    (name ++ "(" ++ arg ++ ")" ++ rest))
               = Some (Some arg)).
  { replace (name ++ "(" ++ arg ++ ")" ++ rest)
      with ((name ++ "(") ++ arg ++ String ")" rest)
      by (now rewrite append_assoc3).
    rewrite strip_prefix_app. cbn [option_map].
    now rewrite find_close_argument. }
  destruct name as [|n0 nm].
  - cbn [append] in *. cbn [sub_call]. cbn [append]. rewrite Hm.
    cbn [String.length Nat.add].
    replace (arg ++ String ")" rest) with ((arg ++ ")") ++ rest)
      by (now rewrite append_assoc3).
    replace (String.length arg + 1)%nat with (String.length (arg ++ ")"))
      by (rewrite length_append; reflexivity).
    now rewrite sub_call_pass.
  - remember (String n0 nm) as name eqn:En.
    assert (Es : name ++ "(" ++ arg ++ ")" ++ rest
                 = String n0 ((nm ++ "(" ++ arg ++ ")") ++ rest)).
    { rewrite En. cbn [append]. f_equal.
      repeat (rewrite append_assoc3; cbn [append]). reflexivity. }
    rewrite Es in Hm |- *. cbn [sub_call]. rewrite Hm.
    replace (String.length name + String.length arg + 1)%nat
      with (String.length (nm ++ "(" ++ arg ++ ")")).
    + now rewrite sub_call_pass.
    + rewrite En, !length_append. cbn [String.length]. lia.
Qed.

Lemma sub_call_no_match (name : string) (c : ascii) (r : string) :
  strip_prefix (name ++ "(") (String c r) = None ->
  sub_call name 0 (String c r) = String c (sub_call name 0 r).
Proof. intros H. cbn [sub_call]. now rewrite H. Qed.

Lemma sub_call_unclosed (name s : string) :
  str_forallb (fun c => negb (Ascii.eqb c ")")) s = true ->
  sub_call name 0 s = s.
Proof.
  induction s as [|c s IH]; intros Hs; [reflexivity|].
  cbn [sub_call].
  assert (Hm : forall arg, option_map find_close
                             (strip_prefix (name ++ "(") (String c s))
                           <> Some (Some arg)).
  { intros arg.
    destruct (strip_prefix (name ++ "(") (String c s)) as [t|] eqn:Ht;
      cbn [option_map]; [|discriminate].
    rewrite (find_close_none t (strip_prefix_suffix _ _ _ _ Ht Hs)).
    discriminate. }
  cbn [str_forallb] in Hs. apply andb_true_iff in Hs. destruct Hs as [_ Hs].
  destruct (option_map find_close (strip_prefix (name ++ "(") (String c s)))
    as [[arg|]|] eqn:E.
  - exfalso. now apply (Hm arg).
  - now rewrite (IH Hs).
  - now rewrite (IH Hs).
Qed.

(** X16: the rewriting for degrees takes as the argument of a call the
    text up to the first closing parenthesis: a call name(arg) whose
    arg has no closing parenthesis and no newline becomes
    name(radians(arg)), and the rewriting goes on after it; a text with
    no closing parenthesis at all is left as it is. *)
Theorem degrees_wrap_to_first_close (name : string) :
  (forall arg rest,
     call_argument arg = true ->
     sub_call name 0 (name ++ "(" ++ arg ++ ")" ++ rest)
     = name ++ "(radians(" ++ arg ++ "))" ++ sub_call name 0 rest) /\
  (forall s,
     str_forallb (fun c => negb (Ascii.eqb c ")")) s = true ->
     sub_call name 0 s = s).
Proof.
  split.
  - apply sub_call_first_close.
  - apply sub_call_unclosed.
Qed.

Lemma degrees_wrap_to_first_close_witness :
  sub_call "sin" 0 ("sin" ++ "(" ++ "(30+60" ++ ")" ++ "*2)")
  = "sin" ++ "(radians(" ++ "(30+60" ++ "))" ++ sub_call "sin" 0 "*2)".
Proof.
  apply (proj1 (degrees_wrap_to_first_close "sin") "(30+60" "*2)").
  reflexivity.
Defined.

Lemma numeric_call_argument (x : string) :
  numeric_text x = true -> call_argument x = true.
Proof.
  unfold numeric_text, call_argument.
  induction x as [|c x IH]; cbn; [reflexivity|].
  intros H. apply andb_true_iff in H. destruct H as [Hc Hx].
  destruct (numeric_char_facts c Hc) as [_ [-> [-> _]]]. now apply IH.
Qed.

Lemma numeric_no_letter (n0 : ascii) (x rest : string) :
  is_digit n0 || Ascii.eqb n0 "." || Ascii.eqb n0 "-" = false ->
  numeric_text x = true ->
  str_forallb (fun c => negb (Ascii.eqb n0 c)) rest = true ->
  str_forallb (fun c => negb (Ascii.eqb n0 c)) (x ++ rest) = true.
Proof.
  intros Hn0. apply numeric_absent. intros c Hc.
  destruct (Ascii.eqb_spec n0 c) as [->|]; [congruence | reflexivity].
Qed.

Lemma transformed_deg (expr : string) :
  transformed expr "deg"
  = sub_call "tan" 0 (sub_call "cos" 0 (sub_call "sin" 0 (replace_caret expr))).
Proof. reflexivity. Qed.

Lemma transformed_other (expr mode : string) :
  mode <> "deg" -> transformed expr mode = replace_caret expr.
Proof.
  intros Hm. unfold transformed.
  destruct (String.eqb_spec mode "deg"); [contradiction | reflexivity].
Qed.

Lemma sub_call_wraps (name x : string) :
  call_argument x = true ->
  sub_call name 0 (name ++ "(" ++ x ++ ")")
  = name ++ "(radians(" ++ x ++ "))".
Proof. intros Hx. exact (sub_call_first_close name x "" Hx). Qed.

Lemma replace_caret_app (a b : string) :
  replace_caret (a ++ b) = replace_caret a ++ replace_caret b.
Proof.
  induction a as [|c a IH]; [reflexivity|].
  change (String c a ++ b) with (String c (a ++ b)).
  cbn [replace_caret]. rewrite IH.
  destruct (Ascii.eqb c "^"); reflexivity.
Qed.

Lemma replace_caret_call (f x : string) :
  replace_caret f = f -> numeric_text x = true ->
  replace_caret (f ++ x ++ ")") = f ++ x ++ ")".
Proof.
  intros Hf Hx. now rewrite replace_caret_app, Hf, replace_caret_numeric.
Qed.

Lemma call_no_letter (n0 : ascii) (pre x post : string) :
  is_digit n0 || Ascii.eqb n0 "." || Ascii.eqb n0 "-" = false ->
  str_forallb (fun c => negb (Ascii.eqb n0 c)) pre = true ->
  numeric_text x = true ->
  str_forallb (fun c => negb (Ascii.eqb n0 c)) post = true ->
  str_forallb (fun c => negb (Ascii.eqb n0 c)) (pre ++ x ++ post) = true.
Proof.
  intros Hn0 Hpre Hx Hpost. rewrite str_forallb_app, Hpre.
  now apply numeric_no_letter.
Qed.

(** The pass for the sine leaves a call of the cosine as it is. *)
Lemma sin_pass_cos (x : string) :
  numeric_text x = true ->
  sub_call "sin" 0 ("cos(" ++ x ++ ")") = "cos(" ++ x ++ ")".
Proof.
  intros Hx.
  change ("cos(" ++ x ++ ")")
    with (String "c" (String "o" (String "s" (String "(" (x ++ ")"))))).
  rewrite !sub_call_no_match by reflexivity.
  rewrite (sub_call_absent "s" "in"); [reflexivity|].
  now apply (call_no_letter "s" "" x ")").
Qed.

(** X17: in degrees the argument of a sine, cosine or tangent is
    wrapped in radians: for every numeric text x, evaluate hands eval
    sin(radians(x)) for sin(x), and likewise for cos and tan; in every
    mode other than deg, whatever its name, the call reaches eval
    unchanged. *)
Theorem degrees_wrap_numeric (x : string) :
  numeric_text x = true ->
  transformed ("sin(" ++ x ++ ")") "deg" = "sin(radians(" ++ x ++ "))" /\
  transformed ("cos(" ++ x ++ ")") "deg" = "cos(radians(" ++ x ++ "))" /\
  transformed ("tan(" ++ x ++ ")") "deg" = "tan(radians(" ++ x ++ "))" /\
  (forall mode, mode <> "deg" ->
     transformed ("sin(" ++ x ++ ")") mode = "sin(" ++ x ++ ")" /\
     transformed ("cos(" ++ x ++ ")") mode = "cos(" ++ x ++ ")" /\
     transformed ("tan(" ++ x ++ ")") mode = "tan(" ++ x ++ ")").
Proof.
  intros Hx.
  pose proof (numeric_call_argument x Hx) as Harg.
  pose proof (sub_call_wraps "sin" x Harg) as Hsin.
  pose proof (sub_call_wraps "cos" x Harg) as Hcos.
  pose proof (sub_call_wraps "tan" x Harg) as Htan.
  change ("sin" ++ "(" ++ x ++ ")") with ("sin(" ++ x ++ ")") in Hsin.
  change ("cos" ++ "(" ++ x ++ ")") with ("cos(" ++ x ++ ")") in Hcos.
  change ("tan" ++ "(" ++ x ++ ")") with ("tan(" ++ x ++ ")") in Htan.
  change ("sin" ++ "(radians(" ++ x ++ "))")
    with ("sin(radians(" ++ x ++ "))") in Hsin.
  change ("cos" ++ "(radians(" ++ x ++ "))")
    with ("cos(radians(" ++ x ++ "))") in Hcos.
  change ("tan" ++ "(radians(" ++ x ++ "))")
    with ("tan(radians(" ++ x ++ "))") in Htan.
  split; [|split; [|split]].
  - rewrite transformed_deg, (replace_caret_call "sin(" x eq_refl Hx), Hsin.
    rewrite (sub_call_absent "c" "os");
      [|now apply (call_no_letter "c" "sin(radians(" x "))")].
    apply (sub_call_absent "t" "an").
    now apply (call_no_letter "t" "sin(radians(" x "))").
  - rewrite transformed_deg, (replace_caret_call "cos(" x eq_refl Hx).
    rewrite (sin_pass_cos x Hx), Hcos.
    apply (sub_call_absent "t" "an").
    now apply (call_no_letter "t" "cos(radians(" x "))").
  - rewrite transformed_deg, (replace_caret_call "tan(" x eq_refl Hx).
    rewrite (sub_call_absent "s" "in");
      [|now apply (call_no_letter "s" "tan(" x ")")].
    rewrite (sub_call_absent "c" "os");
      [|now apply (call_no_letter "c" "tan(" x ")")].
    exact Htan.
  - intros mode Hm. rewrite !(transformed_other _ mode Hm).
    rewrite (replace_caret_call "sin(" x eq_refl Hx),
      (replace_caret_call "cos(" x eq_refl Hx),
      (replace_caret_call "tan(" x eq_refl Hx).
    repeat split.
Qed.

Lemma degrees_wrap_numeric_witness :
  transformed ("cos(" ++ "-45.5" ++ ")") "deg"
  = "cos(radians(" ++ "-45.5" ++ "))".
Proof.
  apply (proj1 (proj2 (degrees_wrap_numeric "-45.5" eq_refl))).
Defined.

Lemma replace_caret_free (s : string) :
  str_forallb (fun c => negb (Ascii.eqb c "^")) (replace_caret s) = true.
Proof.
  induction s as [|c s IH]; [reflexivity|]. cbn [replace_caret].
  destruct (Ascii.eqb c "^") eqn:E.
  - cbn [append str_forallb]. now rewrite IH.
  - cbn [str_forallb]. now rewrite E, IH.
Qed.

Lemma find_close_chars (p : ascii -> bool) (s arg : string) :
  find_close s = Some arg ->
  str_forallb p s = true -> str_forallb p arg = true.
Proof.
  revert arg. induction s as [|c s IH]; intros arg H Hs; [discriminate|].
  cbn in H, Hs. apply andb_true_iff in Hs. destruct Hs as [Hc Hs].
  destruct (Ascii.eqb c ")"); [now injection H as <-|].
  destruct (Ascii.eqb c "010"); [discriminate|].
  destruct (find_close s) as [a|]; [|discriminate].
  injection H as <-. cbn. now rewrite Hc, (IH a eq_refl Hs).
Qed.

(** The rewriting adds only the characters of the name and of the call
    of radians. *)
Lemma sub_call_chars (p : ascii -> bool) (name s : string) (k : nat) :
  str_forallb p name = true -> str_forallb p "(radians())" = true ->
  str_forallb p s = true -> str_forallb p (sub_call name k s) = true.
Proof.
  intros Hname Hrad. revert k.
  induction s as [|c s IH]; intros k Hs; [reflexivity|].
  pose proof Hs as Hcs.
  cbn [str_forallb] in Hs. apply andb_true_iff in Hs. destruct Hs as [Hc Hs].
  cbn [sub_call]. destruct k as [|k]; [|now apply IH].
  destruct (strip_prefix (name ++ "(") (String c s)) as [t|] eqn:Ht;
    cbn [option_map].
  - destruct (find_close t) as [arg|] eqn:Ha.
    + pose proof (find_close_chars p t arg Ha
                    (strip_prefix_suffix p _ _ _ Ht Hcs)) as Harg.
      rewrite !str_forallb_app, Hname, Harg, (IH _ Hs).
      cbn in Hrad |- *.
      repeat (apply andb_true_iff in Hrad; destruct Hrad as [? Hrad]).
      repeat (apply andb_true_iff; split); assumption.
    + cbn [str_forallb]. now rewrite Hc, IH.
  - cbn [str_forallb]. now rewrite Hc, IH.
Qed.

(** X18: the text evaluate hands to eval never holds a caret, in any
    angle mode: every caret of the expression has become the power
    operator of the host. *)
Theorem no_caret_reaches_eval (expr mode : string) :
  str_forallb (fun c => negb (Ascii.eqb c "^")) (transformed expr mode) = true.
Proof.
  unfold transformed. destruct (String.eqb mode "deg").
  - repeat (apply sub_call_chars; [reflexivity | reflexivity |]).
    apply replace_caret_free.
  - apply replace_caret_free.
Qed.

(** ** The history and the window *)

Lemma get_history_rows (h : HistoryManager.t) :
  HistoryManager.get_history h = map history_row (HistoryManager.history h).
Proof.
  unfold HistoryManager.get_history. apply map_ext. now intros [expr res].
Qed.

Lemma add_entries_history (entries : list (string * string))
    (h : HistoryManager.t) :
  HistoryManager.history (add_entries h entries)
  = (HistoryManager.history h ++ entries)%list.
Proof.
  revert h. induction entries as [|[expr res] entries IH]; intros h.
  - cbn. now rewrite app_nil_r.
  - unfold add_entries in *. cbn [fold_left]. rewrite IH. cbn.
    now rewrite <- app_assoc.
Qed.

(** X19: the history keeps its entries in the order they were added and
    shows each as the expression, an equals sign between two spaces,
    and the result; after clear it is empty, and entries added after a
    clear are all it shows. *)
Theorem history_rows_in_order (h : HistoryManager.t)
    (entries : list (string * string)) :
  HistoryManager.get_history (add_entries h entries)
  = (HistoryManager.get_history h ++ map history_row entries)%list /\
  HistoryManager.get_history (HistoryManager.clear (add_entries h entries))
  = [] /\
  HistoryManager.get_history (add_entries (HistoryManager.clear h) entries)
  = map history_row entries.
Proof.
  rewrite !get_history_rows, !add_entries_history, map_app.
  repeat split.
Qed.

Section Window.

Import CalculatorUI.

Variable eval : string -> result value.

Lemma step_rows (self : CalculatorUI.t) (ev : event) :
  history_list self = map history_row (ledger self) ->
  history_list (step eval self ev)
  = map history_row (ledger (step eval self ev)).
Proof.
  intros H. destruct ev; cbn; try exact H.
  - unfold add_function. destruct (String.eqb func "**2"); exact H.
  - unfold calculate.
    destruct (String.length (display self) =? 0)%nat; [exact H|].
    destruct (evaluate eval (display self) (angle_mode self)) as [x|e].
    + exact (get_history_rows
               (HistoryManager.add_entry (history_manager self)
                  (display self) (Py.str_of_float x))).
    + destruct (exn_cls e); exact H.
  - reflexivity.
Qed.

Lemma run_rows (evs : list event) (self : CalculatorUI.t) :
  history_list self = map history_row (ledger self) ->
  history_list (fold_left (step eval) evs self)
  = map history_row (ledger (fold_left (step eval) evs self)).
Proof.
  revert self. induction evs as [|ev evs IH]; intros self H; cbn.
  - exact H.
  - apply IH, step_rows, H.
Qed.

Lemma calculate_frame (self : CalculatorUI.t) :
  angle_mode (calculate eval self) = angle_mode self.
Proof.
  unfold calculate.
  destruct (String.length (display self) =? 0)%nat; [reflexivity|].
  destruct (evaluate eval (display self) (angle_mode self)) as [x|e];
    [reflexivity|].
  destruct (exn_cls e); reflexivity.
Qed.

End Window.

(** X20: in every state the window can reach, the rows of the history
    tab are the entries of the history, oldest first, each shown as
    expression = result; after the button that clears the history the
    tab shows no row. *)
Theorem history_tab_in_sync (eval : string -> result value)
    (evs : list CalculatorUI.event) :
  CalculatorUI.history_list (CalculatorUI.run eval evs)
  = map history_row (ledger (CalculatorUI.run eval evs)) /\
  CalculatorUI.history_list
    (CalculatorUI.run eval (evs ++ [CalculatorUI.ClearHistory])%list) = [] /\
  ledger (CalculatorUI.run eval (evs ++ [CalculatorUI.ClearHistory])%list) = [].
Proof.
  split; [apply run_rows; reflexivity|].
  unfold CalculatorUI.run. rewrite fold_left_app. split; reflexivity.
Qed.

(** X21: what calculate does to the window.  On an empty input line
    it does nothing.  When evaluate returns a value, the input line
    shows the text of the value, no error box opens, and the history
    tab gains the row of the expression and that text.  When evaluate
    raises, the input line is cleared, the history is unchanged and
    exactly one error box opens, with one of four texts.  The angle
    mode is never changed. *)
Theorem calculate_outcome (eval : string -> result value)
    (self : CalculatorUI.t) :
  (CalculatorUI.display self = "" -> CalculatorUI.calculate eval self = self) /\
  (forall x,
     CalculatorUI.display self <> "" ->
     evaluate eval (CalculatorUI.display self) (CalculatorUI.angle_mode self)
     = Ok x ->
     CalculatorUI.display (CalculatorUI.calculate eval self)
     = Py.str_of_float x /\
     CalculatorUI.errors (CalculatorUI.calculate eval self)
     = CalculatorUI.errors self /\
     CalculatorUI.history_list (CalculatorUI.calculate eval self)
     = (map history_row (ledger self)
        ++ [history_row (CalculatorUI.display self, Py.str_of_float x)])%list) /\
  (forall e,
     CalculatorUI.display self <> "" ->
     evaluate eval (CalculatorUI.display self) (CalculatorUI.angle_mode self)
     = Raise e ->
     CalculatorUI.display (CalculatorUI.calculate eval self) = "" /\
     CalculatorUI.history_list (CalculatorUI.calculate eval self)
     = CalculatorUI.history_list self /\
     exists msg,
       CalculatorUI.errors (CalculatorUI.calculate eval self)
       = (CalculatorUI.errors self ++ [msg])%list /\
       calculate_message msg) /\
  CalculatorUI.angle_mode (CalculatorUI.calculate eval self)
  = CalculatorUI.angle_mode self.
Proof.
  split; [|split; [|split]].
  - intros Hd. unfold CalculatorUI.calculate. now rewrite Hd.
  - intros x Hd He. unfold CalculatorUI.calculate.
    destruct (CalculatorUI.display self) as [|c r] eqn:Ed; [contradiction|].
    cbn [String.length Nat.eqb]. rewrite He.
    split; [reflexivity|]. split; [reflexivity|].
    etransitivity;
      [exact (get_history_rows
                (HistoryManager.add_entry (CalculatorUI.history_manager self)
                   (String c r) (Py.str_of_float x)))|].
    unfold HistoryManager.add_entry, ledger. cbn [HistoryManager.history].
    now rewrite map_app.
  - intros e Hd He. unfold CalculatorUI.calculate.
    destruct (CalculatorUI.display self) as [|c r] eqn:Ed; [contradiction|].
    cbn [String.length Nat.eqb]. rewrite He.
    assert (Hf : exists e', e = reraise e').
    { unfold evaluate in He.
      match type of He with
      | match ?body with _ => _ end = _ => destruct body as [y|e']
      end; [discriminate|].
      injection He as <-. now exists e'. }
    destruct Hf as [e' ->]. unfold reraise, calculate_message.
    destruct (exn_cls e'); cbn;
      (split; [reflexivity|]; split; [reflexivity|];
       eexists; split; [reflexivity|]; eauto 6).
  - apply calculate_frame.
Qed.

Lemma calculate_outcome_witness :
  CalculatorUI.display
    (CalculatorUI.calculate sample_eval
       (CalculatorUI.set_display CalculatorUI.init "foo(1)")) = "" /\
  CalculatorUI.history_list
    (CalculatorUI.calculate sample_eval
       (CalculatorUI.set_display CalculatorUI.init "foo(1)")) = [] /\
  exists msg,
    CalculatorUI.errors
      (CalculatorUI.calculate sample_eval
         (CalculatorUI.set_display CalculatorUI.init "foo(1)"))
    = ([] ++ [msg])%list /\
    calculate_message msg.
Proof.
  apply (proj1 (proj2 (proj2
           (calculate_outcome sample_eval
              (CalculatorUI.set_display CalculatorUI.init "foo(1)"))))
           (Exn ValueError "Neplatný výraz: name 'foo' is not defined")).
  - discriminate.
  - reflexivity.
Defined.

(** ** Loading a row of the history *)

Lemma append_nil_r (s : string) : s ++ "" = s.
Proof. induction s as [|c s IH]; cbn; [reflexivity | now rewrite IH]. Qed.

Lemma list_ascii_app (a b : string) :
  list_ascii_of_string (a ++ b)
  = (list_ascii_of_string a ++ list_ascii_of_string b)%list.
Proof. induction a as [|c a IH]; cbn; [reflexivity | now rewrite IH]. Qed.

Lemma str_rev_snoc (s : string) (w : ascii) :
  str_rev (s ++ String w "") = String w (str_rev s).
Proof.
  unfold str_rev. rewrite list_ascii_app. cbn [list_ascii_of_string].
  rewrite rev_app_distr. reflexivity.
Qed.

Lemma lstrip_all (p : ascii -> bool) (s : string) :
  str_forallb p s = true -> Py.lstrip p s = "".
Proof.
  induction s as [|c s IH]; cbn; [reflexivity|].
  intros H. apply andb_true_iff in H. destruct H as [-> Hs]. now apply IH.
Qed.

Lemma lstrip_snoc (p : ascii -> bool) (s : string) (w : ascii) :
  p w = true ->
  Py.lstrip p (s ++ String w "")
  = if str_forallb p s then "" else Py.lstrip p s ++ String w "".
Proof.
  intros Hw. induction s as [|c s IH]; cbn.
  - now rewrite Hw.
  - destruct (p c); [exact IH | reflexivity].
Qed.

Lemma strip_snoc (s : string) (w : ascii) :
  Py.is_space w = true -> Py.strip (s ++ String w "") = Py.strip s.
Proof.
  intros Hw. unfold Py.strip. rewrite (lstrip_snoc _ s w Hw).
  destruct (str_forallb Py.is_space s) eqn:E.
  - now rewrite (lstrip_all _ s E).
  - unfold Py.rstrip. rewrite str_rev_snoc. cbn [Py.lstrip].
    now rewrite Hw.
Qed.

Lemma strip_cons (s : string) (w : ascii) :
  Py.is_space w = true -> Py.strip (String w s) = Py.strip s.
Proof. intros Hw. unfold Py.strip. cbn [Py.lstrip]. now rewrite Hw. Qed.

Lemma contains_free (c : ascii) (s : string) :
  CalculatorUI.contains c s = false ->
  str_forallb (fun d => negb (Ascii.eqb d c)) s = true.
Proof.
  induction s as [|d s IH]; cbn; [reflexivity|].
  intros H. apply orb_false_iff in H. destruct H as [-> H]. now apply IH.
Qed.

Lemma contains_app (c : ascii) (a b : string) :
  CalculatorUI.contains c (a ++ b)
  = CalculatorUI.contains c a || CalculatorUI.contains c b.
Proof.
  induction a as [|d a IH]; cbn; [reflexivity|].
  now rewrite IH, orb_assoc.
Qed.

Lemma split_on_first (p : ascii -> bool) (a : string) (sep : ascii)
    (rest : string) :
  str_forallb (fun c => negb (p c)) a = true -> p sep = true ->
  split_on p (a ++ String sep rest) = a :: split_on p rest.
Proof.
  intros Ha Hsep. rewrite (split_on_free_prefix p a _ Ha), split_on_cons, Hsep.
  cbn [hd tl]. now rewrite append_nil_r.
Qed.

Lemma split_on_free (p : ascii -> bool) (a : string) :
  str_forallb (fun c => negb (p c)) a = true -> split_on p a = [a].
Proof.
  intros Ha. rewrite <- (append_nil_r a) at 1.
  rewrite (split_on_free_prefix p a "" Ha). cbn. now rewrite append_nil_r.
Qed.

Lemma load_from_history_split (self : CalculatorUI.t) (tab : nat)
    (a rest : string) (button : CalculatorUI.clicked) :
  CalculatorUI.contains "=" a = false ->
  CalculatorUI.load_from_history self tab (a ++ "=" ++ rest) button
  = (match button with
     | CalculatorUI.ExprBtn => CalculatorUI.set_display self (Py.strip a)
     | CalculatorUI.ResultBtn =>
         CalculatorUI.set_display self
           (Py.strip (hd "" (split_on (fun c => Ascii.eqb c "=") rest)))
     | CalculatorUI.NoBtn => self
     end, 0%nat).
Proof.
  intros Ha. unfold CalculatorUI.load_from_history.
  rewrite contains_app. cbn [append CalculatorUI.contains Ascii.eqb Bool.eqb].
  rewrite orb_true_r.
  rewrite (split_on_first (fun c => Ascii.eqb c "=") a "=" rest
             (contains_free "=" a Ha) eq_refl).
  cbn [nth].
  pose proof (split_on_nonempty (fun c => Ascii.eqb c "=") rest) as Hne.
  destruct (split_on (fun c => Ascii.eqb c "=") rest) as [|h t];
    [contradiction|].
  reflexivity.
Qed.

(** X22: load_from_history splits the row at its equals signs.  A row
    without one changes nothing.  Otherwise the first tab is shown,
    and the button for the expression loads the stripped text before
    the first equals sign, the button for the result the stripped text
    between the first and the second.  For the row of an entry whose
    expression and result hold no equals sign these are the stripped
    expression and the stripped result. *)
Theorem load_from_history_spec (self : CalculatorUI.t) (tab : nat) :
  (forall text button,
     CalculatorUI.contains "=" text = false ->
     CalculatorUI.load_from_history self tab text button = (self, tab)) /\
  (forall a rest button,
     CalculatorUI.contains "=" a = false ->
     CalculatorUI.load_from_history self tab (a ++ "=" ++ rest) button
     = (match button with
        | CalculatorUI.ExprBtn => CalculatorUI.set_display self (Py.strip a)
        | CalculatorUI.ResultBtn =>
            CalculatorUI.set_display self
              (Py.strip (hd "" (split_on (fun c => Ascii.eqb c "=") rest)))
        | CalculatorUI.NoBtn => self
        end, 0%nat)) /\
  (forall expr res,
     CalculatorUI.contains "=" expr = false ->
     CalculatorUI.contains "=" res = false ->
     CalculatorUI.load_from_history self tab (history_row (expr, res))
       CalculatorUI.ExprBtn
     = (CalculatorUI.set_display self (Py.strip expr), 0%nat) /\
     CalculatorUI.load_from_history self tab (history_row (expr, res))
       CalculatorUI.ResultBtn
     = (CalculatorUI.set_display self (Py.strip res), 0%nat)).
Proof.
  split; [|split].
  - intros text button H. unfold CalculatorUI.load_from_history.
    now rewrite H.
  - intros a rest button. apply load_from_history_split.
  - intros expr res He Hr.
    assert (Hrow : history_row (expr, res)
                   = (expr ++ " ") ++ "=" ++ String " " res).
    { unfold history_row. cbn [fst snd]. now rewrite append_assoc3. }
    assert (Ha : CalculatorUI.contains "=" (expr ++ " ") = false).
    { rewrite contains_app, He. reflexivity. }
    assert (Hs : CalculatorUI.contains "=" (String " " res) = false).
    { cbn. exact Hr. }
    rewrite Hrow, !(load_from_history_split self tab _ _ _ Ha).
    rewrite (split_on_free _ _ (contains_free "=" _ Hs)). cbn [hd].
    rewrite (strip_snoc expr " " eq_refl), (strip_cons res " " eq_refl).
    split; reflexivity.
Qed.

Lemma load_from_history_spec_witness :
  CalculatorUI.load_from_history CalculatorUI.init 2
    (history_row (" 2+2", "4.0")) CalculatorUI.ExprBtn
  = (CalculatorUI.set_display CalculatorUI.init (Py.strip " 2+2"), 0%nat) /\
  CalculatorUI.load_from_history CalculatorUI.init 2
    (history_row (" 2+2", "4.0")) CalculatorUI.ResultBtn
  = (CalculatorUI.set_display CalculatorUI.init (Py.strip "4.0"), 0%nat).
Proof.
  apply (proj2 (proj2 (load_from_history_spec CalculatorUI.init 2))
           " 2+2" "4.0"); reflexivity.
Defined.

(** ** The converter tab *)

Lemma from_decimal_returns (x : Py.float) (to_base : Z) :
  exists r, from_decimal x to_base = Ok r.
Proof.
  unfold from_decimal.
  destruct (Py.int_of_float x) as [n|e] eqn:Hx; cbn [bind].
  - destruct (to_base =? 10); [cbn; eauto|].
    destruct (to_base =? 2); [cbn; eauto|].
    destruct (to_base =? 8); [cbn; eauto|].
    destruct (to_base =? 16); [cbn; eauto|].
    destruct (to_base =? -1).
    + destruct (int_to_roman n) as [s|e] eqn:Hr; cbn; [eauto|].
      rewrite (int_to_roman_errors n e Hr). cbn. eauto.
    + destruct (Z_le_dec 2 to_base) as [H2|H2];
        [destruct (Z_le_dec to_base 36) as [H36|H36]|].
      * rewrite to_custom_base_spec by lia. cbn. eauto.
      * destruct (to_custom_base_range n to_base ltac:(lia)) as [e [-> He]].
        cbn. rewrite He. cbn. eauto.
      * destruct (to_custom_base_range n to_base ltac:(lia)) as [e [-> He]].
        cbn. rewrite He. cbn. eauto.
  - destruct (int_of_float_errors x e Hx) as [He|He]; cbn; rewrite He; cbn; eauto.
Qed.

Lemma read_then_float (r : result Z) (e : exn) :
  (forall e', r = Raise e' -> exn_cls e' = ValueError) ->
  try_except (n <- r ;; x <- Py.float_of_int n ;; Ok (Some x))
    [ValueError; TypeError] (fun _ => Ok None) = Raise e ->
  e = Exn OverflowError "int too large to convert to float".
Proof.
  intros Hr. destruct r as [n|e']; cbn [bind].
  - unfold Py.float_of_int.
    destruct (binary_normalize Py.prec Py.emax n 0 false); cbn;
      intros H; try discriminate.
    now injection H as <-.
  - unfold try_except. rewrite (Hr e' eq_refl). cbn. discriminate.
Qed.

(** The only exception that leaves [to_decimal]. *)
Lemma to_decimal_raises (t : string) (b : Z) (e : exn) :
  to_decimal t b = Raise e ->
  e = Exn OverflowError "int too large to convert to float".
Proof.
  unfold to_decimal. destruct (b =? 10).
  - destruct (Py.float_of_str t) as [x|e'] eqn:Hf; cbn; [discriminate|].
    rewrite (float_of_str_errors t e' Hf). cbn. discriminate.
  - destruct ((b =? 2) || (b =? 8) || (b =? 16)).
    + apply read_then_float. intros e'. apply int_of_str_errors.
    + destruct (b =? -1).
      * apply read_then_float. intros e'. apply roman_to_int_errors.
      * apply read_then_float. intros e'. apply int_of_str_errors.
Qed.

Lemma convert_base_conversion (self : CalculatorUI.t)
    (tab : CalculatorUI.converter) :
  CalculatorUI.base_input tab <> "" ->
  CalculatorUI.convert_base self tab
  = match CalculatorUI.conversion tab with
    | Ok result => (self, CalculatorUI.set_base_output tab result)
    | Raise e =>
        match exn_cls e with
        | ValueError =>
            conversion_failed self tab ("Chyba převodu: " ++ exn_msg e)
        | _ => conversion_failed self tab ("Chyba: " ++ exn_msg e)
        end
    end.
Proof.
  intros Hin. unfold CalculatorUI.convert_base.
  destruct (CalculatorUI.base_input tab); [contradiction | reflexivity].
Qed.

(** X23: what convert_base does.  With an empty input it does nothing.
    Otherwise, once both numeral systems are known: when to_decimal
    returns None the box says that the input is invalid for the
    system; when it raises, which it does only for an integer too
    large for a double, the box shows the text of the overflow; when
    from_decimal returns None the box says that the conversion failed;
    in these cases the output field is cleared; otherwise the output
    field shows the text from_decimal returns and no box opens.  When
    int refuses the field of a custom base, the output field is cleared
    and the box shows a text with the conversion prefix. *)
Theorem convert_base_outcome (self : CalculatorUI.t)
    (tab : CalculatorUI.converter) :
  (CalculatorUI.base_input tab = "" ->
   CalculatorUI.convert_base self tab = (self, tab)) /\
  (forall e,
     CalculatorUI.base_input tab <> "" ->
     CalculatorUI.selected_base (CalculatorUI.from_base_combo tab)
       (CalculatorUI.custom_from_base tab) = Raise e \/
     ((exists from_base,
         CalculatorUI.selected_base (CalculatorUI.from_base_combo tab)
           (CalculatorUI.custom_from_base tab) = Ok from_base) /\
      CalculatorUI.selected_base (CalculatorUI.to_base_combo tab)
        (CalculatorUI.custom_to_base tab) = Raise e) ->
     exists m,
       CalculatorUI.convert_base self tab
       = conversion_failed self tab ("Chyba převodu: " ++ m)) /\
  (forall from_base to_base,
     CalculatorUI.base_input tab <> "" ->
     CalculatorUI.selected_base (CalculatorUI.from_base_combo tab)
       (CalculatorUI.custom_from_base tab) = Ok from_base ->
     CalculatorUI.selected_base (CalculatorUI.to_base_combo tab)
       (CalculatorUI.custom_to_base tab) = Ok to_base ->
     (to_decimal (CalculatorUI.base_input tab) from_base = Ok None ->
      CalculatorUI.convert_base self tab
      = conversion_failed self tab
          "Chyba převodu: Neplatný vstup pro vybranou soustavu") /\
     (forall e,
        to_decimal (CalculatorUI.base_input tab) from_base = Raise e ->
        CalculatorUI.convert_base self tab
        = conversion_failed self tab
            "Chyba: int too large to convert to float") /\
     (forall x,
        to_decimal (CalculatorUI.base_input tab) from_base = Ok (Some x) ->
        (from_decimal x to_base = Ok None /\
         CalculatorUI.convert_base self tab
         = conversion_failed self tab "Chyba převodu: Převod selhal") \/
        (exists out,
           from_decimal x to_base = Ok (Some out) /\
           CalculatorUI.convert_base self tab
           = (self, CalculatorUI.set_base_output tab out)))).
Proof.
  split; [|split].
  - intros Hin. unfold CalculatorUI.convert_base. now rewrite Hin.
  - intros e Hin Hsel. rewrite (convert_base_conversion self tab Hin).
    unfold CalculatorUI.conversion.
    assert (Hcls : forall combo custom,
              CalculatorUI.selected_base combo custom = Raise e ->
              exn_cls e = ValueError).
    { intros combo custom. unfold CalculatorUI.selected_base.
      repeat match goal with
             | |- (if ?c then _ else _) = _ -> _ =>
                 destruct c; [discriminate|]
             end.
      apply int_of_str_errors. }
    destruct Hsel as [Hf|[[from_base Hf] Ht]].
    + rewrite Hf. cbn [bind]. rewrite (Hcls _ _ Hf). now exists (exn_msg e).
    + rewrite Hf, Ht. cbn [bind]. rewrite (Hcls _ _ Ht).
      now exists (exn_msg e).
  - intros from_base to_base Hin Hf Ht.
    rewrite (convert_base_conversion self tab Hin).
    unfold CalculatorUI.conversion. rewrite Hf, Ht. cbn [bind].
    split; [|split].
    + intros ->. reflexivity.
    + intros e He. rewrite He.
      rewrite (to_decimal_raises _ _ _ He). reflexivity.
    + intros x ->. cbn [bind].
      destruct (from_decimal_returns x to_base) as [[out|] Hr]; rewrite Hr.
      * right. exists out. split; reflexivity.
      * left. split; reflexivity.
Qed.

Lemma convert_base_outcome_witness :
  CalculatorUI.convert_base CalculatorUI.init
    {| CalculatorUI.base_input := "MMXXIVQ";
       CalculatorUI.from_base_combo := "Římská";
       CalculatorUI.custom_from_base := "";
       CalculatorUI.to_base_combo := "Dvojková (2)";
       CalculatorUI.custom_to_base := "";
       CalculatorUI.base_output := "110" |}
  = conversion_failed CalculatorUI.init
      {| CalculatorUI.base_input := "MMXXIVQ";
         CalculatorUI.from_base_combo := "Římská";
         CalculatorUI.custom_from_base := "";
         CalculatorUI.to_base_combo := "Dvojková (2)";
         CalculatorUI.custom_to_base := "";
         CalculatorUI.base_output := "110" |}
      "Chyba převodu: Neplatný vstup pro vybranou soustavu".
Proof.
  apply (proj1 (proj2 (proj2 (convert_base_outcome CalculatorUI.init
           {| CalculatorUI.base_input := "MMXXIVQ";
              CalculatorUI.from_base_combo := "Římská";
              CalculatorUI.custom_from_base := "";
              CalculatorUI.to_base_combo := "Dvojková (2)";
              CalculatorUI.custom_to_base := "";
              CalculatorUI.base_output := "110" |}))
           (-1) 2 ltac:(discriminate) eq_refl eq_refl)).
  reflexivity.
Defined.

Lemma selected_base_combo (system : CalculatorUI.numeral_system)
    (custom : string) :
  (forall radix, system = CalculatorUI.Custom radix ->
                 Py.int_of_str custom 10 = Ok radix) ->
  CalculatorUI.selected_base (combo_text system) custom
  = Ok (CalculatorUI.base_code system).
Proof.
  intros Hc. destruct system; try reflexivity.
  unfold CalculatorUI.selected_base, combo_text.
  cbn [CalculatorUI.base_code]. now apply Hc.
Qed.

Lemma conversion_reads (tab : CalculatorUI.converter)
    (src dst : CalculatorUI.numeral_system) (n : Z) :
  CalculatorUI.from_base_combo tab = combo_text src ->
  CalculatorUI.to_base_combo tab = combo_text dst ->
  (forall radix, src = CalculatorUI.Custom radix ->
     Py.int_of_str (CalculatorUI.custom_from_base tab) 10 = Ok radix) ->
  (forall radix, dst = CalculatorUI.Custom radix ->
     Py.int_of_str (CalculatorUI.custom_to_base tab) 10 = Ok radix) ->
  (CalculatorUI.base_code src = -1 /\
   roman_to_int (CalculatorUI.base_input tab) = Ok n) \/
  (CalculatorUI.base_code src <> -1 /\ CalculatorUI.base_code src <> 10 /\
   Py.int_of_str (CalculatorUI.base_input tab) (CalculatorUI.base_code src)
   = Ok n) ->
  - 2 ^ 53 <= n <= 2 ^ 53 ->
  CalculatorUI.conversion tab
  = match from_decimal (float_lit n) (CalculatorUI.base_code dst) with
    | Ok (Some out) => Ok out
    | Ok None => Raise (Exn ValueError "Převod selhal")
    | Raise e => Raise e
    end.
Proof.
  intros Hfrom Hto Hcf Hct Hsrc Hn.
  destruct (float_lit_exact n Hn) as [Hf _].
  unfold CalculatorUI.conversion.
  rewrite Hfrom, Hto, (selected_base_combo src _ Hcf),
    (selected_base_combo dst _ Hct).
  cbn [bind].
  assert (Hd : to_decimal (CalculatorUI.base_input tab)
                 (CalculatorUI.base_code src) = Ok (Some (float_lit n))).
  { destruct Hsrc as [[-> Hr]|[H1 [H10 Ht]]].
    - now rewrite to_decimal_roman, Hr, Hf.
    - now rewrite (to_decimal_reads _ _ n H10 H1 Ht), Hf. }
  rewrite Hd. cbn [bind].
  destruct (from_decimal (float_lit n) (CalculatorUI.base_code dst))
    as [[out|]|e]; reflexivity.
Qed.

(** X24: a conversion in the converter tab keeps the value.  When the
    source system, chosen in the list or typed as a custom base, reads
    the input as an integer n from 0 to 2^53 (int for a radix,
    roman_to_int for the Roman numerals), then for a target radix from
    2 to 36 other than 10 the output field shows the numeral of n in
    normal form in that radix and no box opens; for the Roman target
    and n from 1 to 3999 it shows a numeral that roman_to_int reads as
    n; and for the Roman target and n = 0 or n above 3999 the output
    is cleared and the box says that the conversion failed. *)
Theorem convert_base_keeps_value (self : CalculatorUI.t)
    (tab : CalculatorUI.converter)
    (src dst : CalculatorUI.numeral_system) (n : Z) :
  CalculatorUI.base_input tab <> "" ->
  CalculatorUI.from_base_combo tab = combo_text src ->
  CalculatorUI.to_base_combo tab = combo_text dst ->
  (forall radix, src = CalculatorUI.Custom radix ->
     Py.int_of_str (CalculatorUI.custom_from_base tab) 10 = Ok radix) ->
  (forall radix, dst = CalculatorUI.Custom radix ->
     Py.int_of_str (CalculatorUI.custom_to_base tab) 10 = Ok radix) ->
  (CalculatorUI.base_code src = -1 /\
   roman_to_int (CalculatorUI.base_input tab) = Ok n) \/
  (CalculatorUI.base_code src <> -1 /\ CalculatorUI.base_code src <> 10 /\
   Py.int_of_str (CalculatorUI.base_input tab) (CalculatorUI.base_code src)
   = Ok n) ->
  0 <= n <= 2 ^ 53 ->
  (2 <= CalculatorUI.base_code dst <= 36 ->
   CalculatorUI.base_code dst <> 10 ->
   exists out,
     CalculatorUI.convert_base self tab
     = (self, CalculatorUI.set_base_output tab out) /\
     normalized (CalculatorUI.base_code dst) out = true /\
     numeral_value (CalculatorUI.base_code dst) out = n) /\
  (CalculatorUI.base_code dst = -1 -> 1 <= n <= 3999 ->
   exists out,
     CalculatorUI.convert_base self tab
     = (self, CalculatorUI.set_base_output tab out) /\
     roman_to_int out = Ok n) /\
  (CalculatorUI.base_code dst = -1 -> n = 0 \/ 4000 <= n ->
   CalculatorUI.convert_base self tab
   = conversion_failed self tab "Chyba převodu: Převod selhal").
Proof.
  intros Hin Hfrom Hto Hcf Hct Hsrc Hn.
  rewrite (convert_base_conversion self tab Hin).
  rewrite (conversion_reads tab src dst n Hfrom Hto Hcf Hct Hsrc ltac:(lia)).
  destruct (float_lit_exact n ltac:(lia)) as [_ [Hi _]].
  split; [|split].
  - intros Hb H10. rewrite (from_decimal_nonneg n _ Hb H10 Hn).
    exists (upper (Py.magnitude (CalculatorUI.base_code dst) n)).
    split; [reflexivity|].
    destruct (magnitude_spec (CalculatorUI.base_code dst) n Hb)
      as [Hnorm Hval].
    split; [exact Hnorm|]. rewrite Hval. lia.
  - intros -> Hr. rewrite (from_decimal_roman _ n Hi).
    destruct (proj1 (int_to_roman_range n) Hr) as [s [-> Hs]].
    exists s. split; [reflexivity | exact Hs].
  - intros -> Hr. rewrite (from_decimal_roman _ n Hi).
    destruct (proj2 (int_to_roman_range n) ltac:(lia)) as [e ->].
    reflexivity.
Qed.

Lemma convert_base_keeps_value_witness :
  exists out,
    CalculatorUI.convert_base CalculatorUI.init
      {| CalculatorUI.base_input := "mcmxciv";
         CalculatorUI.from_base_combo := "Římská";
         CalculatorUI.custom_from_base := "";
         CalculatorUI.to_base_combo := "Vlastní";
         CalculatorUI.custom_to_base := " 36 ";
         CalculatorUI.base_output := "" |}
    = (CalculatorUI.init,
       CalculatorUI.set_base_output
         {| CalculatorUI.base_input := "mcmxciv";
            CalculatorUI.from_base_combo := "Římská";
            CalculatorUI.custom_from_base := "";
            CalculatorUI.to_base_combo := "Vlastní";
            CalculatorUI.custom_to_base := " 36 ";
            CalculatorUI.base_output := "" |} out) /\
    normalized 36 out = true /\ numeral_value 36 out = 1994.
Proof.
  apply (proj1 (convert_base_keeps_value CalculatorUI.init
           {| CalculatorUI.base_input := "mcmxciv";
              CalculatorUI.from_base_combo := "Římská";
              CalculatorUI.custom_from_base := "";
              CalculatorUI.to_base_combo := "Vlastní";
              CalculatorUI.custom_to_base := " 36 ";
              CalculatorUI.base_output := "" |}
           CalculatorUI.Roman (CalculatorUI.Custom 36) 1994
           ltac:(discriminate) eq_refl eq_refl
           ltac:(discriminate)
           ltac:(intros radix H; injection H as <-; reflexivity)
           ltac:(left; split; reflexivity)
           ltac:(lia))).
  - cbn. lia.
  - cbn. lia.
Defined.
